(** * Doctor: the document-conversion microservice

    A shallow embedding of the extraction orchestrators and of the
    MIME/extension resolver of the repository:

    - [Api]    : src/src/api.py     (the Flask service),
    - [Server] : src/src/server.py  (the first Flask service),
    - [Views]  : src/doctor/views.py (the Django service).

    Python values keep the type they have at run time ([str], [bytes],
    [bool], [None]); a handler is a computation over a world made of the
    temporary files on disk and the log of external tool calls, and it
    either returns or raises. *)

From Stdlib Require Import ZArith Ascii String List.
From Stdlib.Strings Require Import Byte.
From stdpp Require Import gmap strings list fin_maps pretty.

Local Open Scope string_scope.
Local Open Scope Z_scope.

(** ** Python's [str] and [bytes]

    A [str] is a Rocq [string] whose characters are code points below
    256; a [bytes] object is a list of bytes. *)

Module Py.

Definition bytes := list byte.

(** [b"..."] literals. *)
Definition b (s : string) : bytes := list_byte_of_string s.

(** [str.isspace] on the code points below 256: the ASCII white space,
    the separators 0x1c-0x1f, NEL and the no-break space. *)
Definition isspace (c : ascii) : bool :=
  let n := N_of_ascii c in
  ((9 <=? n) && (n <=? 13) || (28 <=? n) && (n <=? 32)
   || (n =? 133) || (n =? 160))%N.

Fixpoint lstrip (s : string) : string :=
  match s with
  | String c s' => if isspace c then lstrip s' else s
  | EmptyString => EmptyString
  end.

(** [rstrip] drops the trailing white space: a character stays when
    something that is not white space follows it or it is not white
    space itself. *)
Fixpoint rstrip (s : string) : string :=
  match s with
  | String c s' =>
      match rstrip s' with
      | EmptyString => if isspace c then EmptyString else String c EmptyString
      | r => String c r
      end
  | EmptyString => EmptyString
  end.

(** [s.strip()] *)
Definition strip (s : string) : string := rstrip (lstrip s).

(** [s.split(sep)] for a one-character separator: never an empty list. *)
Fixpoint split (sep : ascii) (s : string) : list string :=
  match s with
  | EmptyString => [EmptyString]
  | String c s' =>
      if Ascii.eqb c sep then EmptyString :: split sep s'
      else match split sep s' with
           | w :: ws => String c w :: ws
           | [] => [String c EmptyString]
           end
  end.

(** [l[-1]] on a list that [split] returned. *)
Definition last_item (l : list string) : string := List.last l EmptyString.

(** [s.startswith(p)] *)
Definition startswith (s p : string) : bool := String.prefix p s.

(** [needle in hay] on two [str]. *)
Fixpoint contains (needle hay : string) : bool :=
  String.prefix needle hay ||
  match hay with
  | String _ hay' => contains needle hay'
  | EmptyString => false
  end.

(** The text that follows the first occurrence of [needle] in [hay]. *)
Fixpoint after (needle hay : string) : option string :=
  if String.prefix needle hay
  then Some (String.substring (String.length needle)
               (String.length hay - String.length needle) hay)
  else match hay with
       | String _ hay' => after needle hay'
       | EmptyString => None
       end.

(** [s.lower()] on the code points below 256: A-Z and the Latin-1
    capitals 0xc0-0xde, the multiplication sign 0xd7 apart. *)
Definition lower_char (c : ascii) : ascii :=
  let n := N_of_ascii c in
  if ((65 <=? n) && (n <=? 90)
      || (192 <=? n) && (n <=? 222) && negb (n =? 215))%N
  then ascii_of_N (n + 32) else c.

Fixpoint lower (s : string) : string :=
  match s with
  | String c s' => String (lower_char c) (lower s')
  | EmptyString => EmptyString
  end.

(** [needle in hay] on two [bytes]. *)
Fixpoint bytes_prefix (p l : bytes) : bool :=
  match p, l with
  | [], _ => true
  | x :: p', y :: l' => Byte.eqb x y && bytes_prefix p' l'
  | _ :: _, [] => false
  end.

Fixpoint bytes_contains (needle hay : bytes) : bool :=
  bytes_prefix needle hay ||
  match hay with
  | _ :: hay' => bytes_contains needle hay'
  | [] => false
  end.

(** [content.strip(chars)] on [bytes]: the bytes of [chars] are a set. *)
Definition in_bytes (x : byte) (chars : bytes) : bool :=
  existsb (Byte.eqb x) chars.

Fixpoint bytes_lstrip (chars l : bytes) : bytes :=
  match l with
  | x :: l' => if in_bytes x chars then bytes_lstrip chars l' else l
  | [] => []
  end.

Fixpoint bytes_rstrip (chars l : bytes) : bytes :=
  match l with
  | x :: l' =>
      match bytes_rstrip chars l' with
      | [] => if in_bytes x chars then [] else [x]
      | r => x :: r
      end
  | [] => []
  end.

Definition bytes_strip (chars l : bytes) : bytes :=
  bytes_rstrip chars (bytes_lstrip chars l).

(** *** Values, exceptions, outcomes *)

Inductive val :=
| VNone
| VBool (x : bool)
| VInt (z : Z)
| VStr (s : string)
| VBytes (l : bytes).

(** [bool(v)] *)
Definition truthy (v : val) : bool :=
  match v with
  | VNone => false
  | VBool x => x
  | VInt z => negb (z =? 0)
  | VStr s => negb (String.eqb s "")
  | VBytes l => match l with [] => false | _ => true end
  end.

Definition bytes_eqb (l1 l2 : bytes) : bool :=
  (length l1 =? length l2)%nat && bytes_prefix l1 l2.

(** [v == w]: a [bool] is an [int]; [str], [bytes] and [None] are equal
    to values of their own type only. *)
Definition eq (v w : val) : bool :=
  match v, w with
  | VNone, VNone => true
  | VBool x, VBool y => Bool.eqb x y
  | VBool x, VInt z | VInt z, VBool x => (if x then 1 else 0) =? z
  | VInt x, VInt y => x =? y
  | VStr s, VStr t => String.eqb s t
  | VBytes l, VBytes m => bytes_eqb l m
  | _, _ => false
  end.

(** [str(v)] *)
Definition str (v : val) : string :=
  match v with
  | VNone => "None"
  | VBool true => "True"
  | VBool false => "False"
  | VInt z => pretty z
  | VStr s => s
  | VBytes l => "b'" ++ string_of_list_byte l ++ "'"
  end.

(** The classes of the exceptions met here. [OSError] stands for the
    class and for its subclasses other than [FileNotFoundError], which the
    error number of the operating system selects; [BadRequestKeyError] is
    werkzeug's; [ToolError] is whatever an external engine raises. *)
Inductive exn_class :=
| TypeError
| AttributeError
| NameError
| ValueError
| OSError
| FileNotFoundError
| KeyError
| BadRequestKeyError
| ToolError.

Record exn := Exn { exn_cls : exn_class; exn_msg : string }.

Inductive outcome (A : Type) :=
| Return (a : A)
| Raise (e : exn).
Arguments Return {A} a.
Arguments Raise {A} e.

(** [x in c]: a [str] is looked for in a [str], a [bytes] or an [int]
    below 256 in a [bytes]; anything else is a [TypeError]. *)
Definition contains_op (x c : val) : outcome bool :=
  match c, x with
  | VStr hay, VStr needle => Return (contains needle hay)
  | VStr _, _ =>
      Raise (Exn TypeError "'in <string>' requires string as left operand")
  | VBytes hay, VBytes needle => Return (bytes_contains needle hay)
  | VBytes hay, VInt z =>
      Return (existsb (fun y => Z.of_N (Byte.to_N y) =? z) hay)
  | VBytes hay, VBool x =>
      Return (existsb (fun y => Z.of_N (Byte.to_N y) =? (if x then 1 else 0)) hay)
  | VBytes _, VStr _ =>
      Raise (Exn TypeError "a bytes-like object is required, not 'str'")
  | VBytes _, VNone =>
      Raise (Exn TypeError "a bytes-like object is required, not 'NoneType'")
  | _, _ => Raise (Exn TypeError "argument is not iterable")
  end.

Definition bytes_lower (l : bytes) : bytes :=
  map (fun y => let n := Byte.to_N y in
                if ((65 <=? n) && (n <=? 90))%N
                then default y (Byte.of_N (n + 32)) else y) l.

(** [v.lower()]: only [str] and [bytes] have the method. *)
Definition lower_op (v : val) : outcome val :=
  match v with
  | VStr s => Return (VStr (lower s))
  | VBytes l => Return (VBytes (bytes_lower l))
  | VNone =>
      Raise (Exn AttributeError "'NoneType' object has no attribute 'lower'")
  | _ => Raise (Exn AttributeError "object has no attribute 'lower'")
  end.

End Py.


(** ** The world of a request

    The files on disk (path to content) and the log of the calls made to
    the external tools, in the order they were made. *)

Module Os.
Import Py.

Inductive call := Call (tool : string) (path : string).

Record world := World {
  fs : gmap string bytes;
  calls : list call;
}.

Definition with_fs (f : gmap string bytes -> gmap string bytes) (w : world) : world :=
  World (f (fs w)) (calls w).

Definition with_call (c : call) (w : world) : world :=
  World (fs w) (calls w ++ [c]).

(** A computation runs in a world and returns or raises; either way it
    leaves a world behind. *)
Definition M (A : Type) : Type := world -> outcome A * world.

Definition ret {A} (a : A) : M A := fun w => (Return a, w).

Definition raise {A} (e : exn) : M A := fun w => (Raise e, w).

Definition bind {A B} (m : M A) (k : A -> M B) : M B :=
  fun w => match m w with
           | (Return a, w') => k a w'
           | (Raise e, w') => (Raise e, w')
           end.

(** [try: m except Exception as e: h e] *)
Definition try_except {A} (m : M A) (h : exn -> M A) : M A :=
  fun w => match m w with
           | (Return a, w') => (Return a, w')
           | (Raise e, w') => h e w'
           end.

Definition lift {A} (o : outcome A) : M A := fun w => (o, w).

#[global] Instance M_ret : MRet M := @ret.
#[global] Instance M_bind : MBind M := fun A B k m => bind m k.
#[global] Instance M_fmap : FMap M := fun A B f m => bind m (fun a => ret (f a)).

(** [os.path.exists(path)] *)
Definition path_exists (path : string) : M bool :=
  fun w => (Return (bool_decide (is_Some (fs w !! path))), w).

(** [os.remove(path)] *)
Definition remove (path : string) : M unit :=
  fun w => match fs w !! path with
           | Some _ => (Return tt, with_fs (delete path) w)
           | None => (Raise (Exn FileNotFoundError path), w)
           end.

(** [f.save(path)] and [open(path, "wb").write(content)] *)
Definition save (path : string) (content : bytes) : M unit :=
  fun w => (Return tt, with_fs (<[path := content]>) w).

(** The name [NamedTemporaryFile] picks is up to the operating system:
    [mktemp] gets the paths in use and the suffix asked for. *)
Definition mktemp_t : Type := gset string -> string -> string.

(** The bytes a text takes in UTF-8, the encoding of file names: one
    for a code point below 128, two for the others (all below 256). *)
Definition utf8_length (s : string) : nat :=
  fold_right (fun c n => ((if (N_of_ascii c <? 128)%N then 1 else 2) + n)%nat)
    0%nat (list_ascii_of_string s).

(** The longest file name the file system takes, in bytes (255 on the
    file systems of Linux). *)
Definition NAME_MAX : nat := 255.

Definition has_char (c : ascii) (s : string) : bool :=
  existsb (Ascii.eqb c) (list_ascii_of_string s).

(** [NamedTemporaryFile(suffix=suffix)] creates, in the directory for
    temporary files, a file named "tmp", eight characters of its choice
    and the suffix. The suffix comes from the caller: Python refuses a
    NUL in it, and the operating system refuses a "/" (the directory it
    would name does not exist) and a name of more than [NAME_MAX] bytes. *)
Definition suffix_ok (suffix : string) : bool :=
  negb (has_char Ascii.zero suffix) && negb (has_char "/" suffix)
  && (11 + utf8_length suffix <=? NAME_MAX)%nat.

(** What is raised when the file cannot be created: a [ValueError] for
    a NUL, else the [OSError] of the operating system (FileNotFoundError,
    IsADirectoryError or OSError itself, by its error number), which
    names the path. *)
Definition tempfile_error (name suffix : string) : exn :=
  if has_char Ascii.zero suffix then Exn ValueError "embedded null byte"
  else Exn OSError name.

(** [with NamedTemporaryFile(suffix=...) as tmp: body]: when the file
    can be created it exists, empty, while the body runs and is gone when
    the block is left, by [return] or by an exception; when it cannot,
    the block is not entered. *)
Definition with_NamedTemporaryFile {A} (mktemp : mktemp_t) (suffix : string)
    (body : string -> M A) : M A :=
  fun w =>
    let name := mktemp (dom (fs w)) suffix in
    if suffix_ok suffix then
      let '(r, w') := body name (with_fs (<[name := []]>) w) in
      (r, with_fs (delete name) w')
    else (Raise (tempfile_error name suffix), w).

(** A tool of the repository's task module that reads the file at
    [path]: the call is logged and what the tool answers depends on the
    content of the file (or on its absence). *)
Definition run_tool {A} (name : string) (behaviour : option bytes -> outcome A)
    (path : string) : M A :=
  fun w => (behaviour (fs w !! path), with_call (Call name path) w).

(** [f.write(chunk)] on a file open for writing: the chunk goes after
    what the file holds. *)
Definition write (path : string) (chunk : bytes) : M unit :=
  fun w => (Return tt,
            with_fs (<[path := (default [] (fs w !! path) ++ chunk)%list]>) w).

(** [for chunk in chunks: f.write(chunk)] *)
Fixpoint write_chunks (path : string) (chunks : list bytes) : M unit :=
  match chunks with
  | [] => mret tt
  | chunk :: rest => _ ← write path chunk; write_chunks path rest
  end.

End Os.

(** ** JSON payloads and the tools behind the handlers *)

Module Json.

Inductive json :=
| JNull
| JBool (x : bool)
| JInt (z : Z)
| JFloat (text : string)   (* a float, kept as the text it is printed as *)
| JStr (s : string).

(** A JSON object is a dictionary from keys to values. *)
Abbreviation obj := (gmap string json).

Definition is_int (j : json) : bool :=
  match j with JInt _ => true | _ => false end.

End Json.

Module Tasks.
Import Py Os.

(** What an extractor hands back: [(content, err, returncode)]. *)
Definition extraction : Type := string * string * Z.

(** The external engines, as functions of the content of the file they
    are pointed at ([None] when there is no such file), and the choice
    of temporary names. *)
Record tools := Tools {
  pdftotext : option bytes -> outcome extraction;
  rasterizer : option bytes -> outcome (bytes * extraction);
  tesseract : option bytes -> outcome extraction;
  antiword : option bytes -> outcome extraction;
  docx2txt : option bytes -> outcome extraction;
  html2text : option bytes -> outcome extraction;
  txt_decoder : option bytes -> outcome extraction;
  wpd2html : option bytes -> outcome extraction;
  pdf_reader : option bytes -> option N;
  mktemp : mktemp_t;
}.

Section WithTools.
Context (T : tools).

Definition make_pdftotext_process : string -> M extraction :=
  run_tool "make_pdftotext_process" (pdftotext T).

(** [rasterize_pdf(path, destination)] writes the page images to
    [destination]. *)
Definition rasterize_pdf (path destination : string) : M extraction :=
  fun w =>
    match rasterizer T (fs w !! path) with
    | Return (image, r) =>
        (Return r,
         with_call (Call "rasterize_pdf" path)
           (with_fs (<[destination := image]>) w))
    | Raise e => (Raise e, with_call (Call "rasterize_pdf" path) w)
    end.

Definition extract_from_doc : string -> M extraction :=
  run_tool "extract_from_doc" (antiword T).
Definition extract_from_docx : string -> M extraction :=
  run_tool "extract_from_docx" (docx2txt T).
Definition extract_from_html : string -> M extraction :=
  run_tool "extract_from_html" (html2text T).
Definition extract_from_txt : string -> M extraction :=
  run_tool "extract_from_txt" (txt_decoder T).
Definition extract_from_wpd : string -> M extraction :=
  run_tool "extract_from_wpd" (wpd2html T).

End WithTools.
End Tasks.

(** ** src/src/api.py *)

Module Api.
Import Py Os Json Tasks.

(** What Flask has parsed of an HTTP request: the file parts by field
    name and the query parameters. *)
Record file_storage := FileStorage {
  part_filename : string;     (* f.filename *)
  part_content : bytes;       (* what f.save writes, what f.read() returns *)
}.

Record flask_request := FlaskRequest {
  files : gmap string file_storage;   (* request.files *)
  args : gmap string string;          (* request.args *)
}.

(** [request.files[key]]: werkzeug raises its [BadRequestKeyError] for a
    part that is not there; this is the text [str] gives of it. *)
Definition files_getitem (r : flask_request) (key : string) : outcome file_storage :=
  match files r !! key with
  | Some f => Return f
  | None =>
      Raise (Exn BadRequestKeyError
        "400 Bad Request: The browser (or proxy) sent a request that this server could not understand.")
  end.

(** An extraction request that has its file part: what lines 61 and 62
    have read of it. *)
Record request := Request {
  filename : string;          (* request.files["file"].filename *)
  upload : bytes;             (* the bytes of request.files["file"] *)
  do_ocr_arg : option string; (* request.args.get("do_ocr") *)
}.

Record response := Response { body : obj; status : Z }.

Definition jsonify (o : obj) : response := Response o 200.

(** Lines 62-64:
    [do_ocr = request.args.get("do_ocr", default=False)];
    [if do_ocr == "True": do_ocr = True]. *)
Definition parse_do_ocr (arg : option string) : val :=
  let do_ocr := match arg with Some s => VStr s | None => VBool false end in
  if Py.eq do_ocr (VStr "True") then VBool true else do_ocr.

(** [len(content.strip()) == 0] *)
Definition blank (content : string) : bool :=
  (String.length (strip content) =? 0)%nat.

Section WithTools.
Context (T : tools).

(** The PDF-OCR extractor of src/utils/tasks.py, given the rasterized
    file. *)
Definition extract_from_pdf : string -> M extraction :=
  run_tool "extract_from_pdf" (tesseract T).

(** Lines 69-97: the dispatch on the extension, inside the [with] block. *)
Definition dispatch (do_ocr : val) (extension tmp : string) : M extraction :=
  if String.eqb extension "pdf" then
    '(content, err, returncode) ← make_pdftotext_process T tmp;
    if truthy do_ocr && blank content then
      with_NamedTemporaryFile (mktemp T) ".tiff" (fun tmp_tiff =>
        _ ← rasterize_pdf T tmp tmp_tiff;
        '(content, err, returncode) ← extract_from_pdf tmp_tiff;
        if String.eqb content ""
        then mret ("", "Unable to extract document content", 1)
        else mret (content, err, returncode))
    else
      if blank content
      then mret ("", "No content detected", 1)
      else mret (content, err, returncode)
  else if String.eqb extension "doc" then extract_from_doc T tmp
  else if String.eqb extension "docx" then extract_from_docx T tmp
  else if String.eqb extension "html" then extract_from_html T tmp
  else if String.eqb extension "txt" then extract_from_txt T tmp
  else if String.eqb extension "wpd" then extract_from_wpd T tmp
  else mret ("", "Unable to extract content due to unknown extension", 1).

(** Lines 99-103: the dictionary handed to [jsonify]. *)
Definition payload (r : extraction) : obj :=
  let '(content, err, returncode) := r in
  <["content" := JStr content]>
  (<["err" := JStr (str (VStr err))]>
  (<["error_code" := JStr (str (VInt returncode))]> ∅)).

(** Lines 62-104, for a request that has its file part. *)
Definition extract_content (req : request) : M response :=
  let do_ocr := parse_do_ocr (do_ocr_arg req) in
  let extension := last_item (split "." (filename req)) in
  with_NamedTemporaryFile (mktemp T) ("." ++ extension) (fun tmp =>
    _ ← save tmp (upload req);
    r ← dispatch do_ocr extension tmp;
    mret (jsonify (payload r))).

(** Lines 53-104, the endpoint /document/extract_text on whatever
    request comes in: line 61 looks the file part up before anything
    else, outside any [try]. *)
Definition document_extract_text (r : flask_request) : M response :=
  f ← lift (files_getitem r "file");
  extract_content (Request (part_filename f) (part_content f) (args r !! "do_ocr")).

End WithTools.

(** *** Audio conversion (lines 255-282) *)

Record audio_request := AudioRequest {
  audio_file : option bytes;   (* request.files["audio_file"] *)
  audio_data : option string;  (* request.args.get("audio_data") *)
  uuid_hex : string;           (* uuid.uuid4().hex *)
}.

(** The audio engines: the transcoder leaves something (or nothing) at
    the destination whether it raises or not; the tagger rewrites the
    file and hands back the loaded audio file, [None] when it could not
    be loaded, else the text of its duration. *)
Record audio_tools := AudioTools {
  json_loads : string -> outcome obj;
  transcoder : bytes -> option bytes * outcome unit;
  tagger : obj -> option bytes -> outcome (bytes * option string);
  base64 : option bytes -> outcome string;
}.

Section WithAudioTools.
Context (A : audio_tools).

Definition convert_to_mp3 (audio_bytes : bytes) (tmp_path : string) : M unit :=
  fun w =>
    let '(written, r) := transcoder A audio_bytes in
    (r, with_call (Call "convert_to_mp3" tmp_path)
          (match written with
           | Some mp3 => with_fs (<[tmp_path := mp3]>) w
           | None => w
           end)).

Definition set_mp3_meta_data (data : obj) (tmp_path : string) : M (option string) :=
  fun w =>
    match tagger A data (fs w !! tmp_path) with
    | Return (mp3, loaded) =>
        (Return loaded,
         with_call (Call "set_mp3_meta_data" tmp_path)
           (with_fs (<[tmp_path := mp3]>) w))
    | Raise e => (Raise e, with_call (Call "set_mp3_meta_data" tmp_path) w)
    end.

Definition convert_to_base64 : string -> M string :=
  run_tool "convert_to_base64" (base64 A).

Definition audio_conversion (req : audio_request) : M response :=
  let tmp_path := "/tmp/audio_" ++ uuid_hex req ++ ".mp3" in
  try_except
    (audio_bytes ← lift (match audio_file req with
                         | Some l => Return l
                         | None => Raise (Exn BadRequestKeyError
                             "400 Bad Request: The browser (or proxy) sent a request that this server could not understand.")
                         end);
     data ← lift (match audio_data req with
                  | Some s => json_loads A s
                  | None => Raise (Exn TypeError
                      "the JSON object must be str, bytes or bytearray, not NoneType")
                  end);
     _ ← convert_to_mp3 audio_bytes tmp_path;
     loaded ← set_mp3_meta_data data tmp_path;
     audio_b64 ← convert_to_base64 tmp_path;
     _ ← remove tmp_path;
     time_secs ← lift (match loaded with
                       | Some d => Return d
                       | None => Raise (Exn AttributeError
                           "'NoneType' object has no attribute 'info'")
                       end);
     mret (jsonify (<["audio_b64" := JStr audio_b64]>
                   (<["duration" := JFloat time_secs]>
                   (<["msg" := JStr "Success"]> ∅)))))
    (fun e =>
       (* Handle file cleanup and return a 422 *)
       present ← path_exists tmp_path;
       _ ← (if present : bool then remove tmp_path else mret tt);
       mret (Response (<["msg" := JStr (exn_msg e)]> ∅) 422)).

End WithAudioTools.

(** *** MIME type (lines 152-169) *)

(** A request that has its file part: what lines 159 and 160 have read
    of it. *)
Record mime_request := MimeRequest {
  mime_upload : bytes;        (* the bytes of request.files["file"] *)
  mime_arg : option string;   (* request.args.get("mime") *)
}.

(** Line 160 and lines 162-163:
    [mime = request.args.get("mime")]; [if mime == "False": mime = False]. *)
Definition parse_mime (arg : option string) : val :=
  let mime := match arg with Some s => VStr s | None => VNone end in
  if Py.eq mime (VStr "False") then VBool false else mime.

(** [magic.from_file(path, mime=mime)]: libmagic reads the file and
    answers with a MIME type when [mime] holds as true, with a
    description otherwise. *)
Definition from_file (magic : option bytes -> bool -> outcome string)
    (path : string) (mime : val) : M string :=
  fun w => (magic (fs w !! path) (truthy mime),
            with_call (Call "magic.from_file" path) w).

(** Lines 161-169, for a request that has its file part. *)
Definition extract_mime_type (mk : mktemp_t)
    (magic : option bytes -> bool -> outcome string) (req : mime_request)
    : M response :=
  let mime := parse_mime (mime_arg req) in
  try_except
    (mimetype ← with_NamedTemporaryFile mk "" (fun tmp =>
       _ ← save tmp (mime_upload req);
       from_file magic tmp mime);
     mret (jsonify (<["mimetype" := JStr mimetype]> ∅)))
    (fun e => mret (Response (<["error" := JStr (exn_msg e)]> ∅) 422)).

(** Lines 152-169, the endpoint /document/mime_type on whatever request
    comes in: the file part is looked up on line 159, before the [try]. *)
Definition document_mime_type (mk : mktemp_t)
    (magic : option bytes -> bool -> outcome string) (r : flask_request)
    : M response :=
  file ← lift (files_getitem r "file");
  extract_mime_type mk magic (MimeRequest (part_content file) (args r !! "mime")).

End Api.

(** ** src/src/server.py *)

Module Server.
Import Py Os Tasks.

(** What the handler returns: a pair [(content, flag)], whatever an
    extractor of the task module returned, or nothing. *)
Inductive result :=
| Pair (content : string) (flag : bool)
| Extracted (r : extraction)
| NoResult.

Section WithTools.
Context (T : tools).

(** [process.communicate()] on the process [make_pdftotext_process]
    started: the output and the errors. *)
Definition communicate (tmp : string) : M (string * string) :=
  '(content, err, _) ← make_pdftotext_process T tmp;
  mret (content, err).

(** [extract_from_pdf(tmp_tiff)] returns the text alone here. *)
Definition extract_from_pdf (tmp_tiff : string) : M string :=
  '(content, _, _) ← run_tool "extract_from_pdf" (tesseract T) tmp_tiff;
  mret content.

(** Lines 40-83, for a request that has its file part (line 39). *)
Definition extract_content (req : Api.request) : M result :=
  let do_ocr := Api.parse_do_ocr (Api.do_ocr_arg req) in
  let extension := last_item (split "." (Api.filename req)) in
  with_NamedTemporaryFile (mktemp T) ("." ++ extension) (fun tmp =>
    _ ← save tmp (Api.upload req);
    if String.eqb extension "pdf" then
      '(content, err) ← communicate tmp;
      if truthy do_ocr && Api.blank content then
        with_NamedTemporaryFile (mktemp T) ".tiff" (fun tmp_tiff =>
          _ ← rasterize_pdf T tmp tmp_tiff;
          content ← extract_from_pdf tmp_tiff;
          if String.eqb content ""
          then mret (Pair "Unable to extract document content." false)
          else mret (Pair content true))
      else
        if Api.blank content
        then mret (Pair "" false)
        else mret (Pair (strip content) true)
    else if String.eqb extension "doc" then Extracted <$> extract_from_doc T tmp
    else if String.eqb extension "docx" then Extracted <$> extract_from_docx T tmp
    else if String.eqb extension "html" then Extracted <$> extract_from_html T tmp
    else if String.eqb extension "txt" then Extracted <$> extract_from_txt T tmp
    else if String.eqb extension "wpd" then Extracted <$> extract_from_wpd T tmp
    else mret NoResult).

End WithTools.
End Server.

(** ** src/doctor/views.py *)

Module Views.
Import Py Os Json Tasks.

Inductive response :=
| HttpResponse (content : string) (status : Z)
| JsonResponse (data : obj).

Definition NOT_ACCEPTABLE : Z := 406.

(** A request to a document endpoint, as [DocumentForm] sees it. *)
Record request := Request {
  well_formed : bool;           (* what form.is_valid() answers *)
  form_errors : option string;  (* the message under "__all__", if any *)
  upload : bytes;               (* request.FILES["file"] *)
  extension : string;           (* cleaned_data["extension"] *)
  ocr_available : bool;         (* cleaned_data["ocr_available"] *)
}.

Record form := Form {
  is_valid : bool;
  fp : string;                  (* cleaned_data["fp"] *)
}.

(** The sniffing libraries: [magic.from_buffer(content)],
    [magic.from_buffer(content, mime=True)] and
    [mimetypes.guess_extension(mime)]. *)
Record sniffer := Sniffer {
  from_buffer : bytes -> string;
  from_buffer_mime : bytes -> string;
  guess_extension : string -> option string;
}.

(** A request to a sniffing endpoint, as [MimeForm] sees it. *)
Record mime_request := MimeRequest {
  mime_well_formed : bool;      (* what form.is_valid() answers *)
  file : bytes;                 (* cleaned_data["file"].read() *)
}.

Section WithTools.
Context (T : tools).

(** Modelled from the spec: doctor/forms.py is not under src/. A
    well-formed request has its upload saved to a file of its own,
    [cleaned_data["fp"]], which the handlers hand to the extractors and
    remove (views.py, line 118); the spec (4.3, step 6) scopes such files
    to the call. A malformed request (ValidationError, spec 7) is taken
    to save nothing. *)
Definition DocumentForm (req : request) : M form :=
  if well_formed req then
    fun w =>
      let name := mktemp T (dom (fs w)) ("." ++ extension req) in
      (Return (Form true name), with_fs (<[name := upload req]>) w)
  else mret (Form false "").

(** Modelled from the spec: doctor/lib/utils.py is not under src/.
    [cleanup_form] removes the saved upload, as line 118 of views.py
    does by hand with [os.remove(form.cleaned_data["fp"])]. *)
Definition cleanup_form (f : form) : M unit := remove (fp f).

(** Modelled from the spec: doctor/tasks.py is not under src/. Spec 4.3,
    step 3: when the caller permits OCR and the text layer is empty or
    white space only, rasterize and run the PDF-OCR extractor, and mark
    [extracted_by_ocr] on this path only; when OCR yields empty text too,
    report "unable to extract document content" with a nonzero exit code.
    Spec 8: an image-only PDF with OCR disallowed gives empty content, a
    nonzero exit code and [extracted_by_ocr = false] (the diagnostic is
    the one api.py gives there). *)
Definition extract_from_pdf (path : string) (ocr : bool)
    : M (string * string * Z * bool) :=
  '(content, err, returncode) ← make_pdftotext_process T path;
  if ocr && Api.blank content then
    with_NamedTemporaryFile (mktemp T) ".tiff" (fun tiff =>
      _ ← rasterize_pdf T path tiff;
      '(content, err, returncode) ← Api.extract_from_pdf T tiff;
      if String.eqb content ""
      then mret ("", "unable to extract document content", 1, true)
      else mret (content, err, returncode, true))
  else
    if Api.blank content
    then mret ("", "No content detected", 1, false)
    else mret (content, err, returncode, false).

(** Modelled from the spec: doctor/tasks.py is not under src/. Spec 4.4:
    PDF gives the structural page count, every other format gives null,
    not zero. The handlers call it on every path, so the call is logged
    whatever the extension. *)
Definition get_page_count (path extension : string) : M (option Z) :=
  fun w =>
    (Return (if String.eqb extension "pdf"
             then Z.of_N <$> pdf_reader T (fs w !! path) else None),
     with_call (Call "get_page_count" path) w).

(** Lines 54-68. *)
Definition extract_pdf (req : request) : M response :=
  try_except
    (f ← DocumentForm req;
     if negb (is_valid f) then
       validation_message ← lift (match form_errors req with
                                  | Some m => Return m
                                  | None => Raise (Exn KeyError "'__all__'")
                                  end);
       mret (HttpResponse validation_message NOT_ACCEPTABLE)
     else
       '(content, err, returncode, extracted_by_ocr) ←
          extract_from_pdf (fp f) (ocr_available req);
       _ ← cleanup_form f;
       mret (HttpResponse content 200))
    (fun e => mret (HttpResponse (exn_msg e) NOT_ACCEPTABLE)).

(** The local variables the dispatch of [extract_doc_content] leaves
    bound: [returncode] is bound by every branch but the last. *)
Record locals := Locals {
  content : string;
  err : string;
  returncode : option Z;
  extracted_by_ocr : bool;
}.

Definition bound (by_ocr : bool) (r : extraction) : locals :=
  let '(c, e, rc) := r in Locals c e (Some rc) by_ocr.

(** Lines 99-114. *)
Definition dispatch (extension path : string) (ocr : bool) : M locals :=
  let extracted_by_ocr := false in
  if String.eqb extension "pdf" then
    '(c, e, rc, by_ocr) ← extract_from_pdf path ocr;
    mret (Locals c e (Some rc) by_ocr)
  else if String.eqb extension "doc" then
    bound extracted_by_ocr <$> extract_from_doc T path
  else if String.eqb extension "docx" then
    bound extracted_by_ocr <$> extract_from_docx T path
  else if String.eqb extension "html" then
    bound extracted_by_ocr <$> extract_from_html T path
  else if String.eqb extension "txt" then
    bound extracted_by_ocr <$> extract_from_txt T path
  else if String.eqb extension "wpd" then
    bound extracted_by_ocr <$> extract_from_wpd T path
  else
    mret (Locals "" "Unable to extract content due to unknown extension"
            None extracted_by_ocr).

Definition json_of_count (n : option Z) : json :=
  match n with Some z => JInt z | None => JNull end.

(** Lines 119-127: the dictionary handed to [JsonResponse]. *)
Definition payload (extension : string) (l : locals) (page_count : option Z) : obj :=
  <["content" := JStr (content l)]>
  (<["err" := JStr (err l)]>
  (<["extension" := JStr extension]>
  (<["extracted_by_ocr" := JBool (extracted_by_ocr l)]>
  (<["page_count" := json_of_count page_count]> ∅)))).

(** Lines 87-127. *)
Definition extract_doc_content (req : request) : M response :=
  f ← DocumentForm req;
  if negb (is_valid f) then mret (HttpResponse "Failed validation" NOT_ACCEPTABLE)
  else
    l ← dispatch (extension req) (fp f) (ocr_available req);
    (* Get page count if you can *)
    page_count ← get_page_count (fp f) (extension req);
    _ ← remove (fp f);
    mret (JsonResponse (payload (extension req) l page_count)).

Definition val_of_count (n : option Z) : val :=
  match n with Some z => VInt z | None => VNone end.

(** Lines 149-160; [HttpResponse(pg_count)] carries [str(pg_count)]. *)
Definition page_count (req : request) : M response :=
  f ← DocumentForm req;
  if negb (is_valid f) then mret (HttpResponse "Failed validation" NOT_ACCEPTABLE)
  else
    pg_count ← get_page_count (fp f) (extension req);
    _ ← cleanup_form f;
    mret (HttpResponse (str (val_of_count pg_count)) 200).

(** [JsonResponse(data, encoder, safe, json_dumps_params)] with four
    positional arguments that are plain values: with [safe] holding as
    true, data that is not a dict is refused; otherwise the dump fails on
    an encoder that is not a class. *)
Definition JsonResponse_positional (data encoder safe json_dumps_params : val)
    : outcome response :=
  if truthy safe
  then Raise (Exn TypeError
         "In order to allow non-dict objects to be serialized set the safe parameter to False.")
  else Raise (Exn TypeError "object is not callable").

(** Lines 239-254. *)
Definition pdf_to_text (req : request) : M response :=
  f ← DocumentForm req;
  if negb (is_valid f) then mret (HttpResponse "Failed validation" NOT_ACCEPTABLE)
  else
    '(content, err, _) ← make_pdftotext_process T (fp f);
    _ ← cleanup_form f;
    lift (JsonResponse_positional (VStr "content") (VStr content)
            (VStr "err") (VStr err)).

End WithTools.

Section WithSniffer.
Context (S : sniffer).

Definition json_of_extension (e : option string) : json :=
  match e with Some s => JStr s | None => JNull end.

(** Lines 177-186. *)
Definition extract_mime_from_buffer (req : mime_request) : M response :=
  if negb (mime_well_formed req)
  then mret (HttpResponse "Failed validation" NOT_ACCEPTABLE)
  else
    let file_buffer := file req in
    let mime := from_buffer_mime S file_buffer in
    let extension := guess_extension S mime in
    mret (JsonResponse (<["mime" := JStr mime]>
                       (<["extension" := json_of_extension extension]> ∅))).

Definition newline : ascii := ascii_of_N 10.
Definition carriage_return : byte := Byte.x0d.

(** Lines 207-209: [re.findall] finds a match of one of the two
    alternatives, "Audio file with ID3", then "MPEG", then "layer III"
    with anything in between, or "Audio Media" anywhere. The dot matches
    anything but a newline, so a match lies within one line. *)
Definition audio_label (file_str : string) : bool :=
  existsb
    (fun line =>
       match after "Audio file with ID3" line with
       | Some rest =>
           match after "MPEG" rest with
           | Some rest' => contains "layer III" rest'
           | None => false
           end
       | None => false
       end
       || contains "Audio Media" line)
    (split newline file_str).

(** Lines 196-213. *)
Definition sniff_mime (content : bytes) : string :=
  let file_str := from_buffer S content in
  if startswith file_str "Composite Document File V2 Document" then
    "application/msword"
  else if String.eqb file_str "(Corel/WP)" then
    "application/vnd.wordperfect"
  else if String.eqb file_str "C source, ASCII text" then
    "text/plain"
  else if startswith file_str "WordPerfect document" then
    "application/vnd.wordperfect"
  else if audio_label file_str then
    "audio/mpeg"
  else
    (* No workaround necessary *)
    from_buffer_mime S content.

(** [extension == ".obj"] on a value that is a [str] or [None]. *)
Definition is_ext (extension : option string) (e : string) : bool :=
  Py.eq (match extension with Some s => VStr s | None => VNone end) (VStr e).

(** Lines 214-226. *)
Definition resolve (content : bytes) : M (option string) :=
  let mime := sniff_mime content in
  let extension := guess_extension S mime in
  extension ←
    (if is_ext extension ".obj" then
       (* It could be a wpd, if it's not a PDF *)
       is_pdf ← lift (contains_op (VStr "PDF") (VBytes (take 40 content)));
       if is_pdf : bool then mret (Some ".pdf") else mret (Some ".wpd")
     else mret extension);
  if is_ext extension ".bin" then
    let mime := from_buffer_mime S
                  (bytes_strip (b "%%EOF" ++ [carriage_return])%list content) in
    mret (guess_extension S mime)
  else mret extension.

Definition fixes : gmap string string :=
  <[".htm" := ".html"]>
  (<[".xml" := ".html"]>
  (<[".wsdl" := ".html"]>
  (<[".ksh" := ".txt"]>
  (<[".asf" := ".wma"]>
  (<[".dot" := ".doc"]> ∅))))).

(** [fixes.get(extension, extension)] *)
Definition fix_up (extension : option string) : val :=
  match extension with
  | Some e => VStr (default e (fixes !! e))
  | None => VNone
  end.

(** Lines 189-236. *)
Definition extract_extension (req : mime_request) : M response :=
  if negb (mime_well_formed req)
  then mret (HttpResponse "Failed validation" NOT_ACCEPTABLE)
  else
    let content := file req in
    extension ← resolve content;
    body ← lift (lower_op (fix_up extension));
    mret (HttpResponse (str body) 200).

End WithSniffer.

(** A request to the duration endpoint, as [AudioForm] sees it. *)
Record audio_request := AudioRequest {
  audio_well_formed : bool;   (* what form.is_valid() answers *)
  chunks : list bytes;        (* cleaned_data["file"].chunks() *)
}.

(** What [eyed3.load] hands back: [None] for a file it does not take
    for audio, else an audio file, whose [info] is [None] when no audio
    frame was found in it. *)
Record audio_info := AudioInfo {
  time_secs : string;         (* the duration in seconds, as it is printed *)
}.

Record audio_file := AudioFile {
  info : option audio_info;
}.

(** [x.attribute] on a value that may be [None]. *)
Definition getattr {A} (x : option A) (attribute : string) : outcome A :=
  match x with
  | Some a => Return a
  | None => Raise (Exn AttributeError
              ("'NoneType' object has no attribute '" ++ attribute ++ "'"))
  end.

(** Lines 283-296. *)
Definition fetch_audio_duration (mk : mktemp_t)
    (eyed3_load : option bytes -> outcome (option audio_file))
    (req : audio_request) : M response :=
  try_except
    (if negb (audio_well_formed req)
     then mret (HttpResponse "Failed validation" NOT_ACCEPTABLE)
     else
       with_NamedTemporaryFile mk ".mp3" (fun tmp =>
         _ ← save tmp [];
         _ ← write_chunks tmp (chunks req);
         mp3_file ← run_tool "eyed3.load" eyed3_load tmp;
         loaded ← lift (getattr mp3_file "info");
         mp3_info ← lift (getattr (info loaded) "time_secs");
         mret (HttpResponse (time_secs mp3_info) 200)))
    (fun e => mret (HttpResponse (exn_msg e) 200)).

End Views.

(** ** src/doctor/urls.py *)

Module Urls.

Inductive view :=
| heartbeat
| extract_pdf
| extract_doc_content
| image_to_pdf
| images_to_pdf
| make_png_thumbnail
| convert_audio
| page_count
| extract_mime_type
| extract_extension
| extract_mime_from_buffer
| fetch_audio_duration
| embed_text
| pdf_to_text.

Record pattern := path { route : string; target : view; name : string }.

Definition urlpatterns : list pattern := [
  (* Server *)
  path "" heartbeat "heartbeat";
  path "extract/pdf/text/" extract_pdf "extract-pdf-to-text";
  path "extract/doc/text/" extract_doc_content "convert-doc-to-text";
  path "convert/image/pdf/" image_to_pdf "image-to-pdf";
  path "convert/images/pdf/" images_to_pdf "images-to-pdf";
  path "convert/pdf/thumbnail/" make_png_thumbnail "thumbnail";
  path "convert/audio/mp3/" convert_audio "convert-audio";
  path "utils/page-count/pdf/" page_count "page_count";
  path "utils/mime-type/" extract_mime_type "mime_type";
  path "utils/file/extension/" extract_extension "file-extension";
  path "utils/file/mime/" extract_mime_from_buffer "mime_type_from_buffer";
  path "utils/audio/duration/" fetch_audio_duration "audio-duration";
  path "utils/add/text/pdf/" embed_text "add-text-to-pdf";
  (* Extractors *)
  path "text/" extract_pdf "text";
  path "extract-doc-content/" extract_doc_content "extract-doc-content";
  (* Utils *)
  path "pg-count/" page_count "page_count";
  path "mime-type/" extract_mime_type "mime_type";
  (* Converters *)
  path "image-to-pdf/" image_to_pdf "image-to-pdf";
  path "thumbnail/" make_png_thumbnail "thumbnail";
  path "images-to-pdf/" images_to_pdf "images-to-pdf";
  (* Audio files *)
  path "convert-audio/" convert_audio "convert-audio";
  (* Legacy URLs *)
  path "document/page_count" page_count "page_count";
  path "document/thumbnail" make_png_thumbnail "thumbnail";
  (* Unsupported - to retire *)
  path "document/pdf-to-text/" pdf_to_text "pdf-to-text"
].

(** The pattern that serves a request path (without its leading slash):
    the first one whose route is the path. *)
Definition resolve (request_path : string) : option pattern :=
  List.find (fun p => String.eqb (route p) request_path) urlpatterns.

Definition view_eqb (v v' : view) : bool :=
  match v, v' with
  | heartbeat, heartbeat | extract_pdf, extract_pdf
  | extract_doc_content, extract_doc_content | image_to_pdf, image_to_pdf
  | images_to_pdf, images_to_pdf | make_png_thumbnail, make_png_thumbnail
  | convert_audio, convert_audio | page_count, page_count
  | extract_mime_type, extract_mime_type | extract_extension, extract_extension
  | extract_mime_from_buffer, extract_mime_from_buffer
  | fetch_audio_duration, fetch_audio_duration | embed_text, embed_text
  | pdf_to_text, pdf_to_text => true
  | _, _ => false
  end.

End Urls.

(** ** What the statements below talk about *)

Module Spec.
Import Py Os Json Tasks.

(** The operating system hands out temporary names that are not in use. *)
Definition fresh_names (T : tools) : Prop :=
  ∀ (X : gset string) (suffix : string), mktemp T X suffix ∉ X.

(** What the OCR pass of api.py makes of the answer of the OCR engine
    (lines 75-80). *)
Definition ocr_verdict (r : extraction) : extraction :=
  let '(content, err, returncode) := r in
  if String.eqb content "" then ("", "Unable to extract document content", 1)
  else (content, err, returncode).

(** The same for the PDF extractor of the Django service, which also
    says whether OCR made the text. *)
Definition ocr_locals (r : extraction) : Views.locals :=
  let '(content, err, returncode) := r in
  if String.eqb content ""
  then Views.Locals "" "unable to extract document content" (Some 1) true
  else Views.Locals content err (Some returncode) true.

(** The names an exit code could go by in a payload. *)
Definition exit_code_keys : list string :=
  ["exit_code"; "error_code"; "returncode"].

(** The payload reports an exit code, of whatever type. *)
Definition reports_exit_code (d : obj) : bool :=
  existsb (fun k => bool_decide (is_Some (d !! k))) exit_code_keys.

(** The payload has an integer exit code. *)
Definition has_integer_exit_code (d : obj) : bool :=
  existsb (fun k => match d !! k with Some (JInt _) => true | _ => false end)
    exit_code_keys.

(** The record of the data model: content, error, integer exit code,
    extracted_by_ocr and page_count. *)
Definition extraction_result_shape (d : obj) : bool :=
  has_integer_exit_code d
  && bool_decide (is_Some (d !! "content"))
  && (bool_decide (is_Some (d !! "error")) || bool_decide (is_Some (d !! "err")))
  && bool_decide (is_Some (d !! "extracted_by_ocr"))
  && bool_decide (is_Some (d !! "page_count")).

(** The files of [w'] are those of [w], the one at [path] apart. *)
Definition elsewhere (path : string) (w w' : world) : Prop :=
  delete path (fs w') = delete path (fs w).

(** The name of the rasterized file, given the name of the saved upload. *)
Definition tiff_name (T : tools) (w : world) (path : string) (upload : bytes)
    : string :=
  mktemp T (dom (<[path := upload]> (fs w))) ".tiff".

(** What is counted for the saved upload of a request. *)
Definition counted (T : tools) (req : Views.request) : option Z :=
  if (Views.extension req =? "pdf")%string
  then Z.of_N <$> pdf_reader T (Some (Views.upload req)) else None.

(** An exit code that says failure, as a number or as its text. *)
Definition nonzero (j : json) : bool :=
  match j with
  | JInt z => negb (z =? 0)
  | JStr s => negb (String.eqb s "0") && negb (String.eqb s "")
  | _ => false
  end.

Definition reports_nonzero_exit_code (d : obj) : bool :=
  existsb (fun k => match d !! k with Some j => nonzero j | None => false end)
    exit_code_keys.

(** The extensions that have an extractor. *)
Definition registered (extension : string) : bool :=
  bool_decide (extension ∈ ["pdf"; "doc"; "docx"; "html"; "txt"; "wpd"]).

(** A tool that never raises. *)
Definition returns {A B : Type} (f : A -> outcome B) : Prop :=
  forall a, exists r, f a = Return r.

Definition tools_return (T : tools) : Prop :=
  returns (pdftotext T) /\ returns (rasterizer T) /\ returns (tesseract T)
  /\ returns (antiword T) /\ returns (docx2txt T) /\ returns (html2text T)
  /\ returns (txt_decoder T) /\ returns (wpd2html T).

(** The extractor of a format other than PDF: the name it is called by
    and the engine behind it. *)
Definition extractor_of (T : tools) (extension : string)
    : option (string * (option bytes -> outcome extraction)) :=
  if (extension =? "doc")%string then Some ("extract_from_doc", antiword T)
  else if (extension =? "docx")%string then Some ("extract_from_docx", docx2txt T)
  else if (extension =? "html")%string then Some ("extract_from_html", html2text T)
  else if (extension =? "txt")%string then Some ("extract_from_txt", txt_decoder T)
  else if (extension =? "wpd")%string then Some ("extract_from_wpd", wpd2html T)
  else None.

(** The code points below 256 that Python takes for white space: the
    controls U+0009 to U+000D and U+001C to U+001F, the space, NEL and
    the no-break space. *)
Definition white_space_below_256 : list N :=
  [9; 10; 11; 12; 13; 28; 29; 30; 31; 32; 133; 160]%N.

(** The text has no dot in it. *)
Definition dot_free (s : string) : bool :=
  forallb (fun c => negb (Ascii.eqb c ".")) (list_ascii_of_string s).

(** The path of the temporary file of the audio handler of api.py. *)
Definition audio_tmp_path (req : Api.audio_request) : string :=
  "/tmp/audio_" ++ Api.uuid_hex req ++ ".mp3".

(** What the audio handler of api.py finds at its temporary path once
    the transcoder is done. *)
Definition transcoded (A : Api.audio_tools) (req : Api.audio_request)
    (w : world) (audio : bytes) : option bytes :=
  match (Api.transcoder A audio).1 with
  | Some mp3 => Some mp3
  | None => fs w !! audio_tmp_path req
  end.

(** Every step of the [try] block of the audio handler goes through. *)
Definition audio_steps (A : Api.audio_tools) (req : Api.audio_request)
    (w : world) : Prop :=
  exists audio s data mp3 d b64,
    Api.audio_file req = Some audio
    /\ Api.audio_data req = Some s
    /\ Api.json_loads A s = Return data
    /\ (Api.transcoder A audio).2 = Return tt
    /\ Api.tagger A data (transcoded A req w audio) = Return (mp3, Some d)
    /\ Api.base64 A (Some mp3) = Return b64.

End Spec.

(** ** Tools and requests to run the handlers on *)

Module Fixtures.
Import Py Os Json Tasks.

Definition tmpname : mktemp_t := fun X _ => fresh X.

Definition form_feeds : string :=
  String (ascii_of_N 12) (String (ascii_of_N 12) EmptyString).

Definition answers (text : string) : option bytes -> outcome extraction :=
  fun _ => Return (text, "", 0).

(** A scanned PDF: no text layer, and an OCR engine that reads
    [ocr_text] on the page images. *)
Definition scanned (ocr_text : string) : tools :=
  {| pdftotext := answers form_feeds;
     rasterizer := fun _ => Return (b "II*", ("", "", 0));
     tesseract := answers ocr_text;
     antiword := answers "doc text";
     docx2txt := answers "docx text";
     html2text := answers "html text";
     txt_decoder := answers "plain text";
     wpd2html := answers "wpd text";
     pdf_reader := fun _ => Some 2%N;
     mktemp := tmpname |}.

(** A text-layer extraction that blows up. *)
Definition broken : tools :=
  {| pdftotext := fun _ => Raise (Exn ToolError "pdftotext: cannot decode output");
     rasterizer := fun _ => Return (b "II*", ("", "", 0));
     tesseract := answers "";
     antiword := fun _ => Raise (Exn ToolError "antiword: not a Word document");
     docx2txt := answers "docx text";
     html2text := answers "html text";
     txt_decoder := answers "plain text";
     wpd2html := answers "wpd text";
     pdf_reader := fun _ => None;
     mktemp := tmpname |}.

Definition empty_world : world := World ∅ [].

(** A request to the Flask service with one file part, called "file". *)
Definition upload_of (filename : string) (content : bytes)
    (query : list (string * string)) : Api.flask_request :=
  Api.FlaskRequest {["file" := Api.FileStorage filename content]}
    (list_to_map query).

Definition image_pdf : bytes := b "%PDF-1.4 scanned pages".

Definition table (entries : list (string * string)) (mime : string) : option string :=
  (list_to_map entries : gmap string string) !! mime.

(** libmagic sees unnamed binary data and the table files it under the
    object-file placeholder. *)
Definition placeholder_sniffer : Views.sniffer :=
  {| Views.from_buffer := fun _ => "data";
     Views.from_buffer_mime := fun _ => "application/octet-stream";
     Views.guess_extension := table [("application/octet-stream", ".obj")] |}.

(** A MIME type the table has no extension for. *)
Definition unlisted_sniffer : Views.sniffer :=
  {| Views.from_buffer := fun _ => "Apple binary property list";
     Views.from_buffer_mime := fun _ => "application/x-bplist";
     Views.guess_extension := table [("application/pdf", ".pdf")] |}.

(** The labels of the two word-processor workarounds, with the entries
    the table of the standard library and of /etc/mime.types have. *)
Definition office_table : string -> option string :=
  table [("application/msword", ".dot");
         ("application/vnd.wordperfect", ".wpd");
         ("text/html", ".htm")].

Definition word_sniffer : Views.sniffer :=
  {| Views.from_buffer := fun _ =>
       "Composite Document File V2 Document, Little Endian, Os: Windows";
     Views.from_buffer_mime := fun _ => "application/octet-stream";
     Views.guess_extension := office_table |}.

Definition corel_sniffer : Views.sniffer :=
  {| Views.from_buffer := fun _ => "(Corel/WP)";
     Views.from_buffer_mime := fun _ => "application/octet-stream";
     Views.guess_extension := office_table |}.

Definition html_sniffer : Views.sniffer :=
  {| Views.from_buffer := fun _ => "HTML document, ASCII text";
     Views.from_buffer_mime := fun _ => "text/html";
     Views.guess_extension := office_table |}.

(** A PDF with a text layer that reads [text]; every other engine fails. *)
Definition typed (text : string) : tools :=
  {| pdftotext := answers text;
     rasterizer := fun _ => Raise (Exn ToolError "rasterizer: not called for");
     tesseract := fun _ => Raise (Exn ToolError "tesseract: not called for");
     antiword := fun _ => Raise (Exn ToolError "antiword: not a Word document");
     docx2txt := fun _ => Raise (Exn ToolError "docx2txt: not a zip file");
     html2text := fun _ => Raise (Exn ToolError "html2text: not called for");
     txt_decoder := fun _ => Raise (Exn ToolError "decoder: not called for");
     wpd2html := fun _ => Raise (Exn ToolError "wpd2html: not called for");
     pdf_reader := fun _ => Some 30%N;
     mktemp := tmpname |}.

(** libmagic on a PDF: the MIME type when asked for it, the description
    otherwise. *)
Definition pdf_magic : option bytes -> bool -> outcome string :=
  fun _ mime => Return (if mime then "application/pdf" else "PDF document, version 1.4").

(** An audio library that cannot load what it is given. *)
Definition deaf_eyed3 : option bytes -> outcome (option Views.audio_file) :=
  fun _ => Return None.

(** An audio library that loads the file and finds no audio frame. *)
Definition silent_eyed3 : option bytes -> outcome (option Views.audio_file) :=
  fun _ => Return (Some (Views.AudioFile None)).

(** Audio engines that do their work. *)
Definition working_audio : Api.audio_tools :=
  {| Api.json_loads := fun _ => Return ∅;
     Api.transcoder := fun _ => (Some (b "ID3 mp3"), Return tt);
     Api.tagger := fun _ _ => Return (b "ID3 tagged mp3", Some "51.6");
     Api.base64 := fun _ => Return "SUQz" |}.

End Fixtures.

(** * Facts *)

Import Py Os Json Tasks Spec.

(** ** Python's strings *)

Example strip_form_feeds : strip Fixtures.form_feeds = "".
Proof. reflexivity. Qed.

Example strip_keeps_inner : strip "  a b  " = "a b".
Proof. reflexivity. Qed.

Example split_last_of_three : last_item (split "." "brief.v2.PDF") = "PDF".
Proof. reflexivity. Qed.

Example split_without_dot : split "." "README" = ["README"].
Proof. reflexivity. Qed.

Example lower_extension : lower ".HTM" = ".htm".
Proof. reflexivity. Qed.

Example str_in_bytes :
  contains_op (VStr "PDF") (VBytes (b "%PDF-1.4"))
  = Raise (Exn TypeError "a bytes-like object is required, not 'str'").
Proof. reflexivity. Qed.

Example bytes_in_bytes :
  contains_op (VBytes (b "PDF")) (VBytes (b "%PDF-1.4")) = Return true.
Proof. reflexivity. Qed.

Lemma split_not_nil (sep : ascii) (s : string) : split sep s ≠ [].
Proof.
  destruct s as [|c s]; simpl; [discriminate|].
  destruct (Ascii.eqb c sep); [discriminate|].
  destruct (split sep s); discriminate.
Qed.

Lemma lstrip_blank (s : string) : lstrip s = "" -> rstrip s = "".
Proof.
  induction s as [|c s IH]; simpl; [reflexivity|].
  destruct (isspace c) eqn:Hc; [|discriminate].
  intros H. rewrite (IH H). reflexivity.
Qed.

(** A text is blank exactly when white space is all it has. *)
Lemma blank_iff_all_space (s : string) :
  Api.blank s = true <-> forallb isspace (list_ascii_of_string s) = true.
Proof.
  unfold Api.blank, strip. split.
  - induction s as [|c s IH]; simpl; [reflexivity|].
    destruct (isspace c) eqn:Hc; simpl.
    + exact IH.
    + destruct (rstrip s); rewrite ?Hc; discriminate.
  - induction s as [|c s IH]; simpl; [reflexivity|].
    destruct (isspace c) eqn:Hc; simpl; [exact IH | discriminate].
Qed.

Example suffix_of_a_pdf : suffix_ok ".pdf" = true.
Proof. reflexivity. Qed.

Example suffix_with_a_slash :
  suffix_ok ("." ++ last_item (split "." "brief.v1/final")) = false.
Proof. reflexivity. Qed.

Example suffix_with_a_nul :
  tempfile_error "/tmp/tmp0" (String Ascii.zero "pdf")
  = Exn ValueError "embedded null byte".
Proof. reflexivity. Qed.

(** ** Running a computation step by step *)

Section Run.
Context {A B : Type}.

Lemma bind_run (m : M A) (k : A -> M B) (w : world) :
  (m ≫= k) w = match m w with
               | (Return a, w') => k a w'
               | (Raise e, w') => (Raise e, w')
               end.
Proof. reflexivity. Qed.

Lemma bind_return (m : M A) (k : A -> M B) (w w' : world) (a : A) :
  m w = (Return a, w') -> (m ≫= k) w = k a w'.
Proof. intros H. rewrite bind_run, H. reflexivity. Qed.

Lemma bind_raise (m : M A) (k : A -> M B) (w w' : world) (e : exn) :
  m w = (Raise e, w') -> (m ≫= k) w = (Raise e, w').
Proof. intros H. rewrite bind_run, H. reflexivity. Qed.

Lemma fmap_return (f : A -> B) (m : M A) (w w' : world) (a : A) :
  m w = (Return a, w') -> (f <$> m) w = (Return (f a), w').
Proof. intros H. unfold fmap, M_fmap, bind. rewrite H. reflexivity. Qed.

Lemma fmap_raise (f : A -> B) (m : M A) (w w' : world) (e : exn) :
  m w = (Raise e, w') -> (f <$> m) w = (Raise e, w').
Proof. intros H. unfold fmap, M_fmap, bind. rewrite H. reflexivity. Qed.

Lemma with_NamedTemporaryFile_run (mk : mktemp_t) (suffix : string)
    (body : string -> M A) (w w' : world) (r : outcome A) :
  suffix_ok suffix = true ->
  body (mk (dom (fs w)) suffix)
       (with_fs (<[mk (dom (fs w)) suffix := []]>) w) = (r, w') ->
  with_NamedTemporaryFile mk suffix body w
  = (r, with_fs (delete (mk (dom (fs w)) suffix)) w').
Proof.
  intros Hok H. unfold with_NamedTemporaryFile. rewrite Hok, H. reflexivity.
Qed.

(** A suffix that cannot be part of a file name: the block is not
    entered and nothing is touched. *)
Lemma with_NamedTemporaryFile_refused (mk : mktemp_t) (suffix : string)
    (body : string -> M A) (w : world) :
  suffix_ok suffix = false ->
  with_NamedTemporaryFile mk suffix body w
  = (Raise (tempfile_error (mk (dom (fs w)) suffix) suffix), w).
Proof. intros Hno. unfold with_NamedTemporaryFile. rewrite Hno. reflexivity. Qed.

Lemma if_ret (x : bool) (a a' : A) (w : world) :
  (if x then mret a else mret a' : M A) w = (Return (if x then a else a'), w).
Proof. destruct x; reflexivity. Qed.

End Run.

Lemma run_tool_run {A} (name : string) (f : option bytes -> outcome A)
    (path : string) (w : world) :
  run_tool name f path w = (f (fs w !! path), with_call (Call name path) w).
Proof. reflexivity. Qed.

Lemma fresh_lookup (T : tools) (m : gmap string bytes) (suffix : string) :
  fresh_names T -> m !! mktemp T (dom m) suffix = None.
Proof. intros H. apply not_elem_of_dom, H. Qed.

Lemma fresh_ne (T : tools) (m : gmap string bytes) (suffix path : string) :
  fresh_names T -> is_Some (m !! path) -> mktemp T (dom m) suffix ≠ path.
Proof.
  intros H [x Hx] Heq. rewrite <- Heq in Hx.
  rewrite fresh_lookup in Hx by assumption. discriminate.
Qed.

Lemma fixture_names_fresh (T : tools) :
  mktemp T = Fixtures.tmpname -> fresh_names T.
Proof. intros H X suffix. rewrite H. apply is_fresh. Qed.

(** Two worlds are equal when their files and their logs are. *)
Ltac world_eq :=
  unfold with_fs, with_call; cbn [fs calls]; f_equal;
  rewrite <- ?app_assoc; try reflexivity.

(** Entering a [with] block whose suffix is a constant of the code. *)
Ltac enter_block suffix :=
  unfold with_NamedTemporaryFile;
  change (suffix_ok suffix) with true; cbv iota.

(** ** The Flask orchestrator (api.py) *)

Lemma unregistered_eqb (extension : string) :
  registered extension = false ->
  (extension =? "pdf")%string = false /\ (extension =? "doc")%string = false /\
  (extension =? "docx")%string = false /\ (extension =? "html")%string = false /\
  (extension =? "txt")%string = false /\ (extension =? "wpd")%string = false.
Proof.
  unfold registered. intros H. apply bool_decide_eq_false in H.
  repeat rewrite not_elem_of_cons in H.
  repeat split; apply String.eqb_neq; tauto.
Qed.

Section ApiFacts.
Context (T : tools) (Hfresh : fresh_names T).

(** The OCR path: one text-layer pass, one rasterization, one OCR pass. *)
Lemma api_dispatch_pdf_ocr (do_ocr : val) (tmp : string) (w : world)
    (content : bytes) (c e : string) (rc : Z) (img : bytes) (r ocr : extraction) :
  fs w !! tmp = Some content ->
  truthy do_ocr = true ->
  pdftotext T (Some content) = Return (c, e, rc) ->
  Api.blank c = true ->
  rasterizer T (Some content) = Return (img, r) ->
  tesseract T (Some img) = Return ocr ->
  Api.dispatch T do_ocr "pdf" tmp w
  = (Return (ocr_verdict ocr),
     World (fs w)
       (calls w ++ [Call "make_pdftotext_process" tmp;
                    Call "rasterize_pdf" tmp;
                    Call "extract_from_pdf" (mktemp T (dom (fs w)) ".tiff")])).
Proof.
  intros Hfile Hocr Hpdf Hblank Hras Htess. destruct ocr as [[c2 e2] rc2].
  unfold Api.dispatch. change ("pdf" =? "pdf")%string with true. cbv iota.
  erewrite bind_return;
    [| unfold make_pdftotext_process; rewrite run_tool_run, Hfile, Hpdf; reflexivity ].
  cbv beta iota. rewrite Hocr, Hblank. cbv [andb].
  set (tiff := mktemp T (dom (fs w)) ".tiff").
  assert (Htiff : fs w !! tiff = None) by (apply fresh_lookup, Hfresh).
  assert (Hne : tiff ≠ tmp) by (apply fresh_ne; [apply Hfresh | eauto]).
  erewrite with_NamedTemporaryFile_run; [| reflexivity |].
  2:{ cbn [fs with_call]. fold tiff.
      erewrite bind_return.
      2:{ unfold rasterize_pdf. cbn [fs with_fs with_call].
          rewrite lookup_insert_ne by exact Hne. rewrite Hfile, Hras. reflexivity. }
      erewrite bind_return.
      2:{ unfold Api.extract_from_pdf. rewrite run_tool_run. cbn [fs with_fs with_call].
          rewrite lookup_insert_eq, Htess. reflexivity. }
      cbv beta iota. apply if_ret. }
  fold tiff. f_equal. world_eq.
  rewrite insert_insert_eq, delete_insert_eq. apply delete_id, Htiff.
Qed.

(** No OCR: the text layer is all there is. *)
Lemma api_dispatch_pdf_plain (do_ocr : val) (tmp : string) (w : world)
    (content : bytes) (c e : string) (rc : Z) :
  fs w !! tmp = Some content ->
  pdftotext T (Some content) = Return (c, e, rc) ->
  truthy do_ocr && Api.blank c = false ->
  Api.dispatch T do_ocr "pdf" tmp w
  = (Return (if Api.blank c then ("", "No content detected", 1) else (c, e, rc)),
     World (fs w) (calls w ++ [Call "make_pdftotext_process" tmp])).
Proof.
  intros Hfile Hpdf Hno.
  unfold Api.dispatch. change ("pdf" =? "pdf")%string with true. cbv iota.
  erewrite bind_return;
    [| unfold make_pdftotext_process; rewrite run_tool_run, Hfile, Hpdf; reflexivity ].
  cbv beta iota. rewrite Hno. rewrite if_ret. reflexivity.
Qed.

(** No extractor: nothing is run. *)
Lemma api_dispatch_unknown (do_ocr : val) (extension tmp : string) (w : world) :
  registered extension = false ->
  Api.dispatch T do_ocr extension tmp w
  = (Return ("", "Unable to extract content due to unknown extension", 1), w).
Proof.
  intros H. apply unregistered_eqb in H.
  destruct H as (H1 & H2 & H3 & H4 & H5 & H6).
  unfold Api.dispatch. rewrite H1, H2, H3, H4, H5, H6. reflexivity.
Qed.

(** Whatever the tools do, the dispatch leaves the files as they were. *)
Lemma api_dispatch_fs (do_ocr : val) (extension tmp : string) (w : world) :
  fs (Api.dispatch T do_ocr extension tmp w).2 = fs w.
Proof.
  unfold Api.dispatch.
  destruct (extension =? "pdf")%string.
  - rewrite bind_run. unfold make_pdftotext_process. rewrite run_tool_run.
    destruct (pdftotext T (fs w !! tmp)) as [[[c e] rc]|x]; [|reflexivity].
    destruct (truthy do_ocr && Api.blank c).
    + enter_block ".tiff".
      set (tiff := mktemp T _ ".tiff").
      assert (Htiff : fs w !! tiff = None) by (apply fresh_lookup, Hfresh).
      cbv [mbind M_bind bind rasterize_pdf Api.extract_from_pdf run_tool].
      cbn [fs with_fs with_call].
      destruct (rasterizer T _) as [[img r]|x]; cbn [fs with_fs with_call snd].
      * destruct (tesseract T _) as [[[c2 e2] rc2]|x]; cbn [fs with_fs with_call snd].
        -- rewrite if_ret. cbn [fs with_fs with_call snd].
           rewrite insert_insert_eq, delete_insert_eq. apply delete_id, Htiff.
        -- rewrite insert_insert_eq, delete_insert_eq. apply delete_id, Htiff.
      * rewrite delete_insert_eq. apply delete_id, Htiff.
    + rewrite if_ret. reflexivity.
  - repeat match goal with
           | |- context [if ?x then _ else _] => destruct x
           end; reflexivity.
Qed.

(** The handler around the dispatch: the upload is saved under a fresh
    name, the dispatch runs, the file is removed and the answer of the
    dispatch is put into the payload. *)
Lemma api_extract_content_run (req : Api.request) (w w' : world)
    (r : outcome extraction) :
  let extension := last_item (split "." (Api.filename req)) in
  let tmp := mktemp T (dom (fs w)) ("." ++ extension) in
  suffix_ok ("." ++ extension) = true ->
  Api.dispatch T (Api.parse_do_ocr (Api.do_ocr_arg req)) extension tmp
    (World (<[tmp := Api.upload req]> (fs w)) (calls w)) = (r, w') ->
  Api.extract_content T req w
  = (match r with
     | Return x => Return (Api.jsonify (Api.payload x))
     | Raise x => Raise x
     end, World (fs w) (calls w')).
Proof.
  intros extension tmp Hsuffix Hrun.
  assert (Hfs : fs w' = <[tmp := Api.upload req]> (fs w)).
  { pose proof (api_dispatch_fs (Api.parse_do_ocr (Api.do_ocr_arg req))
                  extension tmp (World (<[tmp := Api.upload req]> (fs w)) (calls w))) as H.
    rewrite Hrun in H. exact H. }
  unfold Api.extract_content. fold extension.
  destruct r as [x|x];
    (erewrite with_NamedTemporaryFile_run;
     [| exact Hsuffix
      | fold tmp; rewrite bind_run; unfold save, with_fs at 1;
        cbn [fs calls with_fs]; rewrite insert_insert_eq;
        rewrite bind_run, Hrun; reflexivity ]);
    fold tmp; f_equal; world_eq; rewrite Hfs, delete_insert_eq;
    apply delete_id, fresh_lookup, Hfresh.
Qed.

(** So the Flask handler leaves no file behind, on any path. *)
Lemma api_extract_content_cleans_up (req : Api.request) (w : world) :
  fs (Api.extract_content T req w).2 = fs w.
Proof.
  destruct (suffix_ok ("." ++ last_item (split "." (Api.filename req)))) eqn:Hsuffix.
  2:{ unfold Api.extract_content.
      rewrite with_NamedTemporaryFile_refused by exact Hsuffix. reflexivity. }
  destruct (Api.dispatch T (Api.parse_do_ocr (Api.do_ocr_arg req))
              (last_item (split "." (Api.filename req)))
              (mktemp T (dom (fs w)) ("." ++ last_item (split "." (Api.filename req))))
              (World (<[mktemp T (dom (fs w))
                          ("." ++ last_item (split "." (Api.filename req)))
                        := Api.upload req]> (fs w)) (calls w))) as [r w'] eqn:Hrun.
  rewrite (api_extract_content_run req w w' r Hsuffix Hrun). reflexivity.
Qed.

End ApiFacts.

(** ** The Django orchestrator (views.py) *)

Section ViewsFacts.
Context (T : tools) (Hfresh : fresh_names T).

Lemma views_DocumentForm_run (req : Views.request) (w : world) :
  Views.well_formed req = true ->
  Views.DocumentForm T req w
  = (Return (Views.Form true (mktemp T (dom (fs w)) ("." ++ Views.extension req))),
     World (<[mktemp T (dom (fs w)) ("." ++ Views.extension req)
              := Views.upload req]> (fs w)) (calls w)).
Proof. intros H. unfold Views.DocumentForm. rewrite H. reflexivity. Qed.

Lemma views_DocumentForm_malformed (req : Views.request) (w : world) :
  Views.well_formed req = false ->
  Views.DocumentForm T req w = (Return (Views.Form false ""), w).
Proof. intros H. unfold Views.DocumentForm. rewrite H. reflexivity. Qed.

(** The OCR path of the PDF extractor. *)
Lemma views_extract_from_pdf_ocr (path : string) (w : world)
    (content : bytes) (c e : string) (rc : Z) (img : bytes) (r : extraction)
    (c2 e2 : string) (rc2 : Z) :
  fs w !! path = Some content ->
  pdftotext T (Some content) = Return (c, e, rc) ->
  Api.blank c = true ->
  rasterizer T (Some content) = Return (img, r) ->
  tesseract T (Some img) = Return (c2, e2, rc2) ->
  Views.extract_from_pdf T path true w
  = (Return (if (c2 =? "")%string
             then ("", "unable to extract document content", 1, true)
             else (c2, e2, rc2, true)),
     World (fs w)
       (calls w ++ [Call "make_pdftotext_process" path;
                    Call "rasterize_pdf" path;
                    Call "extract_from_pdf" (mktemp T (dom (fs w)) ".tiff")])).
Proof.
  intros Hfile Hpdf Hblank Hras Htess.
  unfold Views.extract_from_pdf.
  erewrite bind_return;
    [| unfold make_pdftotext_process; rewrite run_tool_run, Hfile, Hpdf; reflexivity ].
  cbv beta iota. rewrite Hblank. cbv [andb].
  set (tiff := mktemp T (dom (fs w)) ".tiff").
  assert (Htiff : fs w !! tiff = None) by (apply fresh_lookup, Hfresh).
  assert (Hne : tiff ≠ path) by (apply fresh_ne; [apply Hfresh | eauto]).
  erewrite with_NamedTemporaryFile_run; [| reflexivity |].
  2:{ cbn [fs with_call]. fold tiff.
      erewrite bind_return.
      2:{ unfold rasterize_pdf. cbn [fs with_fs with_call].
          rewrite lookup_insert_ne by exact Hne. rewrite Hfile, Hras. reflexivity. }
      erewrite bind_return.
      2:{ unfold Api.extract_from_pdf. rewrite run_tool_run. cbn [fs with_fs with_call].
          rewrite lookup_insert_eq, Htess. reflexivity. }
      cbv beta iota. apply if_ret. }
  fold tiff. f_equal. world_eq.
  rewrite insert_insert_eq, delete_insert_eq. apply delete_id, Htiff.
Qed.

(** The path without OCR. *)
Lemma views_extract_from_pdf_plain (path : string) (ocr : bool) (w : world)
    (content : bytes) (c e : string) (rc : Z) :
  fs w !! path = Some content ->
  pdftotext T (Some content) = Return (c, e, rc) ->
  ocr && Api.blank c = false ->
  Views.extract_from_pdf T path ocr w
  = (Return (if Api.blank c then ("", "No content detected", 1, false)
             else (c, e, rc, false)),
     World (fs w) (calls w ++ [Call "make_pdftotext_process" path])).
Proof.
  intros Hfile Hpdf Hno. unfold Views.extract_from_pdf.
  erewrite bind_return;
    [| unfold make_pdftotext_process; rewrite run_tool_run, Hfile, Hpdf; reflexivity ].
  cbv beta iota. rewrite Hno. rewrite if_ret. reflexivity.
Qed.

(** A failing text-layer pass fails the extractor. *)
Lemma views_extract_from_pdf_raise (path : string) (ocr : bool) (w : world) (x : exn) :
  pdftotext T (fs w !! path) = Raise x ->
  Views.extract_from_pdf T path ocr w
  = (Raise x, World (fs w) (calls w ++ [Call "make_pdftotext_process" path])).
Proof.
  intros Hpdf. unfold Views.extract_from_pdf.
  erewrite bind_raise;
    [| unfold make_pdftotext_process; rewrite run_tool_run, Hpdf; reflexivity ].
  reflexivity.
Qed.

(** What the extractor leaves and says, on every path: the files are
    as they were, and the OCR mark comes with permission to run OCR, a
    blank text layer and a call to the OCR extractor. *)
Lemma views_extract_from_pdf_inv (path : string) (ocr : bool) (w : world) :
  let '(r, w') := Views.extract_from_pdf T path ocr w in
  fs w' = fs w /\
  (forall c e rc, r = Return (c, e, rc, true) ->
     ocr = true /\
     (exists c1 e1 rc1, pdftotext T (fs w !! path) = Return (c1, e1, rc1)
                        /\ Api.blank c1 = true) /\
     Call "extract_from_pdf" (mktemp T (dom (fs w)) ".tiff") ∈ calls w').
Proof.
  unfold Views.extract_from_pdf.
  rewrite bind_run. unfold make_pdftotext_process. rewrite run_tool_run.
  destruct (pdftotext T (fs w !! path)) as [[[c1 e1] rc1]|x].
  2:{ split; [reflexivity | discriminate]. }
  destruct ocr; cbn [andb].
  2:{ rewrite if_ret. split; [reflexivity|].
      intros c e rc H. destruct (Api.blank c1); discriminate. }
  destruct (Api.blank c1) eqn:Hblank.
  2:{ split; [reflexivity | discriminate]. }
  enter_block ".tiff".
  set (tiff := mktemp T _ ".tiff").
  assert (Htiff : fs w !! tiff = None) by (apply fresh_lookup, Hfresh).
  cbv [mbind M_bind bind rasterize_pdf Api.extract_from_pdf run_tool].
  cbn [fs with_fs with_call].
  destruct (rasterizer T _) as [[img r]|x]; cbn [fs with_fs with_call calls].
  - destruct (tesseract T _) as [[[c2 e2] rc2]|x]; cbn [fs with_fs with_call calls].
    + rewrite if_ret. cbn [fs with_fs with_call calls]. split.
      * rewrite insert_insert_eq, delete_insert_eq. apply delete_id, Htiff.
      * intros c e rc _. split; [reflexivity|]. split; [eauto|].
        rewrite !elem_of_app. right. apply list_elem_of_singleton. reflexivity.
    + split; [|discriminate].
      rewrite insert_insert_eq, delete_insert_eq. apply delete_id, Htiff.
  - split; [|discriminate]. rewrite delete_insert_eq. apply delete_id, Htiff.
Qed.

(** No extractor: nothing is run and no return code is bound. *)
Lemma views_dispatch_unknown (extension path : string) (ocr : bool) (w : world) :
  registered extension = false ->
  Views.dispatch T extension path ocr w
  = (Return (Views.Locals "" "Unable to extract content due to unknown extension"
               None false), w).
Proof.
  intros H. apply unregistered_eqb in H.
  destruct H as (H1 & H2 & H3 & H4 & H5 & H6).
  unfold Views.dispatch. rewrite H1, H2, H3, H4, H5, H6. reflexivity.
Qed.

Lemma views_tool_inv (by_ocr : bool) (name path : string)
    (f : option bytes -> outcome extraction) (w : world) :
  let '(r, w') := (Views.bound by_ocr <$> run_tool name f path) w in
  fs w' = fs w /\
  forall l, r = Return l -> Views.extracted_by_ocr l = by_ocr.
Proof.
  unfold fmap, M_fmap, bind. rewrite run_tool_run.
  destruct (f (fs w !! path)) as [[[c e] rc]|x]; cbn.
  - split; [reflexivity|]. intros l H. injection H as <-. reflexivity.
  - split; [reflexivity | discriminate].
Qed.

(** On every path the dispatch leaves the files as they were, and
    outside the PDF branch it never sets the OCR mark. *)
Lemma views_dispatch_inv (extension path : string) (ocr : bool) (w : world) :
  let '(r, w') := Views.dispatch T extension path ocr w in
  fs w' = fs w /\
  (forall l, r = Return l -> Views.extracted_by_ocr l = true ->
     extension = "pdf" /\ ocr = true /\
     (exists c1 e1 rc1, pdftotext T (fs w !! path) = Return (c1, e1, rc1)
                        /\ Api.blank c1 = true) /\
     Call "extract_from_pdf" (mktemp T (dom (fs w)) ".tiff") ∈ calls w').
Proof.
  unfold Views.dispatch.
  destruct (extension =? "pdf")%string eqn:Hpdf.
  - apply String.eqb_eq in Hpdf.
    pose proof (views_extract_from_pdf_inv path ocr w) as H.
    rewrite bind_run.
    destruct (Views.extract_from_pdf T path ocr w) as [[[[[c e] rc] o]|x] w'].
    + destruct H as [Hfs Hmark]. cbn. split; [exact Hfs|].
      intros l Hl Ho. injection Hl as <-. cbn in Ho. subst o.
      destruct (Hmark c e rc eq_refl) as (H1 & H2 & H3). auto.
    + destruct H as [Hfs _]. split; [exact Hfs | discriminate].
  - unfold extract_from_doc, extract_from_docx, extract_from_html,
      extract_from_txt, extract_from_wpd.
    repeat match goal with
           | |- context [if ?x then _ else _] => destruct x
           end;
      lazymatch goal with
      | |- context [(Views.bound ?o <$> run_tool ?n ?f ?p) ?w'] =>
          pose proof (views_tool_inv o n p f w') as H;
          destruct ((Views.bound o <$> run_tool n f p) w') as [r' w''];
          destruct H as [Hfs Hmark]; split; [exact Hfs|];
          intros l Hl Ho; rewrite (Hmark l Hl) in Ho; discriminate
      | |- _ =>
          split; [reflexivity|]; intros l Hl Ho; injection Hl as <-; discriminate
      end.
Qed.

End ViewsFacts.
Section ViewsHandlers.
Context (T : tools) (Hfresh : fresh_names T).

Lemma views_get_page_count_run (path extension : string) (w : world) :
  Views.get_page_count T path extension w
  = (Return (if (extension =? "pdf")%string
             then Z.of_N <$> pdf_reader T (fs w !! path) else None),
     with_call (Call "get_page_count" path) w).
Proof. reflexivity. Qed.

(** The extraction handler around its dispatch: the upload is saved
    under a fresh name; when the dispatch returns, the pages are counted,
    the file is removed and the payload is built; when it raises, the
    exception leaves the handler and the file stays. *)
Lemma views_extract_doc_content_run (req : Views.request) (w w' : world)
    (r : outcome Views.locals) :
  Views.well_formed req = true ->
  let path := mktemp T (dom (fs w)) ("." ++ Views.extension req) in
  Views.dispatch T (Views.extension req) path (Views.ocr_available req)
    (World (<[path := Views.upload req]> (fs w)) (calls w)) = (r, w') ->
  Views.extract_doc_content T req w
  = match r with
    | Return l =>
        (Return (Views.JsonResponse
                   (Views.payload (Views.extension req) l (counted T req))),
         World (fs w) (calls w' ++ [Call "get_page_count" path]))
    | Raise x => (Raise x, World (<[path := Views.upload req]> (fs w)) (calls w'))
    end.
Proof.
  intros Hok path Hrun.
  assert (Hfs : fs w' = <[path := Views.upload req]> (fs w)).
  { pose proof (views_dispatch_inv T Hfresh (Views.extension req) path
                  (Views.ocr_available req)
                  (World (<[path := Views.upload req]> (fs w)) (calls w))) as H.
    rewrite Hrun in H. apply H. }
  unfold Views.extract_doc_content.
  erewrite bind_return by (apply views_DocumentForm_run, Hok).
  cbn [Views.is_valid Views.fp negb]. fold path.
  rewrite bind_run, Hrun. destruct r as [l|x].
  - rewrite bind_run, views_get_page_count_run.
    rewrite bind_run. unfold remove. cbn [fs with_call].
    rewrite Hfs, lookup_insert_eq.
    unfold counted. f_equal. world_eq. rewrite Hfs, delete_insert_eq.
    apply delete_id, fresh_lookup, Hfresh.
  - f_equal. destruct w'. cbn in *. rewrite Hfs. reflexivity.
Qed.

Lemma views_extract_doc_content_malformed (req : Views.request) (w : world) :
  Views.well_formed req = false ->
  Views.extract_doc_content T req w
  = (Return (Views.HttpResponse "Failed validation" 406), w).
Proof.
  intros Hbad. unfold Views.extract_doc_content.
  erewrite bind_return by (apply views_DocumentForm_malformed, Hbad).
  reflexivity.
Qed.

(** The PDF-only handler around the extractor: its [except] clause turns
    an exception into a 406 answer and removes nothing. *)
Lemma views_extract_pdf_run (req : Views.request) (w w' : world)
    (r : outcome (string * string * Z * bool)) :
  Views.well_formed req = true ->
  let path := mktemp T (dom (fs w)) ("." ++ Views.extension req) in
  Views.extract_from_pdf T path (Views.ocr_available req)
    (World (<[path := Views.upload req]> (fs w)) (calls w)) = (r, w') ->
  Views.extract_pdf T req w
  = match r with
    | Return (c, _, _, _) =>
        (Return (Views.HttpResponse c 200), World (fs w) (calls w'))
    | Raise x =>
        (Return (Views.HttpResponse (exn_msg x) 406),
         World (<[path := Views.upload req]> (fs w)) (calls w'))
    end.
Proof.
  intros Hok path Hrun.
  assert (Hfs : fs w' = <[path := Views.upload req]> (fs w)).
  { pose proof (views_extract_from_pdf_inv T Hfresh path (Views.ocr_available req)
                  (World (<[path := Views.upload req]> (fs w)) (calls w))) as H.
    rewrite Hrun in H. apply H. }
  unfold Views.extract_pdf, try_except.
  erewrite bind_return by (apply views_DocumentForm_run, Hok).
  cbn [Views.is_valid Views.fp negb]. fold path.
  rewrite bind_run, Hrun. destruct r as [[[[c e] rc] o]|x].
  - rewrite bind_run. unfold Views.cleanup_form, remove. cbn [Views.fp].
    rewrite Hfs, lookup_insert_eq. cbn. f_equal. world_eq.
    rewrite Hfs, delete_insert_eq. apply delete_id, fresh_lookup, Hfresh.
  - cbn. f_equal. destruct w'. cbn in *. rewrite Hfs. reflexivity.
Qed.


End ViewsHandlers.

(** ** The handlers on the three paths of interest *)

Section Paths.
Context (T : tools) (Hfresh : fresh_names T) (w : world).

Lemma world_eta : World (fs w) (calls w) = w.
Proof. destruct w. reflexivity. Qed.

Lemma api_extract_content_ocr (req : Api.request)
    (c e : string) (rc : Z) (img : bytes) (r ocr : extraction) :
  last_item (split "." (Api.filename req)) = "pdf" ->
  truthy (Api.parse_do_ocr (Api.do_ocr_arg req)) = true ->
  pdftotext T (Some (Api.upload req)) = Return (c, e, rc) ->
  Api.blank c = true ->
  rasterizer T (Some (Api.upload req)) = Return (img, r) ->
  tesseract T (Some img) = Return ocr ->
  let tmp := mktemp T (dom (fs w)) ".pdf" in
  Api.extract_content T req w
  = (Return (Api.jsonify (Api.payload (ocr_verdict ocr))),
     World (fs w)
       (calls w ++ [Call "make_pdftotext_process" tmp;
                    Call "rasterize_pdf" tmp;
                    Call "extract_from_pdf" (tiff_name T w tmp (Api.upload req))])).
Proof.
  intros Hext Hocr Hpdf Hblank Hras Htess tmp.
  erewrite (api_extract_content_run T Hfresh req w);
    [| rewrite Hext; reflexivity |].
  2:{ rewrite Hext. change ("." ++ "pdf") with ".pdf". fold tmp.
      eapply api_dispatch_pdf_ocr; eauto. apply lookup_insert_eq. }
  reflexivity.
Qed.

Lemma api_extract_content_plain (req : Api.request) (c e : string) (rc : Z) :
  last_item (split "." (Api.filename req)) = "pdf" ->
  pdftotext T (Some (Api.upload req)) = Return (c, e, rc) ->
  truthy (Api.parse_do_ocr (Api.do_ocr_arg req)) && Api.blank c = false ->
  Api.extract_content T req w
  = (Return (Api.jsonify (Api.payload
       (if Api.blank c then ("", "No content detected", 1) else (c, e, rc)))),
     World (fs w)
       (calls w ++ [Call "make_pdftotext_process" (mktemp T (dom (fs w)) ".pdf")])).
Proof.
  intros Hext Hpdf Hno.
  erewrite (api_extract_content_run T Hfresh req w);
    [| rewrite Hext; reflexivity |].
  2:{ rewrite Hext. change ("." ++ "pdf") with ".pdf".
      eapply api_dispatch_pdf_plain; eauto. apply lookup_insert_eq. }
  reflexivity.
Qed.

Lemma api_extract_content_unknown (req : Api.request) :
  registered (last_item (split "." (Api.filename req))) = false ->
  suffix_ok ("." ++ last_item (split "." (Api.filename req))) = true ->
  Api.extract_content T req w
  = (Return (Api.jsonify (Api.payload
       ("", "Unable to extract content due to unknown extension", 1))), w).
Proof.
  intros Hext Hsuffix.
  erewrite (api_extract_content_run T Hfresh req w);
    [| exact Hsuffix | apply api_dispatch_unknown, Hext].
  cbn [calls]. rewrite world_eta. reflexivity.
Qed.

Lemma views_extract_doc_content_ocr (req : Views.request)
    (c e : string) (rc : Z) (img : bytes) (r ocr : extraction) :
  Views.well_formed req = true ->
  Views.extension req = "pdf" ->
  Views.ocr_available req = true ->
  pdftotext T (Some (Views.upload req)) = Return (c, e, rc) ->
  Api.blank c = true ->
  rasterizer T (Some (Views.upload req)) = Return (img, r) ->
  tesseract T (Some img) = Return ocr ->
  let path := mktemp T (dom (fs w)) ".pdf" in
  Views.extract_doc_content T req w
  = (Return (Views.JsonResponse
               (Views.payload "pdf" (ocr_locals ocr) (counted T req))),
     World (fs w)
       (calls w ++ [Call "make_pdftotext_process" path;
                    Call "rasterize_pdf" path;
                    Call "extract_from_pdf" (tiff_name T w path (Views.upload req));
                    Call "get_page_count" path])).
Proof.
  intros Hok Hext Hocr Hpdf Hblank Hras Htess path.
  destruct ocr as [[c2 e2] rc2].
  erewrite (views_extract_doc_content_run T Hfresh req w _ (Return (ocr_locals (c2, e2, rc2)))
              Hok).
  2:{ rewrite Hext, Hocr. change ("." ++ "pdf") with ".pdf". fold path.
      unfold Views.dispatch. change ("pdf" =? "pdf")%string with true. cbv iota.
      erewrite bind_return.
      2:{ eapply views_extract_from_pdf_ocr; eauto. apply lookup_insert_eq. }
      unfold ocr_locals. destruct (c2 =? "")%string; reflexivity. }
  rewrite Hext. cbn [fs calls]. rewrite <- app_assoc. reflexivity.
Qed.

Lemma views_extract_doc_content_plain (req : Views.request) (c e : string) (rc : Z) :
  Views.well_formed req = true ->
  Views.extension req = "pdf" ->
  pdftotext T (Some (Views.upload req)) = Return (c, e, rc) ->
  Views.ocr_available req && Api.blank c = false ->
  Views.extract_doc_content T req w
  = (Return (Views.JsonResponse
               (Views.payload "pdf"
                  (if Api.blank c
                   then Views.Locals "" "No content detected" (Some 1) false
                   else Views.Locals c e (Some rc) false)
                  (counted T req))),
     World (fs w)
       (calls w ++ [Call "make_pdftotext_process" (mktemp T (dom (fs w)) ".pdf");
                    Call "get_page_count" (mktemp T (dom (fs w)) ".pdf")])).
Proof.
  intros Hok Hext Hpdf Hno.
  erewrite (views_extract_doc_content_run T Hfresh req w _
              (Return (if Api.blank c
                       then Views.Locals "" "No content detected" (Some 1) false
                       else Views.Locals c e (Some rc) false)) Hok).
  2:{ rewrite Hext. change ("." ++ "pdf") with ".pdf".
      unfold Views.dispatch. change ("pdf" =? "pdf")%string with true. cbv iota.
      erewrite bind_return.
      2:{ eapply views_extract_from_pdf_plain; eauto. apply lookup_insert_eq. }
      destruct (Api.blank c); reflexivity. }
  rewrite Hext. cbn [fs calls]. rewrite <- app_assoc. reflexivity.
Qed.

Lemma views_extract_doc_content_unknown (req : Views.request) :
  Views.well_formed req = true ->
  registered (Views.extension req) = false ->
  Views.extract_doc_content T req w
  = (Return (Views.JsonResponse
               (Views.payload (Views.extension req)
                  (Views.Locals "" "Unable to extract content due to unknown extension"
                     None false)
                  None)),
     World (fs w)
       (calls w ++ [Call "get_page_count"
                      (mktemp T (dom (fs w)) ("." ++ Views.extension req))])).
Proof.
  intros Hok Hext.
  erewrite (views_extract_doc_content_run T Hfresh req w _ _ Hok)
    by (apply views_dispatch_unknown, Hext).
  cbn [calls]. unfold counted.
  destruct (unregistered_eqb _ Hext) as [-> _]. reflexivity.
Qed.

End Paths.

(** ** The payloads *)

Lemma views_payload_dom (extension : string) (l : Views.locals) (n : option Z) :
  dom (Views.payload extension l n)
  = ({["content"; "err"; "extension"; "extracted_by_ocr"; "page_count"]} : gset string).
Proof.
  unfold Views.payload. rewrite !dom_insert_L, dom_empty_L. set_solver.
Qed.

Lemma views_payload_content (extension : string) (l : Views.locals) (n : option Z) :
  Views.payload extension l n !! "content" = Some (JStr (Views.content l)).
Proof. unfold Views.payload. apply lookup_insert_eq. Qed.

Lemma views_payload_mark (extension : string) (l : Views.locals) (n : option Z) :
  Views.payload extension l n !! "extracted_by_ocr"
  = Some (JBool (Views.extracted_by_ocr l)).
Proof.
  unfold Views.payload. rewrite !lookup_insert_ne by discriminate.
  apply lookup_insert_eq.
Qed.

Lemma views_payload_page_count (extension : string) (l : Views.locals) (n : option Z) :
  Views.payload extension l n !! "page_count" = Some (Views.json_of_count n).
Proof.
  unfold Views.payload. rewrite !lookup_insert_ne by discriminate.
  apply lookup_insert_eq.
Qed.

Lemma views_payload_no_exit_code (extension : string) (l : Views.locals) (n : option Z) :
  reports_exit_code (Views.payload extension l n) = false.
Proof.
  unfold reports_exit_code, exit_code_keys, Views.payload. cbn [existsb].
  rewrite !lookup_insert_ne by discriminate. rewrite !lookup_empty.
  reflexivity.
Qed.

Lemma api_payload_dom (r : extraction) :
  dom (Api.payload r) = ({["content"; "err"; "error_code"]} : gset string).
Proof.
  destruct r as [[c e] rc]. unfold Api.payload.
  rewrite !dom_insert_L, dom_empty_L. set_solver.
Qed.

Lemma api_payload_fields (c e : string) (rc : Z) :
  Api.payload (c, e, rc) !! "content" = Some (JStr c) /\
  Api.payload (c, e, rc) !! "err" = Some (JStr e) /\
  Api.payload (c, e, rc) !! "error_code" = Some (JStr (pretty rc)).
Proof.
  unfold Api.payload. split; [|split].
  - apply lookup_insert_eq.
  - rewrite lookup_insert_ne by discriminate. apply lookup_insert_eq.
  - rewrite !lookup_insert_ne by discriminate. apply lookup_insert_eq.
Qed.

Lemma views_payload_err (extension : string) (l : Views.locals) (n : option Z) :
  Views.payload extension l n !! "err" = Some (JStr (Views.err l)).
Proof.
  unfold Views.payload. rewrite lookup_insert_ne by discriminate.
  apply lookup_insert_eq.
Qed.

Lemma views_payload_no_nonzero_exit_code (extension : string) (l : Views.locals)
    (n : option Z) :
  reports_nonzero_exit_code (Views.payload extension l n) = false.
Proof.
  unfold reports_nonzero_exit_code, exit_code_keys, Views.payload. cbn [existsb].
  rewrite !lookup_insert_ne by discriminate. rewrite !lookup_empty.
  reflexivity.
Qed.

(** The answer of the Flask handler has no field for the OCR mark. *)
Lemma api_payload_no_mark (r : extraction) :
  Api.payload r !! "extracted_by_ocr" = None.
Proof.
  destruct r as [[c e] rc]. unfold Api.payload.
  rewrite !lookup_insert_ne by discriminate. apply lookup_empty.
Qed.

(** Every answer of the Django extraction handler that is a JSON
    payload is the payload of some local variables. *)
Lemma views_extract_doc_content_payload (T : tools) (req : Views.request)
    (w w' : world) (d : obj) :
  Views.extract_doc_content T req w = (Return (Views.JsonResponse d), w') ->
  exists l n, d = Views.payload (Views.extension req) l n.
Proof.
  unfold Views.extract_doc_content. rewrite bind_run.
  unfold Views.DocumentForm. destruct (Views.well_formed req); cbn.
  2:{ discriminate. }
  rewrite bind_run. destruct (Views.dispatch _ _ _ _ _) as [[l|x] w1]; [|discriminate].
  rewrite bind_run, views_get_page_count_run. rewrite bind_run.
  unfold remove. cbn [fs with_call]. destruct (fs w1 !! _); [|discriminate].
  cbn. intros H. injection H as <- _. eauto.
Qed.

(** Every answer of the Flask extraction handler is the payload of
    some extraction. *)
Lemma api_extract_content_payload (T : tools) (req : Api.request)
    (w w' : world) (resp : Api.response) :
  Api.extract_content T req w = (Return resp, w') ->
  exists r, resp = Api.jsonify (Api.payload r).
Proof.
  unfold Api.extract_content, with_NamedTemporaryFile.
  destruct (suffix_ok _); [|discriminate].
  rewrite bind_run. unfold save at 1. cbn [fs with_fs].
  rewrite bind_run. destruct (Api.dispatch _ _ _ _ _) as [[r|x] w1]; cbn.
  - intros H. injection H as <- _. eauto.
  - discriminate.
Qed.

(** * The claims *)

(** C1, as the code has it. A PDF whose text layer is empty or white
    space only, sent by a caller who permits OCR. The Flask orchestrator
    makes one text-layer pass, rasterizes the PDF and makes one pass of
    the PDF-OCR extractor, and nothing more; it answers with the text, the
    diagnostic and the return code (as a text) of the OCR pass, and with
    empty content, "Unable to extract document content" and "1" when that
    pass yields empty text; its answer has no [extracted_by_ocr]. The
    Django orchestrator makes the same three calls (and counts the pages)
    and answers with [extracted_by_ocr] true, with the diagnostic when
    the OCR pass yields empty text, and with no exit code; and whenever
    its answer has [extracted_by_ocr] true, the request was a PDF whose
    caller permitted OCR, whose text layer was blank and for which the
    PDF-OCR extractor was called. *)
Theorem ocr_fallback_on_blank_pdf (T : tools) (w : world) (upload : bytes)
    (c e : string) (rc : Z) (img : bytes) (r : extraction)
    (c2 e2 : string) (rc2 : Z) :
  fresh_names T ->
  pdftotext T (Some upload) = Return (c, e, rc) ->
  Api.blank c = true ->
  rasterizer T (Some upload) = Return (img, r) ->
  tesseract T (Some img) = Return (c2, e2, rc2) ->
  (forall req : Api.request,
     Api.upload req = upload ->
     last_item (split "." (Api.filename req)) = "pdf" ->
     truthy (Api.parse_do_ocr (Api.do_ocr_arg req)) = true ->
     let tmp := mktemp T (dom (fs w)) ".pdf" in
     exists resp : Api.response,
       Api.extract_content T req w
       = (Return resp,
          World (fs w)
            (calls w ++ [Call "make_pdftotext_process" tmp;
                         Call "rasterize_pdf" tmp;
                         Call "extract_from_pdf" (tiff_name T w tmp upload)]))
       /\ Api.status resp = 200
       /\ Api.body resp !! "content" = Some (JStr c2)
       /\ Api.body resp !! "err"
          = Some (JStr (if (c2 =? "")%string
                        then "Unable to extract document content" else e2))
       /\ Api.body resp !! "error_code"
          = Some (JStr (if (c2 =? "")%string then "1" else pretty rc2))
       /\ Api.body resp !! "extracted_by_ocr" = None)
  /\ (forall req : Views.request,
        Views.upload req = upload ->
        Views.well_formed req = true ->
        Views.extension req = "pdf" ->
        Views.ocr_available req = true ->
        let path := mktemp T (dom (fs w)) ".pdf" in
        exists d : obj,
          Views.extract_doc_content T req w
          = (Return (Views.JsonResponse d),
             World (fs w)
               (calls w ++ [Call "make_pdftotext_process" path;
                            Call "rasterize_pdf" path;
                            Call "extract_from_pdf" (tiff_name T w path upload);
                            Call "get_page_count" path]))
          /\ d !! "extracted_by_ocr" = Some (JBool true)
          /\ d !! "content" = Some (JStr c2)
          /\ d !! "err"
             = Some (JStr (if (c2 =? "")%string
                           then "unable to extract document content" else e2))
          /\ reports_exit_code d = false)
  /\ (forall (req : Views.request) (d : obj) (w' : world),
        Views.extract_doc_content T req w = (Return (Views.JsonResponse d), w') ->
        d !! "extracted_by_ocr" = Some (JBool true) ->
        let path := mktemp T (dom (fs w)) ("." ++ Views.extension req) in
        Views.extension req = "pdf" /\ Views.ocr_available req = true
        /\ (exists c1 e1 rc1,
              pdftotext T (Some (Views.upload req)) = Return (c1, e1, rc1)
              /\ Api.blank c1 = true)
        /\ Call "extract_from_pdf" (tiff_name T w path (Views.upload req)) ∈ calls w').
Proof.
  intros Hfresh Hpdf Hblank Hras Htess. split; [|split].
  - intros req <- Hext Hocr tmp. eexists. split.
    { eapply api_extract_content_ocr; eauto. }
    cbn [Api.jsonify Api.status Api.body]. unfold ocr_verdict.
    split; [reflexivity|].
    destruct (String.eqb_spec c2 "") as [->|Hne].
    + pose proof (api_payload_fields "" "Unable to extract document content" 1)
        as (H1 & H2 & H3).
      repeat split; try assumption; apply api_payload_no_mark.
    + pose proof (api_payload_fields c2 e2 rc2) as (H1 & H2 & H3).
      repeat split; try assumption; apply api_payload_no_mark.
  - intros req <- Hok Hext Hocr path. eexists. split.
    { eapply views_extract_doc_content_ocr; eauto. }
    split; [|split; [|split]].
    + rewrite views_payload_mark. unfold ocr_locals.
      destruct (c2 =? "")%string; reflexivity.
    + rewrite views_payload_content. unfold ocr_locals.
      destruct (String.eqb_spec c2 "") as [->|Hne]; reflexivity.
    + rewrite views_payload_err. unfold ocr_locals.
      destruct (c2 =? "")%string; reflexivity.
    + apply views_payload_no_exit_code.
  - intros req d w' Hrun Hmark path.
    destruct (Views.well_formed req) eqn:Hok.
    2:{ rewrite views_extract_doc_content_malformed in Hrun by assumption.
        discriminate. }
    pose proof (views_dispatch_inv T Hfresh (Views.extension req) path
                  (Views.ocr_available req)
                  (World (<[path := Views.upload req]> (fs w)) (calls w))) as Hinv.
    destruct (Views.dispatch T (Views.extension req) path (Views.ocr_available req)
                (World (<[path := Views.upload req]> (fs w)) (calls w)))
      as [res w1] eqn:Hdis.
    rewrite (views_extract_doc_content_run T Hfresh req w w1 res Hok Hdis) in Hrun.
    destruct res as [l|x]; [|discriminate].
    injection Hrun as <- <-.
    rewrite views_payload_mark in Hmark. injection Hmark as Hmark.
    destruct Hinv as [_ Hinv].
    destruct (Hinv l eq_refl Hmark) as (H1 & H2 & H3 & H4).
    cbn [fs] in H3, H4. rewrite lookup_insert_eq in H3.
    repeat split; try assumption.
    cbn [calls]. apply elem_of_app. left. exact H4.
Qed.

(** The scanned PDF of the fixtures, with an OCR engine that reads
    nothing on it. *)
Lemma ocr_fallback_on_blank_pdf_witness :
  exists resp : Api.response,
    Api.extract_content (Fixtures.scanned "")
      (Api.Request "opinion.pdf" Fixtures.image_pdf (Some "True"))
      Fixtures.empty_world
    = (Return resp,
       World ∅ [Call "make_pdftotext_process" "0";
                Call "rasterize_pdf" "0";
                Call "extract_from_pdf" "1"])
    /\ Api.status resp = 200
    /\ Api.body resp !! "content" = Some (JStr "")
    /\ Api.body resp !! "err" = Some (JStr "Unable to extract document content")
    /\ Api.body resp !! "error_code" = Some (JStr "1")
    /\ Api.body resp !! "extracted_by_ocr" = None.
Proof.
  pose proof (ocr_fallback_on_blank_pdf (Fixtures.scanned "") Fixtures.empty_world
                Fixtures.image_pdf Fixtures.form_feeds "" 0 (b "II*") ("", "", 0)
                "" "" 0
                (fixture_names_fresh (Fixtures.scanned "") eq_refl)
                eq_refl eq_refl eq_refl eq_refl) as H.
  destruct H as [H _].
  exact (H (Api.Request "opinion.pdf" Fixtures.image_pdf (Some "True"))
           eq_refl eq_refl eq_refl).
Defined.

(** C1 as it is stated fails on each service: the answer of the Flask
    orchestrator to a scanned PDF it has read by OCR does not say
    [extracted_by_ocr], and the answer of the Django orchestrator to a
    scanned PDF on which OCR reads nothing carries no exit code. *)
Lemma ocr_fallback_without_mark_or_exit_code :
  ~ (exists (resp : Api.response) (w' : world),
       Api.extract_content (Fixtures.scanned "page one")
         (Api.Request "opinion.pdf" Fixtures.image_pdf (Some "True"))
         Fixtures.empty_world
       = (Return resp, w')
       /\ Api.body resp !! "extracted_by_ocr" = Some (JBool true))
  /\ ~ (exists (d : obj) (w' : world),
          Views.extract_doc_content (Fixtures.scanned "")
            (Views.Request true None Fixtures.image_pdf "pdf" true)
            Fixtures.empty_world
          = (Return (Views.JsonResponse d), w')
          /\ reports_nonzero_exit_code d = true).
Proof.
  split.
  - intros (resp & w' & Hrun & Hmark).
    destruct (api_extract_content_payload _ _ _ _ _ Hrun) as (r & ->).
    cbn [Api.body Api.jsonify] in Hmark.
    rewrite api_payload_no_mark in Hmark. discriminate.
  - intros (d & w' & Hrun & Hcode).
    destruct (views_extract_doc_content_payload _ _ _ _ _ Hrun) as (l & n & ->).
    rewrite views_payload_no_nonzero_exit_code in Hcode. discriminate.
Qed.

(** C2, as the code has it. An extension with no extractor. The Flask
    orchestrator, when the extension can be the suffix of a file name,
    answers with empty content, the diagnostic "Unable to extract content
    due to unknown extension" and the exit code 1 (as the text "1"),
    calls no tool and leaves no file. The Django orchestrator answers
    with empty content, the same diagnostic, [extracted_by_ocr] false and
    a null page count, and with no exit code, none being bound on this
    path; its dispatch calls no tool, and the one call it makes is to the
    page counter. So neither attempts OCR. *)
Theorem unknown_extension_short_circuit (T : tools) (w : world) :
  fresh_names T ->
  (forall req : Api.request,
     registered (last_item (split "." (Api.filename req))) = false ->
     suffix_ok ("." ++ last_item (split "." (Api.filename req))) = true ->
     exists resp : Api.response,
       Api.extract_content T req w = (Return resp, w)
       /\ Api.status resp = 200
       /\ Api.body resp !! "content" = Some (JStr "")
       /\ Api.body resp !! "err"
          = Some (JStr "Unable to extract content due to unknown extension")
       /\ Api.body resp !! "error_code" = Some (JStr "1")
       /\ reports_nonzero_exit_code (Api.body resp) = true)
  /\ (forall req : Views.request,
        Views.well_formed req = true ->
        registered (Views.extension req) = false ->
        let path := mktemp T (dom (fs w)) ("." ++ Views.extension req) in
        let saved := World (<[path := Views.upload req]> (fs w)) (calls w) in
        exists (d : obj) (l : Views.locals),
          Views.extract_doc_content T req w
          = (Return (Views.JsonResponse d),
             World (fs w) (calls w ++ [Call "get_page_count" path]))
          /\ d !! "content" = Some (JStr "")
          /\ d !! "err"
             = Some (JStr "Unable to extract content due to unknown extension")
          /\ d !! "extracted_by_ocr" = Some (JBool false)
          /\ d !! "page_count" = Some JNull
          /\ reports_exit_code d = false
          /\ Views.dispatch T (Views.extension req) path (Views.ocr_available req) saved
             = (Return l, saved)
          /\ Views.returncode l = None).
Proof.
  intros Hfresh. split.
  - intros req Hext Hsuffix. eexists. split.
    { apply api_extract_content_unknown; assumption. }
    cbn [Api.jsonify Api.status Api.body].
    pose proof (api_payload_fields ""
                  "Unable to extract content due to unknown extension" 1)
      as (H1 & H2 & H3).
    repeat split; assumption.
  - intros req Hok Hext path saved. eexists _, _. split.
    { apply views_extract_doc_content_unknown; assumption. }
    split; [apply views_payload_content|].
    split; [apply views_payload_err|].
    split; [apply views_payload_mark|].
    split; [apply views_payload_page_count|].
    split; [apply views_payload_no_exit_code|].
    split; [apply views_dispatch_unknown, Hext | reflexivity].
Qed.

Lemma unknown_extension_short_circuit_witness :
  exists resp : Api.response,
    Api.extract_content (Fixtures.scanned "")
      (Api.Request "minutes.rtf" (b "{\rtf1 minutes}") (Some "True"))
      Fixtures.empty_world
    = (Return resp, Fixtures.empty_world)
    /\ Api.status resp = 200
    /\ Api.body resp !! "content" = Some (JStr "")
    /\ Api.body resp !! "err"
       = Some (JStr "Unable to extract content due to unknown extension")
    /\ Api.body resp !! "error_code" = Some (JStr "1")
    /\ reports_nonzero_exit_code (Api.body resp) = true.
Proof.
  exact (proj1 (unknown_extension_short_circuit (Fixtures.scanned "")
                  Fixtures.empty_world
                  (fixture_names_fresh (Fixtures.scanned "") eq_refl))
           (Api.Request "minutes.rtf" (b "{\rtf1 minutes}") (Some "True"))
           eq_refl eq_refl).
Defined.

(** C2 as it is stated fails on the Django orchestrator: the answer to
    an upload with the extension rtf reports no exit code at all. *)
Lemma django_unknown_extension_without_exit_code :
  ~ (exists (d : obj) (w' : world),
       Views.extract_doc_content (Fixtures.scanned "")
         (Views.Request true None (b "{\rtf1 minutes}") "rtf" true)
         Fixtures.empty_world
       = (Return (Views.JsonResponse d), w')
       /\ d !! "content" = Some (JStr "")
       /\ reports_nonzero_exit_code d = true).
Proof.
  intros (d & w' & Hrun & _ & Hcode).
  destruct (views_extract_doc_content_payload _ _ _ _ _ Hrun) as (l & n & ->).
  rewrite views_payload_no_nonzero_exit_code in Hcode. discriminate.
Qed.

(** C3, as the code has it. A PDF whose text layer is empty or white
    space only, with OCR not allowed: for the Flask orchestrator, the
    do_ocr parameter absent or empty; for the Django one, ocr_available
    false. The Flask orchestrator makes the text-layer pass only and
    answers with empty content, "No content detected" and the exit code 1
    (as the text "1"); its answer has no [extracted_by_ocr]. The Django
    orchestrator makes the same pass (and counts the pages) and answers
    with empty content and [extracted_by_ocr] false, and with no exit
    code. *)
Theorem blank_pdf_without_ocr (T : tools) (w : world) (upload : bytes)
    (c e : string) (rc : Z) :
  fresh_names T ->
  pdftotext T (Some upload) = Return (c, e, rc) ->
  Api.blank c = true ->
  (forall req : Api.request,
     Api.upload req = upload ->
     last_item (split "." (Api.filename req)) = "pdf" ->
     Api.do_ocr_arg req = None \/ Api.do_ocr_arg req = Some "" ->
     exists resp : Api.response,
       Api.extract_content T req w
       = (Return resp,
          World (fs w)
            (calls w ++ [Call "make_pdftotext_process" (mktemp T (dom (fs w)) ".pdf")]))
       /\ Api.status resp = 200
       /\ Api.body resp !! "content" = Some (JStr "")
       /\ Api.body resp !! "err" = Some (JStr "No content detected")
       /\ Api.body resp !! "error_code" = Some (JStr "1")
       /\ reports_nonzero_exit_code (Api.body resp) = true
       /\ Api.body resp !! "extracted_by_ocr" = None)
  /\ (forall req : Views.request,
        Views.upload req = upload ->
        Views.well_formed req = true ->
        Views.extension req = "pdf" ->
        Views.ocr_available req = false ->
        let path := mktemp T (dom (fs w)) ".pdf" in
        exists d : obj,
          Views.extract_doc_content T req w
          = (Return (Views.JsonResponse d),
             World (fs w)
               (calls w ++ [Call "make_pdftotext_process" path;
                            Call "get_page_count" path]))
          /\ d !! "content" = Some (JStr "")
          /\ d !! "extracted_by_ocr" = Some (JBool false)
          /\ reports_exit_code d = false).
Proof.
  intros Hfresh Hpdf Hblank. split.
  - intros req <- Hext Harg.
    assert (Hocr : truthy (Api.parse_do_ocr (Api.do_ocr_arg req)) = false)
      by (destruct Harg as [-> | ->]; reflexivity).
    eexists. split.
    { rewrite (api_extract_content_plain T Hfresh w req c e rc Hext Hpdf)
        by (rewrite Hocr; reflexivity).
      rewrite Hblank. reflexivity. }
    cbn [Api.jsonify Api.status Api.body].
    pose proof (api_payload_fields "" "No content detected" 1) as (H1 & H2 & H3).
    repeat split; try assumption; apply api_payload_no_mark.
  - intros req <- Hok Hext Hocr path. eexists. split.
    { rewrite (views_extract_doc_content_plain T Hfresh w req c e rc Hok Hext Hpdf)
        by (rewrite Hocr; reflexivity).
      rewrite Hblank. reflexivity. }
    split; [apply views_payload_content|].
    split; [apply views_payload_mark | apply views_payload_no_exit_code].
Qed.

Lemma blank_pdf_without_ocr_witness :
  exists resp : Api.response,
    Api.extract_content (Fixtures.scanned "page one")
      (Api.Request "opinion.pdf" Fixtures.image_pdf None)
      Fixtures.empty_world
    = (Return resp, World ∅ [Call "make_pdftotext_process" "0"])
    /\ Api.status resp = 200
    /\ Api.body resp !! "content" = Some (JStr "")
    /\ Api.body resp !! "err" = Some (JStr "No content detected")
    /\ Api.body resp !! "error_code" = Some (JStr "1")
    /\ reports_nonzero_exit_code (Api.body resp) = true
    /\ Api.body resp !! "extracted_by_ocr" = None.
Proof.
  exact (proj1 (blank_pdf_without_ocr (Fixtures.scanned "page one")
                  Fixtures.empty_world Fixtures.image_pdf Fixtures.form_feeds "" 0
                  (fixture_names_fresh (Fixtures.scanned "page one") eq_refl)
                  eq_refl eq_refl)
           (Api.Request "opinion.pdf" Fixtures.image_pdf None)
           eq_refl eq_refl (or_introl eq_refl)).
Defined.

(** C3 as it is stated fails on each service: no answer has the three
    things it names. The answer of the Django orchestrator to a scanned
    PDF sent without permission to run OCR carries no exit code, and the
    answer of the Flask orchestrator does not say [extracted_by_ocr]. *)
Lemma blank_pdf_answers_lack_a_field :
  ~ (exists (d : obj) (w' : world),
       Views.extract_doc_content (Fixtures.scanned "page one")
         (Views.Request true None Fixtures.image_pdf "pdf" false)
         Fixtures.empty_world
       = (Return (Views.JsonResponse d), w')
       /\ d !! "content" = Some (JStr "")
       /\ reports_nonzero_exit_code d = true
       /\ d !! "extracted_by_ocr" = Some (JBool false))
  /\ ~ (exists (resp : Api.response) (w' : world),
          Api.extract_content (Fixtures.scanned "page one")
            (Api.Request "opinion.pdf" Fixtures.image_pdf None)
            Fixtures.empty_world
          = (Return resp, w')
          /\ Api.body resp !! "content" = Some (JStr "")
          /\ reports_nonzero_exit_code (Api.body resp) = true
          /\ Api.body resp !! "extracted_by_ocr" = Some (JBool false)).
Proof.
  split.
  - intros (d & w' & Hrun & _ & Hcode & _).
    destruct (views_extract_doc_content_payload _ _ _ _ _ Hrun) as (l & n & ->).
    rewrite views_payload_no_nonzero_exit_code in Hcode. discriminate.
  - intros (resp & w' & Hrun & _ & _ & Hmark).
    destruct (api_extract_content_payload _ _ _ _ _ Hrun) as (r & ->).
    cbn [Api.body Api.jsonify] in Hmark.
    rewrite api_payload_no_mark in Hmark. discriminate.
Qed.

Lemma views_payload_shape (extension : string) (l : Views.locals) (n : option Z) :
  has_integer_exit_code (Views.payload extension l n) = false
  /\ extraction_result_shape (Views.payload extension l n) = false.
Proof.
  assert (H : has_integer_exit_code (Views.payload extension l n) = false).
  { unfold has_integer_exit_code, exit_code_keys, Views.payload. cbn [existsb].
    rewrite !lookup_insert_ne by discriminate. rewrite !lookup_empty. reflexivity. }
  split; [exact H|]. unfold extraction_result_shape. rewrite H. reflexivity.
Qed.

Lemma api_payload_shape (r : extraction) :
  has_integer_exit_code (Api.payload r) = false
  /\ extraction_result_shape (Api.payload r) = false.
Proof.
  destruct r as [[c e] rc].
  assert (H : has_integer_exit_code (Api.payload (c, e, rc)) = false).
  { unfold has_integer_exit_code, exit_code_keys, Api.payload. cbn [existsb].
    rewrite !lookup_insert_ne by discriminate. rewrite lookup_insert_eq.
    rewrite !lookup_empty. reflexivity. }
  split; [exact H|]. unfold extraction_result_shape. rewrite H. reflexivity.
Qed.

(** C4, as the code has it. Every JSON answer of the Django extraction
    handler has the fields content, err, extension, extracted_by_ocr and
    page_count and no others, so no exit code; every answer of the Flask
    extraction handler has the fields content, err and error_code and no
    others, and error_code is the text of the return code, not an
    integer. *)
Theorem extraction_payload_fields (T : tools) (w w' : world) :
  (forall (req : Views.request) (d : obj),
     Views.extract_doc_content T req w = (Return (Views.JsonResponse d), w') ->
     dom d = ({["content"; "err"; "extension"; "extracted_by_ocr"; "page_count"]}
                : gset string)
     /\ reports_exit_code d = false)
  /\ (forall (req : Api.request) (resp : Api.response),
        Api.extract_content T req w = (Return resp, w') ->
        dom (Api.body resp) = ({["content"; "err"; "error_code"]} : gset string)
        /\ (exists rc : Z, Api.body resp !! "error_code" = Some (JStr (pretty rc)))
        /\ has_integer_exit_code (Api.body resp) = false
        /\ Api.status resp = 200).
Proof.
  split.
  - intros req d Hrun.
    destruct (views_extract_doc_content_payload T req w w' d Hrun) as (l & n & ->).
    split; [apply views_payload_dom | apply views_payload_no_exit_code].
  - intros req resp Hrun.
    destruct (api_extract_content_payload T req w w' resp Hrun) as ([[c e] rc] & ->).
    cbn [Api.body Api.status Api.jsonify]. split; [|split; [|split]].
    + apply api_payload_dom.
    + exists rc. apply api_payload_fields.
    + apply api_payload_shape.
    + reflexivity.
Qed.

Lemma extraction_payload_fields_witness :
  dom (Api.payload ("", "Unable to extract content due to unknown extension", 1))
  = ({["content"; "err"; "error_code"]} : gset string).
Proof.
  exact (proj1 (proj2 (extraction_payload_fields (Fixtures.scanned "")
                         Fixtures.empty_world Fixtures.empty_world)
                  (Api.Request "minutes.rtf" (b "{\rtf1 minutes}") None)
                  (Api.jsonify (Api.payload
                     ("", "Unable to extract content due to unknown extension", 1)))
                  (api_extract_content_unknown (Fixtures.scanned "")
                     (fixture_names_fresh (Fixtures.scanned "") eq_refl)
                     Fixtures.empty_world
                     (Api.Request "minutes.rtf" (b "{\rtf1 minutes}") None)
                     eq_refl eq_refl))).
Defined.

(** C4 as it is stated fails on both services: neither the answer of
    the Django handler to a scanned PDF nor the answer of the Flask
    handler to a text file has the five fields with an integer exit
    code. *)
Lemma extraction_answers_without_integer_exit_code :
  ~ (exists (d : obj) (w' : world),
       Views.extract_doc_content (Fixtures.scanned "page one")
         (Views.Request true None Fixtures.image_pdf "pdf" true)
         Fixtures.empty_world
       = (Return (Views.JsonResponse d), w')
       /\ extraction_result_shape d = true)
  /\ ~ (exists (resp : Api.response) (w' : world),
          Api.extract_content (Fixtures.scanned "")
            (Api.Request "notes.txt" (b "hello") None)
            Fixtures.empty_world
          = (Return resp, w')
          /\ extraction_result_shape (Api.body resp) = true).
Proof.
  split.
  - intros (d & w' & Hrun & Hshape).
    destruct (views_extract_doc_content_payload _ _ _ _ _ Hrun) as (l & n & ->).
    rewrite (proj2 (views_payload_shape _ _ _)) in Hshape. discriminate.
  - intros (resp & w' & Hrun & Hshape).
    destruct (api_extract_content_payload _ _ _ _ _ Hrun) as (r & ->).
    cbn [Api.body Api.jsonify] in Hshape.
    rewrite (proj2 (api_payload_shape _)) in Hshape. discriminate.
Qed.

(** ** The extension resolver (views.py) *)

Section ResolverFacts.
Context (S : Views.sniffer).

Lemma is_ext_Some (e e' : string) :
  Views.is_ext (Some e) e' = (e =? e')%string.
Proof. reflexivity. Qed.

Lemma is_ext_None (e' : string) : Views.is_ext None e' = false.
Proof. reflexivity. Qed.

(** The table has an extension that is none of the two placeholders,
    or none at all: the resolution is what the table says. *)
Lemma resolve_direct (content : bytes) (w : world) :
  Views.is_ext (Views.guess_extension S (Views.sniff_mime S content)) ".obj" = false ->
  Views.is_ext (Views.guess_extension S (Views.sniff_mime S content)) ".bin" = false ->
  Views.resolve S content w
  = (Return (Views.guess_extension S (Views.sniff_mime S content)), w).
Proof.
  intros Hobj Hbin. unfold Views.resolve. rewrite Hobj.
  rewrite bind_run. cbn. rewrite Hbin. reflexivity.
Qed.

(** The object-file placeholder: the test for "PDF" looks for a [str]
    in a [bytes] object. *)
Lemma resolve_placeholder (content : bytes) (w : world) :
  Views.guess_extension S (Views.sniff_mime S content) = Some ".obj" ->
  Views.resolve S content w
  = (Raise (Exn TypeError "a bytes-like object is required, not 'str'"), w).
Proof.
  intros Hobj. unfold Views.resolve. rewrite Hobj. reflexivity.
Qed.

(** The unknown-binary placeholder: the content is sniffed again
    without the end-of-file noise. *)
Lemma resolve_bin (content : bytes) (w : world) :
  Views.guess_extension S (Views.sniff_mime S content) = Some ".bin" ->
  Views.resolve S content w
  = (Return (Views.guess_extension S
               (Views.from_buffer_mime S
                  (bytes_strip (b "%%EOF" ++ [Views.carriage_return])%list content))),
     w).
Proof.
  intros Hbin. unfold Views.resolve. rewrite Hbin. reflexivity.
Qed.

(** The handler around the resolution: the fix-up table and the case
    folding come after it, whatever path it took. *)
Lemma extract_extension_run (req : Views.mime_request) (w : world) :
  Views.mime_well_formed req = true ->
  Views.extract_extension S req w
  = match Views.resolve S (Views.file req) w with
    | (Return (Some e), w') =>
        (Return (Views.HttpResponse (lower (default e (Views.fixes !! e))) 200), w')
    | (Return None, w') =>
        (Raise (Exn AttributeError "'NoneType' object has no attribute 'lower'"), w')
    | (Raise x, w') => (Raise x, w')
    end.
Proof.
  intros Hok. unfold Views.extract_extension. rewrite Hok. cbn [negb].
  rewrite bind_run.
  destruct (Views.resolve S (Views.file req) w) as [[[e|]|x] w']; reflexivity.
Qed.

Lemma sniff_mime_composite (content : bytes) :
  startswith (Views.from_buffer S content) "Composite Document File V2 Document" = true ->
  Views.sniff_mime S content = "application/msword".
Proof. intros H. unfold Views.sniff_mime. rewrite H. reflexivity. Qed.

Lemma sniff_mime_corel (content : bytes) :
  Views.from_buffer S content = "(Corel/WP)" ->
  Views.sniff_mime S content = "application/vnd.wordperfect".
Proof. intros H. unfold Views.sniff_mime. rewrite H. reflexivity. Qed.

End ResolverFacts.

Example fixes_htm : Views.fix_up (Some ".htm") = VStr ".html".
Proof. reflexivity. Qed.

Example fixes_upper_case_htm :
  lower_op (Views.fix_up (Some ".HTM")) = Return (VStr ".htm").
Proof. reflexivity. Qed.

Example audio_label_id3 :
  Views.audio_label "Audio file with ID3 version 2.3.0, contains: MPEG ADTS, layer III, v1"
  = true.
Proof. reflexivity. Qed.

Example audio_label_across_lines :
  Views.audio_label ("Audio file with ID3 version 2.3.0" ++ String Views.newline "MPEG ADTS, layer III")
  = false.
Proof. reflexivity. Qed.

(** C5. The sniffed MIME type maps to the object-file placeholder .obj:
    the resolver does not return .pdf or .wpd, it raises a TypeError,
    because line 217 looks for the [str] "PDF" in the first forty bytes
    of a [bytes] object. *)
Theorem placeholder_disambiguation_raises (S : Views.sniffer)
    (req : Views.mime_request) (w : world) :
  Views.mime_well_formed req = true ->
  Views.guess_extension S (Views.sniff_mime S (Views.file req)) = Some ".obj" ->
  Views.extract_extension S req w
  = (Raise (Exn TypeError "a bytes-like object is required, not 'str'"), w).
Proof.
  intros Hok Hobj. rewrite extract_extension_run by exact Hok.
  rewrite resolve_placeholder by exact Hobj. reflexivity.
Qed.

Lemma placeholder_disambiguation_raises_witness :
  Views.extract_extension Fixtures.placeholder_sniffer
    (Views.MimeRequest true (b "%PDF-1.4 scanned pages")) Fixtures.empty_world
  = (Raise (Exn TypeError "a bytes-like object is required, not 'str'"),
     Fixtures.empty_world).
Proof.
  exact (placeholder_disambiguation_raises Fixtures.placeholder_sniffer
           (Views.MimeRequest true (b "%PDF-1.4 scanned pages"))
           Fixtures.empty_world eq_refl eq_refl).
Defined.

(** C6. The MIME type has no entry in the table: the endpoint that
    answers with the MIME type and the extension returns the raw MIME
    type with a null extension; the extension resolver does not return,
    it raises an AttributeError, because line 236 calls [lower] on
    [None]. *)
Theorem unlisted_mime_type (S : Views.sniffer) (req : Views.mime_request) (w : world) :
  Views.mime_well_formed req = true ->
  (Views.guess_extension S (Views.from_buffer_mime S (Views.file req)) = None ->
   Views.extract_mime_from_buffer S req w
   = (Return (Views.JsonResponse
                (<["mime" := JStr (Views.from_buffer_mime S (Views.file req))]>
                 (<["extension" := JNull]> ∅))), w))
  /\ (Views.guess_extension S (Views.sniff_mime S (Views.file req)) = None ->
      Views.extract_extension S req w
      = (Raise (Exn AttributeError "'NoneType' object has no attribute 'lower'"), w)).
Proof.
  intros Hok. split.
  - intros Hnone. unfold Views.extract_mime_from_buffer.
    rewrite Hok, Hnone. reflexivity.
  - intros Hnone. rewrite extract_extension_run by exact Hok.
    rewrite resolve_direct by (rewrite Hnone; reflexivity).
    rewrite Hnone. reflexivity.
Qed.

Lemma unlisted_mime_type_witness :
  Views.extract_extension Fixtures.unlisted_sniffer
    (Views.MimeRequest true (b "bplist00")) Fixtures.empty_world
  = (Raise (Exn AttributeError "'NoneType' object has no attribute 'lower'"),
     Fixtures.empty_world).
Proof.
  exact (proj2 (unlisted_mime_type Fixtures.unlisted_sniffer
                  (Views.MimeRequest true (b "bplist00"))
                  Fixtures.empty_world eq_refl) eq_refl).
Defined.

(** C7 fails on the code, on the branch of the object-file placeholder.
    The resolver has four ways to go. When the table answers .obj, line
    217 raises (the defect of C5): nothing comes out of the disambiguation
    branch, so the fix-up table is not applied after it. When the table
    has no extension, line 236 raises (the defect of C6). On the two
    other paths, the table's own extension and the extension found by
    the second look after the unknown-binary placeholder .bin, the answer
    is that extension fixed up and in lower case. So a label that starts
    with "Composite Document File V2 Document" gives .doc when the table
    maps application/msword to .doc or .dot, and the label "(Corel/WP)"
    gives .wpd when the table maps application/vnd.wordperfect to .wpd. *)
Theorem fix_up_after_resolution (S : Views.sniffer) (req : Views.mime_request)
    (w : world) :
  Views.mime_well_formed req = true ->
  let guessed := Views.guess_extension S (Views.sniff_mime S (Views.file req)) in
  let again :=
    Views.guess_extension S
      (Views.from_buffer_mime S
         (bytes_strip (b "%%EOF" ++ [Views.carriage_return])%list (Views.file req))) in
  (guessed = Some ".obj" ->
   Views.extract_extension S req w
   = (Raise (Exn TypeError "a bytes-like object is required, not 'str'"), w))
  /\ (guessed = None ->
      Views.extract_extension S req w
      = (Raise (Exn AttributeError "'NoneType' object has no attribute 'lower'"), w))
  /\ (forall e,
        guessed = Some e -> e ≠ ".obj" -> e ≠ ".bin" ->
        Views.extract_extension S req w
        = (Return (Views.HttpResponse (lower (default e (Views.fixes !! e))) 200), w))
  /\ (forall e,
        guessed = Some ".bin" -> again = Some e ->
        Views.extract_extension S req w
        = (Return (Views.HttpResponse (lower (default e (Views.fixes !! e))) 200), w))
  /\ (startswith (Views.from_buffer S (Views.file req))
        "Composite Document File V2 Document" = true ->
      Views.guess_extension S "application/msword" = Some ".doc"
      \/ Views.guess_extension S "application/msword" = Some ".dot" ->
      Views.extract_extension S req w = (Return (Views.HttpResponse ".doc" 200), w))
  /\ (Views.from_buffer S (Views.file req) = "(Corel/WP)" ->
      Views.guess_extension S "application/vnd.wordperfect" = Some ".wpd" ->
      Views.extract_extension S req w = (Return (Views.HttpResponse ".wpd" 200), w)).
Proof.
  intros Hok guessed again.
  assert (Hdirect : forall e,
            guessed = Some e -> e ≠ ".obj" -> e ≠ ".bin" ->
            Views.extract_extension S req w
            = (Return (Views.HttpResponse (lower (default e (Views.fixes !! e))) 200), w)).
  { intros e He Hobj Hbin. rewrite extract_extension_run by exact Hok.
    rewrite resolve_direct.
    - fold guessed. rewrite He. reflexivity.
    - fold guessed. rewrite He, is_ext_Some. apply String.eqb_neq, Hobj.
    - fold guessed. rewrite He, is_ext_Some. apply String.eqb_neq, Hbin. }
  split; [|split; [|split; [|split; [|split]]]].
  - intros Hobj. rewrite extract_extension_run by exact Hok.
    rewrite resolve_placeholder by exact Hobj. reflexivity.
  - intros Hnone. rewrite extract_extension_run by exact Hok.
    rewrite resolve_direct by (fold guessed; rewrite Hnone; reflexivity).
    fold guessed. rewrite Hnone. reflexivity.
  - exact Hdirect.
  - intros e Hbin He. rewrite extract_extension_run by exact Hok.
    rewrite resolve_bin by exact Hbin. fold again. rewrite He. reflexivity.
  - intros Hlabel Htable.
    pose proof (sniff_mime_composite S _ Hlabel) as Hmime.
    unfold guessed in Hdirect. rewrite Hmime in Hdirect.
    destruct Htable as [Hdoc | Hdot].
    + rewrite (Hdirect ".doc") by first [exact Hdoc | discriminate]. reflexivity.
    + rewrite (Hdirect ".dot") by first [exact Hdot | discriminate]. reflexivity.
  - intros Hlabel Htable.
    pose proof (sniff_mime_corel S _ Hlabel) as Hmime.
    unfold guessed in Hdirect. rewrite Hmime in Hdirect.
    rewrite (Hdirect ".wpd") by first [exact Htable | discriminate].
    reflexivity.
Qed.

(** A file that libmagic takes for unnamed data and the table files
    under the object-file placeholder, whether it holds "PDF" or not;
    and the two labels of the word-processor workarounds, with a table
    that has an extension for their MIME types. *)
Lemma fix_up_after_resolution_witness :
  Views.extract_extension Fixtures.placeholder_sniffer
    (Views.MimeRequest true (b "WPC wordperfect document")) Fixtures.empty_world
  = (Raise (Exn TypeError "a bytes-like object is required, not 'str'"),
     Fixtures.empty_world)
  /\ Views.extract_extension Fixtures.word_sniffer
       (Views.MimeRequest true (b "word document")) Fixtures.empty_world
     = (Return (Views.HttpResponse ".doc" 200), Fixtures.empty_world)
  /\ Views.extract_extension Fixtures.corel_sniffer
       (Views.MimeRequest true (b "wordperfect document")) Fixtures.empty_world
     = (Return (Views.HttpResponse ".wpd" 200), Fixtures.empty_world)
  /\ Views.extract_extension Fixtures.html_sniffer
       (Views.MimeRequest true (b "<html></html>")) Fixtures.empty_world
     = (Return (Views.HttpResponse ".html" 200), Fixtures.empty_world).
Proof.
  split; [|split; [|split]].
  - exact (proj1
             (fix_up_after_resolution Fixtures.placeholder_sniffer
                (Views.MimeRequest true (b "WPC wordperfect document"))
                Fixtures.empty_world eq_refl)
             eq_refl).
  - exact (proj1 (proj2 (proj2 (proj2 (proj2
             (fix_up_after_resolution Fixtures.word_sniffer
                (Views.MimeRequest true (b "word document"))
                Fixtures.empty_world eq_refl)))))
             eq_refl (or_intror eq_refl)).
  - exact (proj2 (proj2 (proj2 (proj2 (proj2
             (fix_up_after_resolution Fixtures.corel_sniffer
                (Views.MimeRequest true (b "wordperfect document"))
                Fixtures.empty_world eq_refl)))))
             eq_refl eq_refl).
  - exact (proj1 (proj2 (proj2
             (fix_up_after_resolution Fixtures.html_sniffer
                (Views.MimeRequest true (b "<html></html>"))
                Fixtures.empty_world eq_refl)))
             ".htm" eq_refl ltac:(discriminate) ltac:(discriminate)).
Defined.

(** ** Page counts *)




(** ** Temporary files

    The audio handler of api.py removes its temporary file on the way
    out, by [return] or through its [except] clause. *)

Section Audio.
Context (A : Api.audio_tools) (tmp_path : string) (w : world).

Lemma cleanup_handler (e : exn) (w1 : world) :
  elsewhere tmp_path w w1 ->
  fs ((present ← path_exists tmp_path;
       _ ← (if present : bool then remove tmp_path else mret tt);
       mret (Api.Response (<["msg" := JStr (exn_msg e)]> ∅) 422)) w1).2
  = delete tmp_path (fs w).
Proof.
  intros H. unfold elsewhere in H.
  cbv [mbind M_bind bind path_exists remove mret M_ret ret].
  case_bool_decide as Hp.
  - destruct Hp as [x Hx]. rewrite Hx. cbn. exact H.
  - apply eq_None_not_Some in Hp. cbn. rewrite <- H. symmetry. apply delete_id, Hp.
Qed.

Lemma convert_to_mp3_elsewhere (audio : bytes) (w1 : world) :
  elsewhere tmp_path w w1 ->
  elsewhere tmp_path w (Api.convert_to_mp3 A audio tmp_path w1).2.
Proof.
  unfold elsewhere, Api.convert_to_mp3. intros H.
  destruct (Api.transcoder A audio) as [[mp3|] r]; cbn; [|exact H].
  rewrite delete_insert_eq. exact H.
Qed.

Lemma set_mp3_meta_data_elsewhere (data : obj) (w1 : world) :
  elsewhere tmp_path w w1 ->
  elsewhere tmp_path w (Api.set_mp3_meta_data A data tmp_path w1).2.
Proof.
  unfold elsewhere, Api.set_mp3_meta_data. intros H.
  destruct (Api.tagger A data (fs w1 !! tmp_path)) as [[mp3 loaded]|x]; cbn; [|exact H].
  rewrite delete_insert_eq. exact H.
Qed.

Lemma remove_elsewhere (w1 : world) :
  elsewhere tmp_path w w1 ->
  match remove tmp_path w1 with
  | (Return _, w2) => fs w2 = delete tmp_path (fs w)
  | (Raise _, w2) => elsewhere tmp_path w w2
  end.
Proof.
  unfold elsewhere, remove. intros H.
  destruct (fs w1 !! tmp_path); cbn; exact H.
Qed.

End Audio.

Lemma audio_conversion_cleans_up (A : Api.audio_tools) (req : Api.audio_request)
    (w : world) :
  fs (Api.audio_conversion A req w).2
  = delete ("/tmp/audio_" ++ Api.uuid_hex req ++ ".mp3") (fs w).
Proof.
  unfold Api.audio_conversion.
  set (tmp_path := "/tmp/audio_" ++ Api.uuid_hex req ++ ".mp3").
  unfold try_except.
  match goal with
  | |- context [match ?body w with _ => _ end] =>
      assert (Hbody : match body w with
                      | (Return _, w') => fs w' = delete tmp_path (fs w)
                      | (Raise _, w') => elsewhere tmp_path w w'
                      end);
      [| destruct (body w) as [[resp|x] w']; [exact Hbody | apply cleanup_handler; exact Hbody]]
  end.
  assert (H0 : elsewhere tmp_path w w) by reflexivity.
  rewrite bind_run. unfold lift at 1.
  destruct (Api.audio_file req) as [audio|]; [|exact H0].
  rewrite bind_run. unfold lift at 1.
  destruct (match Api.audio_data req with Some s => _ | None => _ end) as [data|x];
    [|exact H0].
  rewrite bind_run.
  pose proof (convert_to_mp3_elsewhere A tmp_path w audio w H0) as H1.
  destruct (Api.convert_to_mp3 A audio tmp_path w) as [[[]|x] w1]; [|exact H1].
  rewrite bind_run.
  pose proof (set_mp3_meta_data_elsewhere A tmp_path w data w1 H1) as H2.
  destruct (Api.set_mp3_meta_data A data tmp_path w1) as [[loaded|x] w2]; [|exact H2].
  rewrite bind_run. unfold Api.convert_to_base64. rewrite run_tool_run.
  destruct (Api.base64 A (fs w2 !! tmp_path)) as [audio_b64|x]; [|exact H2].
  rewrite bind_run.
  pose proof (remove_elsewhere tmp_path w
                (with_call (Call "convert_to_base64" tmp_path) w2) H2) as H3.
  destruct (remove tmp_path _) as [[[]|x] w3]; [|exact H3].
  rewrite bind_run. unfold lift.
  destruct loaded as [d|]; cbn.
  - exact H3.
  - unfold elsewhere. rewrite H3. apply delete_delete_eq.
Qed.

(** C9 fails on the Django handlers. The text-layer pass raises on a
    well-formed upload: the PDF-only handler catches the exception and
    answers 406, the extraction handler lets it through, and in both
    cases the upload that the form saved, which was not there before the
    request, is still on disk afterwards. *)
Theorem upload_left_behind_on_exception (T : tools) (req : Views.request)
    (w : world) (x : exn) :
  fresh_names T ->
  Views.well_formed req = true ->
  pdftotext T (Some (Views.upload req)) = Raise x ->
  let path := mktemp T (dom (fs w)) ("." ++ Views.extension req) in
  let w' := World (<[path := Views.upload req]> (fs w))
              (calls w ++ [Call "make_pdftotext_process" path]) in
  fs w !! path = None
  /\ fs w' !! path = Some (Views.upload req)
  /\ Views.extract_pdf T req w
     = (Return (Views.HttpResponse (exn_msg x) Views.NOT_ACCEPTABLE), w')
  /\ (Views.extension req = "pdf" ->
      Views.extract_doc_content T req w = (Raise x, w')).
Proof.
  intros Hfresh Hok Hpdf path w'.
  assert (Hrun : Views.extract_from_pdf T path (Views.ocr_available req)
                   (World (<[path := Views.upload req]> (fs w)) (calls w))
                 = (Raise x, w')).
  { apply views_extract_from_pdf_raise. cbn [fs].
    rewrite lookup_insert_eq. exact Hpdf. }
  split; [|split; [|split]].
  - apply fresh_lookup, Hfresh.
  - apply lookup_insert_eq.
  - rewrite (views_extract_pdf_run T Hfresh req w w' (Raise x) Hok Hrun).
    reflexivity.
  - intros Hext.
    rewrite (views_extract_doc_content_run T Hfresh req w w' (Raise x) Hok).
    + reflexivity.
    + fold path. unfold Views.dispatch. rewrite Hext.
      change ("pdf" =? "pdf")%string with true. cbv iota.
      erewrite bind_raise; [reflexivity|].
      rewrite <- Hrun. unfold path. rewrite Hext. reflexivity.
Qed.

Lemma upload_left_behind_on_exception_witness :
  Views.extract_pdf Fixtures.broken
    (Views.Request true None (b "%PDF-1.4 garbled") "pdf" true) Fixtures.empty_world
  = (Return (Views.HttpResponse "pdftotext: cannot decode output" 406),
     World {["0" := b "%PDF-1.4 garbled"]} [Call "make_pdftotext_process" "0"]).
Proof.
  exact (proj1 (proj2 (proj2
           (upload_left_behind_on_exception Fixtures.broken
              (Views.Request true None (b "%PDF-1.4 garbled") "pdf" true)
              Fixtures.empty_world
              (Exn ToolError "pdftotext: cannot decode output")
              (fixture_names_fresh Fixtures.broken eq_refl) eq_refl eq_refl)))).
Defined.

(** ** The OCR flag of the Flask services *)

Lemma parse_do_ocr_True (arg : option string) :
  Api.parse_do_ocr arg = VBool true <-> arg = Some "True".
Proof.
  unfold Api.parse_do_ocr. destruct arg as [s|]; cbn.
  - destruct (String.eqb_spec s "True") as [->|Hne].
    + split; reflexivity.
    + split; [discriminate | congruence].
  - split; discriminate.
Qed.

Lemma parse_do_ocr_truthy (s : string) :
  s ≠ "" -> truthy (Api.parse_do_ocr (Some s)) = true.
Proof.
  intros Hne. unfold Api.parse_do_ocr. cbn.
  destruct (s =? "True")%string; cbn; [reflexivity|].
  apply negb_true_iff, String.eqb_neq, Hne.
Qed.

(** The OCR path of server.py. *)
Lemma server_extract_content_ocr (T : tools) (w : world) (req : Api.request)
    (c e : string) (rc : Z) (img : bytes) (r : extraction)
    (c2 e2 : string) (rc2 : Z) :
  fresh_names T ->
  last_item (split "." (Api.filename req)) = "pdf" ->
  truthy (Api.parse_do_ocr (Api.do_ocr_arg req)) = true ->
  pdftotext T (Some (Api.upload req)) = Return (c, e, rc) ->
  Api.blank c = true ->
  rasterizer T (Some (Api.upload req)) = Return (img, r) ->
  tesseract T (Some img) = Return (c2, e2, rc2) ->
  let tmp := mktemp T (dom (fs w)) ".pdf" in
  Server.extract_content T req w
  = (Return (if (c2 =? "")%string
             then Server.Pair "Unable to extract document content." false
             else Server.Pair c2 true),
     World (fs w)
       (calls w ++ [Call "make_pdftotext_process" tmp;
                    Call "rasterize_pdf" tmp;
                    Call "extract_from_pdf" (tiff_name T w tmp (Api.upload req))])).
Proof.
  intros Hfresh Hext Hocr Hpdf Hblank Hras Htess tmp.
  unfold Server.extract_content. rewrite Hext. change ("." ++ "pdf") with ".pdf".
  unfold tiff_name.
  assert (Htmp : fs w !! tmp = None) by (apply fresh_lookup, Hfresh).
  set (files := <[tmp := Api.upload req]> (fs w)).
  set (tiff := mktemp T (dom files) ".tiff").
  assert (Hfile : files !! tmp = Some (Api.upload req)) by apply lookup_insert_eq.
  assert (Htiff : files !! tiff = None) by (apply fresh_lookup, Hfresh).
  assert (Hne : tiff ≠ tmp) by (apply fresh_ne; [exact Hfresh | eauto]).
  erewrite with_NamedTemporaryFile_run; [| reflexivity |].
  2:{ fold tmp. rewrite bind_run. unfold save, with_fs at 1. cbn [fs calls with_fs].
      rewrite insert_insert_eq. fold files.
      change ("pdf" =? "pdf")%string with true. cbv iota.
      erewrite bind_return.
      2:{ unfold Server.communicate. erewrite bind_return.
          2:{ unfold make_pdftotext_process. rewrite run_tool_run.
              cbn [fs]. rewrite Hfile, Hpdf. reflexivity. }
          reflexivity. }
      cbv beta iota. rewrite Hocr, Hblank. cbv [andb].
      erewrite with_NamedTemporaryFile_run; [| reflexivity |].
      2:{ cbn [fs with_call]. fold tiff.
          erewrite bind_return.
          2:{ unfold rasterize_pdf. cbn [fs with_fs with_call].
              rewrite lookup_insert_ne by exact Hne.
              rewrite Hfile, Hras. reflexivity. }
          erewrite bind_return.
          2:{ unfold Server.extract_from_pdf. erewrite bind_return.
              2:{ rewrite run_tool_run. cbn [fs with_fs with_call].
                  rewrite lookup_insert_eq, Htess. reflexivity. }
              reflexivity. }
          apply if_ret. }
      reflexivity. }
  fold tmp. f_equal. world_eq. fold tiff.
  rewrite insert_insert_eq, delete_insert_eq.
  rewrite (delete_id _ tiff) by exact Htiff.
  unfold files. rewrite delete_insert_eq. apply delete_id, Htmp.
Qed.

(** C10 fails on the code. The flag is the boolean [True] for the text
    "True" only, and it is false when the parameter is absent or empty;
    but every other text stays a text, and a text that is not empty
    holds as true in the condition on line 71: the handlers of api.py
    and of server.py rasterize a blank PDF and run OCR on it whatever the
    text, "False", "true" or "1". *)
Theorem do_ocr_text_enables_ocr (T : tools) (w : world) (req : Api.request)
    (s : string) (c e : string) (rc : Z) (img : bytes) (r : extraction)
    (c2 e2 : string) (rc2 : Z) :
  fresh_names T ->
  Api.do_ocr_arg req = Some s ->
  s ≠ "" ->
  last_item (split "." (Api.filename req)) = "pdf" ->
  pdftotext T (Some (Api.upload req)) = Return (c, e, rc) ->
  Api.blank c = true ->
  rasterizer T (Some (Api.upload req)) = Return (img, r) ->
  tesseract T (Some img) = Return (c2, e2, rc2) ->
  let tmp := mktemp T (dom (fs w)) ".pdf" in
  let w' := World (fs w)
              (calls w ++ [Call "make_pdftotext_process" tmp;
                           Call "rasterize_pdf" tmp;
                           Call "extract_from_pdf" (tiff_name T w tmp (Api.upload req))]) in
  (Api.parse_do_ocr (Some s) = VBool true <-> s = "True")
  /\ truthy (Api.parse_do_ocr (Some s)) = true
  /\ truthy (Api.parse_do_ocr None) = false
  /\ truthy (Api.parse_do_ocr (Some "")) = false
  /\ Api.extract_content T req w
     = (Return (Api.jsonify (Api.payload (ocr_verdict (c2, e2, rc2)))), w')
  /\ Server.extract_content T req w
     = (Return (if (c2 =? "")%string
                then Server.Pair "Unable to extract document content." false
                else Server.Pair c2 true), w').
Proof.
  intros Hfresh Harg Hne Hext Hpdf Hblank Hras Htess tmp w'.
  assert (Hocr : truthy (Api.parse_do_ocr (Api.do_ocr_arg req)) = true).
  { rewrite Harg. apply parse_do_ocr_truthy, Hne. }
  split; [|split; [|split; [|split; [|split]]]].
  - rewrite parse_do_ocr_True. split; congruence.
  - apply parse_do_ocr_truthy, Hne.
  - reflexivity.
  - reflexivity.
  - exact (api_extract_content_ocr T Hfresh w req c e rc img r (c2, e2, rc2)
             Hext Hocr Hpdf Hblank Hras Htess).
  - exact (server_extract_content_ocr T w req c e rc img r c2 e2 rc2
             Hfresh Hext Hocr Hpdf Hblank Hras Htess).
Qed.

(** The request the test helper of tests/tests.py sends when OCR is not
    wanted: [do_ocr=False] arrives as the text "False". *)
Lemma do_ocr_text_enables_ocr_witness :
  Api.extract_content (Fixtures.scanned "page one")
    (Api.Request "opinion.pdf" Fixtures.image_pdf (Some "False"))
    Fixtures.empty_world
  = (Return (Api.jsonify (Api.payload ("page one", "", 0))),
     World ∅ [Call "make_pdftotext_process" "0";
              Call "rasterize_pdf" "0";
              Call "extract_from_pdf" "1"]).
Proof.
  exact (proj1 (proj2 (proj2 (proj2 (proj2
           (do_ocr_text_enables_ocr (Fixtures.scanned "page one")
              Fixtures.empty_world
              (Api.Request "opinion.pdf" Fixtures.image_pdf (Some "False"))
              "False" Fixtures.form_feeds "" 0 (b "II*") ("", "", 0) "page one" "" 0
              (fixture_names_fresh (Fixtures.scanned "page one") eq_refl)
              eq_refl ltac:(discriminate) eq_refl eq_refl eq_refl eq_refl eq_refl)))))).
Defined.


(** * More of the code *)

(** ** The Flask extraction handler on its other paths *)

(** X1. The Flask extraction handler leaves the files on disk as it
    found them, whatever the request and whatever the tools do, return
    or raise: the saved upload and the rasterized pages are gone. *)
Theorem flask_extraction_leaves_no_file (T : tools) (req : Api.request) (w : world) :
  fresh_names T ->
  forall (r : outcome Api.response) (w' : world),
    Api.extract_content T req w = (r, w') -> fs w' = fs w.
Proof.
  intros Hfresh r w' Hrun.
  pose proof (api_extract_content_cleans_up T Hfresh req w) as H.
  rewrite Hrun in H. exact H.
Qed.

Lemma flask_extraction_leaves_no_file_witness :
  fs (Api.extract_content Fixtures.broken
        (Api.Request "opinion.pdf" Fixtures.image_pdf (Some "True"))
        (World {["/srv/keep.txt" := b "kept"]} [])).2
  = {["/srv/keep.txt" := b "kept"]}.
Proof.
  exact (flask_extraction_leaves_no_file Fixtures.broken
           (Api.Request "opinion.pdf" Fixtures.image_pdf (Some "True"))
           (World {["/srv/keep.txt" := b "kept"]} [])
           (fixture_names_fresh Fixtures.broken eq_refl) _ _
           (surjective_pairing _)).
Defined.

Lemma api_dispatch_returns (T : tools) (do_ocr : val) (extension tmp : string)
    (w : world) :
  tools_return T ->
  exists r w', Api.dispatch T do_ocr extension tmp w = (Return r, w').
Proof.
  intros (Hpdf & Hras & Htess & Hdoc & Hdocx & Hhtml & Htxt & Hwpd).
  unfold Api.dispatch.
  destruct (extension =? "pdf")%string.
  - rewrite bind_run. unfold make_pdftotext_process. rewrite run_tool_run.
    destruct (Hpdf (fs w !! tmp)) as [[[c e] rc] ->].
    destruct (truthy do_ocr && Api.blank c).
    + enter_block ".tiff".
      cbv [mbind M_bind bind rasterize_pdf Api.extract_from_pdf run_tool].
      cbn [fs with_fs with_call].
      match goal with |- context [rasterizer T ?o] =>
        destruct (Hras o) as [[img r] ->] end.
      cbn [fs with_fs with_call].
      match goal with |- context [tesseract T ?o] =>
        destruct (Htess o) as [[[c2 e2] rc2] ->] end.
      rewrite if_ret. eauto.
    + rewrite if_ret. eauto.
  - unfold extract_from_doc, extract_from_docx, extract_from_html,
      extract_from_txt, extract_from_wpd.
    repeat match goal with
           | |- context [if ?x then _ else _] => destruct x
           end;
      rewrite ?run_tool_run;
      try match goal with |- context [?f T (fs w !! tmp)] =>
            first [ destruct (Hdoc (fs w !! tmp)) as [r ->]
                  | destruct (Hdocx (fs w !! tmp)) as [r ->]
                  | destruct (Hhtml (fs w !! tmp)) as [r ->]
                  | destruct (Htxt (fs w !! tmp)) as [r ->]
                  | destruct (Hwpd (fs w !! tmp)) as [r ->] ] end;
      eauto.
Qed.

(** X2. The endpoint /document/extract_text on whatever request comes
    in. A request with no part called "file" makes line 61 raise; a file
    name whose extension cannot be the suffix of a file name (it holds a
    "/" or a NUL, or is too long) makes line 67 raise; in both cases
    nothing has been called and nothing written. Every other request is
    answered with status 200, whatever its file name and its flag, as
    long as no tool raises. *)
Theorem flask_extraction_answers (T : tools) (r : Api.flask_request) (w : world) :
  (Api.files r !! "file" = None ->
   exists x, Api.document_extract_text T r w = (Raise x, w)
             /\ exn_cls x = BadRequestKeyError)
  /\ (forall f : Api.file_storage,
        Api.files r !! "file" = Some f ->
        suffix_ok ("." ++ last_item (split "." (Api.part_filename f))) = false ->
        exists x, Api.document_extract_text T r w = (Raise x, w)
                  /\ (exn_cls x = ValueError \/ exn_cls x = OSError))
  /\ (forall f : Api.file_storage,
        Api.files r !! "file" = Some f ->
        suffix_ok ("." ++ last_item (split "." (Api.part_filename f))) = true ->
        tools_return T ->
        exists (x : extraction) (w' : world),
          Api.document_extract_text T r w
          = (Return (Api.Response (Api.payload x) 200), w')).
Proof.
  unfold Api.document_extract_text, Api.files_getitem. split; [|split].
  - intros ->. eexists. split; reflexivity.
  - intros f -> Hsuffix. rewrite bind_run. unfold lift. cbv beta iota.
    unfold Api.extract_content. cbn [Api.filename].
    rewrite with_NamedTemporaryFile_refused by exact Hsuffix.
    eexists. split; [reflexivity|]. unfold tempfile_error.
    destruct (has_char _ _); cbn; auto.
  - intros f -> Hsuffix Htools. rewrite bind_run. unfold lift. cbv beta iota.
    unfold Api.extract_content, with_NamedTemporaryFile. cbn [Api.filename].
    rewrite Hsuffix. rewrite bind_run. unfold save at 1. cbn [fs with_fs].
    rewrite bind_run.
    match goal with |- context [Api.dispatch T ?d ?e ?t ?w0] =>
      destruct (api_dispatch_returns T d e t w0 Htools) as (x & w1 & ->) end.
    cbn. eauto.
Qed.

Lemma flask_extraction_answers_witness :
  (exists (x : extraction) (w' : world),
     Api.document_extract_text (Fixtures.scanned "page one")
       (Fixtures.upload_of "opinion.pdf" Fixtures.image_pdf [("do_ocr", "True")])
       Fixtures.empty_world
     = (Return (Api.Response (Api.payload x) 200), w'))
  /\ (exists x,
        Api.document_extract_text (Fixtures.scanned "page one")
          (Fixtures.upload_of "brief.v1/final" (b "a brief") [])
          Fixtures.empty_world
        = (Raise x, Fixtures.empty_world)
        /\ (exn_cls x = ValueError \/ exn_cls x = OSError))
  /\ (exists x,
        Api.document_extract_text (Fixtures.scanned "page one")
          (Api.FlaskRequest ∅ ∅) Fixtures.empty_world
        = (Raise x, Fixtures.empty_world)
        /\ exn_cls x = BadRequestKeyError).
Proof.
  split; [|split].
  - apply (proj2 (proj2 (flask_extraction_answers (Fixtures.scanned "page one")
                           (Fixtures.upload_of "opinion.pdf" Fixtures.image_pdf
                              [("do_ocr", "True")])
                           Fixtures.empty_world))
             (Api.FileStorage "opinion.pdf" Fixtures.image_pdf) eq_refl eq_refl).
    repeat split; intros a; eexists; reflexivity.
  - exact (proj1 (proj2 (flask_extraction_answers (Fixtures.scanned "page one")
                           (Fixtures.upload_of "brief.v1/final" (b "a brief") [])
                           Fixtures.empty_world))
             (Api.FileStorage "brief.v1/final" (b "a brief")) eq_refl eq_refl).
  - exact (proj1 (flask_extraction_answers (Fixtures.scanned "page one")
                    (Api.FlaskRequest ∅ ∅) Fixtures.empty_world)
             eq_refl).
Defined.

Lemma api_dispatch_other (T : tools) (do_ocr : val) (extension tmp name : string)
    (tool : option bytes -> outcome extraction) (w : world) :
  extractor_of T extension = Some (name, tool) ->
  Api.dispatch T do_ocr extension tmp w
  = (tool (fs w !! tmp), with_call (Call name tmp) w).
Proof.
  unfold extractor_of, Api.dispatch. intros H.
  destruct (String.eqb_spec extension "doc") as [->|_].
  { injection H as <- <-. reflexivity. }
  destruct (String.eqb_spec extension "docx") as [->|_].
  { injection H as <- <-. reflexivity. }
  destruct (String.eqb_spec extension "html") as [->|_].
  { injection H as <- <-. reflexivity. }
  destruct (String.eqb_spec extension "txt") as [->|_].
  { injection H as <- <-. reflexivity. }
  destruct (String.eqb_spec extension "wpd") as [->|_].
  { injection H as <- <-. reflexivity. }
  discriminate.
Qed.

(** The extensions that have an extractor can all be the suffix of a
    file name. *)
Lemma extractor_suffix_ok (T : tools) (extension name : string)
    (tool : option bytes -> outcome extraction) :
  extractor_of T extension = Some (name, tool) ->
  suffix_ok ("." ++ extension) = true.
Proof.
  unfold extractor_of. intros H.
  destruct (String.eqb_spec extension "doc") as [->|_]; [reflexivity|].
  destruct (String.eqb_spec extension "docx") as [->|_]; [reflexivity|].
  destruct (String.eqb_spec extension "html") as [->|_]; [reflexivity|].
  destruct (String.eqb_spec extension "txt") as [->|_]; [reflexivity|].
  destruct (String.eqb_spec extension "wpd") as [->|_]; [reflexivity|].
  discriminate.
Qed.

(** X3. For the formats other than PDF the Flask handler is a plain
    relay: it calls the one extractor of the format on the saved upload
    and answers with what the extractor returned, or raises what it
    raised; the OCR flag plays no part, and nothing is rasterized. *)
Theorem flask_other_formats_pass_through (T : tools) (req : Api.request)
    (w : world) (name : string) (tool : option bytes -> outcome extraction) :
  fresh_names T ->
  extractor_of T (last_item (split "." (Api.filename req))) = Some (name, tool) ->
  let tmp := mktemp T (dom (fs w))
               ("." ++ last_item (split "." (Api.filename req))) in
  Api.extract_content T req w
  = (match tool (Some (Api.upload req)) with
     | Return r => Return (Api.jsonify (Api.payload r))
     | Raise x => Raise x
     end,
     World (fs w) (calls w ++ [Call name tmp])).
Proof.
  intros Hfresh Hext tmp.
  erewrite (api_extract_content_run T Hfresh req w);
    [| exact (extractor_suffix_ok T _ name tool Hext) |].
  2:{ fold tmp. rewrite (api_dispatch_other T _ _ tmp name tool _ Hext).
      cbn [fs]. rewrite lookup_insert_eq. reflexivity. }
  reflexivity.
Qed.

Lemma flask_other_formats_pass_through_witness :
  Api.extract_content (Fixtures.scanned "")
    (Api.Request "brief.docx" (b "PK docx") (Some "True")) Fixtures.empty_world
  = (Return (Api.jsonify (Api.payload ("docx text", "", 0))),
     World ∅ [Call "extract_from_docx" "0"]).
Proof.
  exact (flask_other_formats_pass_through (Fixtures.scanned "")
           (Api.Request "brief.docx" (b "PK docx") (Some "True"))
           Fixtures.empty_world "extract_from_docx"
           (docx2txt (Fixtures.scanned ""))
           (fixture_names_fresh (Fixtures.scanned "") eq_refl) eq_refl).
Defined.

(** X4. A PDF with a text layer that is not blank: the Flask handler
    answers with the text, the diagnostic and the return code of the
    text-layer pass as they are (the text is not stripped), whether the
    caller permits OCR or not, and makes no other call. *)
Theorem flask_text_layer_untouched (T : tools) (req : Api.request) (w : world)
    (c e : string) (rc : Z) :
  fresh_names T ->
  last_item (split "." (Api.filename req)) = "pdf" ->
  pdftotext T (Some (Api.upload req)) = Return (c, e, rc) ->
  Api.blank c = false ->
  Api.extract_content T req w
  = (Return (Api.jsonify (Api.payload (c, e, rc))),
     World (fs w)
       (calls w ++ [Call "make_pdftotext_process" (mktemp T (dom (fs w)) ".pdf")])).
Proof.
  intros Hfresh Hext Hpdf Hblank.
  rewrite (api_extract_content_plain T Hfresh w req c e rc Hext Hpdf)
    by (rewrite Hblank; apply andb_false_r).
  rewrite Hblank. reflexivity.
Qed.

Lemma flask_text_layer_untouched_witness :
  Api.extract_content (Fixtures.typed " (Slip Opinion) ")
    (Api.Request "opinion.pdf" (b "%PDF-1.4 text") (Some "True")) Fixtures.empty_world
  = (Return (Api.jsonify (Api.payload (" (Slip Opinion) ", "", 0))),
     World ∅ [Call "make_pdftotext_process" "0"]).
Proof.
  exact (flask_text_layer_untouched (Fixtures.typed " (Slip Opinion) ")
           (Api.Request "opinion.pdf" (b "%PDF-1.4 text") (Some "True"))
           Fixtures.empty_world " (Slip Opinion) " "" 0
           (fixture_names_fresh (Fixtures.typed " (Slip Opinion) ") eq_refl)
           eq_refl eq_refl eq_refl).
Defined.

(** ** The extension of a file name *)

Lemma split_dot_free (s : string) :
  dot_free s = true -> split "." s = [s].
Proof.
  unfold dot_free. induction s as [|c s IH]; cbn; [reflexivity|].
  intros H. apply andb_prop in H as [Hc Hs].
  apply negb_true_iff in Hc. rewrite Hc, (IH Hs). reflexivity.
Qed.

Lemma split_after_dot (name rest : string) :
  exists w ws, split "." (name ++ String "." rest) = w :: ws
               /\ ws ≠ [] /\ last_item ws = last_item (split "." rest).
Proof.
  induction name as [|c name IH].
  - change ("" ++ String "." rest) with (String "." rest).
    change (split "." (String "." rest)) with ("" :: split "." rest).
    exists "", (split "." rest).
    split; [reflexivity|]. split; [apply split_not_nil | reflexivity].
  - change (String c name ++ String "." rest)
      with (String c (name ++ String "." rest)).
    destruct IH as (w & ws & Hs & Hne & Hlast).
    cbn [split]. rewrite Hs.
    destruct (Ascii.eqb c ".").
    + exists "", (w :: ws). split; [reflexivity|]. split; [discriminate|].
      unfold last_item in *. destruct ws; [contradiction | exact Hlast].
    + exists (String c w), ws. split; [reflexivity|]. split; assumption.
Qed.

(** X5. The extension both Flask services dispatch on is what follows
    the last dot of the file name, and the whole name when it has no dot:
    a file that is called pdf is taken for a PDF. *)
Theorem extension_of_filename (name extension : string) :
  dot_free extension = true ->
  last_item (split "." (name ++ "." ++ extension)) = extension
  /\ last_item (split "." extension) = extension.
Proof.
  intros Hfree. split.
  - destruct (split_after_dot name extension) as (w & ws & Hs & Hne & Hlast).
    change (name ++ "." ++ extension) with (name ++ String "." extension).
    rewrite Hs. rewrite (split_dot_free _ Hfree) in Hlast.
    unfold last_item in *. destruct ws; [contradiction | exact Hlast].
  - rewrite (split_dot_free _ Hfree). reflexivity.
Qed.

Lemma extension_of_filename_witness :
  last_item (split "." ("opinion.v2" ++ "." ++ "pdf")) = "pdf"
  /\ last_item (split "." "pdf") = "pdf".
Proof. exact (extension_of_filename "opinion.v2" "pdf" eq_refl). Defined.

Lemma isspace_code_points (c : ascii) :
  isspace c = bool_decide (N_of_ascii c ∈ white_space_below_256).
Proof. destruct c as [[] [] [] [] [] [] [] []]; vm_compute; reflexivity. Qed.

(** X6. The test both Flask services make on the text layer,
    [len(content.strip()) == 0], on a text of code points below 256 (the
    texts a [str] holds here; Python's [strip] also takes off the white
    space beyond them, such as U+2003): the test holds exactly when every
    character is one of the twelve code points U+0009 to U+000D, U+001C
    to U+0020, U+0085 and U+00A0, so for the empty text among others; and
    a text is blank exactly when its parts are. *)
Theorem blank_is_white_space_only (s t : string) :
  (Api.blank s = true
   <-> Forall (fun c => N_of_ascii c ∈ white_space_below_256)
         (list_ascii_of_string s))
  /\ Api.blank (s ++ t) = Api.blank s && Api.blank t.
Proof.
  assert (Hspace : forall u,
            Api.blank u = true
            <-> Forall (fun c => N_of_ascii c ∈ white_space_below_256)
                  (list_ascii_of_string u)).
  { intros u. rewrite blank_iff_all_space, forallb_forall, Forall_forall.
    split; intros H c Hc.
    - apply list_elem_of_In, H in Hc. rewrite isspace_code_points in Hc.
      apply bool_decide_eq_true in Hc. exact Hc.
    - rewrite isspace_code_points. apply bool_decide_eq_true, H.
      apply list_elem_of_In, Hc. }
  split; [apply Hspace|].
  assert (Happ : list_ascii_of_string (s ++ t)
                 = (list_ascii_of_string s ++ list_ascii_of_string t)%list).
  { induction s as [|c s IH]; [reflexivity|].
    change (String c s ++ t) with (String c (s ++ t)).
    cbn [list_ascii_of_string]. rewrite IH. reflexivity. }
  destruct (Api.blank (s ++ t)) eqn:Hst.
  - apply blank_iff_all_space in Hst. rewrite Happ, forallb_app in Hst.
    apply andb_prop in Hst as [Hs Ht].
    apply blank_iff_all_space in Hs, Ht. rewrite Hs, Ht. reflexivity.
  - destruct (Api.blank s) eqn:Hs; [|reflexivity].
    destruct (Api.blank t) eqn:Ht; [|reflexivity].
    apply blank_iff_all_space in Hs, Ht.
    assert (H : Api.blank (s ++ t) = true).
    { apply blank_iff_all_space. rewrite Happ, forallb_app, Hs, Ht. reflexivity. }
    congruence.
Qed.

(** ** The OCR pass of the Flask handler *)

(** X7. The two tests of the OCR path differ: the text layer is tested
    after stripping, the OCR text is compared with the empty text. So an
    OCR text made of white space only (form feeds between empty pages) is
    not taken for a failure: the Flask handler answers with it, and with
    the diagnostic and the return code of the OCR pass. *)
Theorem flask_blank_ocr_text_is_kept (T : tools) (req : Api.request) (w : world)
    (c e : string) (rc : Z) (img : bytes) (r : extraction)
    (c2 e2 : string) (rc2 : Z) :
  fresh_names T ->
  last_item (split "." (Api.filename req)) = "pdf" ->
  truthy (Api.parse_do_ocr (Api.do_ocr_arg req)) = true ->
  pdftotext T (Some (Api.upload req)) = Return (c, e, rc) ->
  Api.blank c = true ->
  rasterizer T (Some (Api.upload req)) = Return (img, r) ->
  tesseract T (Some img) = Return (c2, e2, rc2) ->
  c2 ≠ "" ->
  Api.blank c2 = true ->
  exists w',
    Api.extract_content T req w
    = (Return (Api.jsonify (Api.payload (c2, e2, rc2))), w')
    /\ Api.payload (c2, e2, rc2) !! "content" = Some (JStr c2)
    /\ Api.payload (c2, e2, rc2) !! "error_code" = Some (JStr (pretty rc2)).
Proof.
  intros Hfresh Hext Hocr Hpdf Hblank Hras Htess Hne _.
  eexists. split; [|split; apply api_payload_fields].
  rewrite (api_extract_content_ocr T Hfresh w req c e rc img r (c2, e2, rc2)
             Hext Hocr Hpdf Hblank Hras Htess).
  unfold ocr_verdict. apply String.eqb_neq in Hne. rewrite Hne. reflexivity.
Qed.

Lemma flask_blank_ocr_text_is_kept_witness :
  exists w',
    Api.extract_content (Fixtures.scanned Fixtures.form_feeds)
      (Api.Request "opinion.pdf" Fixtures.image_pdf (Some "True"))
      Fixtures.empty_world
    = (Return (Api.jsonify (Api.payload (Fixtures.form_feeds, "", 0))), w')
    /\ Api.payload (Fixtures.form_feeds, "", 0) !! "content"
       = Some (JStr Fixtures.form_feeds)
    /\ Api.payload (Fixtures.form_feeds, "", 0) !! "error_code" = Some (JStr "0").
Proof.
  exact (flask_blank_ocr_text_is_kept (Fixtures.scanned Fixtures.form_feeds)
           (Api.Request "opinion.pdf" Fixtures.image_pdf (Some "True"))
           Fixtures.empty_world Fixtures.form_feeds "" 0 (b "II*") ("", "", 0)
           Fixtures.form_feeds "" 0
           (fixture_names_fresh (Fixtures.scanned Fixtures.form_feeds) eq_refl)
           eq_refl eq_refl eq_refl eq_refl eq_refl eq_refl
           ltac:(discriminate) eq_refl).
Defined.


(** ** The audio handler of api.py *)

Section AudioRun.
Context (A : Api.audio_tools) (req : Api.audio_request) (w : world).

(** The [except] clause always answers, with status 422. *)
Lemma audio_handler_run (e : exn) (w1 : world) :
  exists w2,
    (present ← path_exists (audio_tmp_path req);
     _ ← (if present : bool then remove (audio_tmp_path req) else mret tt);
     mret (Api.Response (<["msg" := JStr (exn_msg e)]> ∅) 422)) w1
    = (Return (Api.Response (<["msg" := JStr (exn_msg e)]> ∅) 422), w2).
Proof.
  cbv [mbind M_bind bind path_exists remove mret M_ret ret].
  case_bool_decide as Hp.
  - destruct Hp as [x Hx]. rewrite Hx. eauto.
  - eauto.
Qed.

(** After the transcoder, the temporary path holds what [transcoded]
    says. *)
Lemma convert_to_mp3_run (audio : bytes) :
  exists w1,
    Api.convert_to_mp3 A audio (audio_tmp_path req) w
    = ((Api.transcoder A audio).2, w1)
    /\ fs w1 !! audio_tmp_path req = transcoded A req w audio.
Proof.
  unfold Api.convert_to_mp3, transcoded.
  destruct (Api.transcoder A audio) as [[mp3|] r]; cbn [fst snd].
  - eexists. split; [reflexivity|]. cbn. apply lookup_insert_eq.
  - eexists. split; [reflexivity|]. reflexivity.
Qed.

Lemma audio_body_run :
  let body :=
    (audio_bytes ← lift (match Api.audio_file req with
                         | Some l => Return l
                         | None => Raise (Exn BadRequestKeyError
                             "400 Bad Request: The browser (or proxy) sent a request that this server could not understand.")
                         end);
     data ← lift (match Api.audio_data req with
                  | Some s => Api.json_loads A s
                  | None => Raise (Exn TypeError
                      "the JSON object must be str, bytes or bytearray, not NoneType")
                  end);
     _ ← Api.convert_to_mp3 A audio_bytes (audio_tmp_path req);
     loaded ← Api.set_mp3_meta_data A data (audio_tmp_path req);
     audio_b64 ← Api.convert_to_base64 A (audio_tmp_path req);
     _ ← remove (audio_tmp_path req);
     time_secs ← lift (match loaded with
                       | Some d => Return d
                       | None => Raise (Exn AttributeError
                           "'NoneType' object has no attribute 'info'")
                       end);
     mret (Api.jsonify (<["audio_b64" := JStr audio_b64]>
                       (<["duration" := JFloat time_secs]>
                       (<["msg" := JStr "Success"]> ∅))))) in
  match body w with
  | (Raise _, _) => ~ audio_steps A req w
  | (Return resp, _) => Api.status resp = 200 /\ audio_steps A req w
  end.
Proof.
  intros body. subst body. unfold audio_steps.
  rewrite bind_run. unfold lift at 1.
  destruct (Api.audio_file req) as [audio|] eqn:Haudio.
  2:{ intros (? & ? & ? & ? & ? & ? & H & _). discriminate. }
  cbv beta iota. rewrite bind_run. unfold lift at 1.
  destruct (Api.audio_data req) as [s|] eqn:Hdata.
  2:{ intros (? & ? & ? & ? & ? & ? & _ & H & _). discriminate. }
  destruct (Api.json_loads A s) as [data|x] eqn:Hloads.
  2:{ intros (? & ? & ? & ? & ? & ? & _ & H1 & H2 & _). congruence. }
  cbv beta iota. rewrite bind_run.
  destruct (convert_to_mp3_run audio) as (w1 & Hrun & Hfile). rewrite Hrun.
  destruct ((Api.transcoder A audio).2) as [[]|x] eqn:Htrans.
  2:{ intros (? & ? & ? & ? & ? & ? & H0 & _ & _ & H & _). congruence. }
  cbv beta iota. rewrite bind_run. unfold Api.set_mp3_meta_data. rewrite Hfile.
  destruct (Api.tagger A data (transcoded A req w audio))
    as [[mp3 loaded]|x] eqn:Htag.
  2:{ intros (? & ? & ? & ? & ? & ? & H0 & H1 & H2 & _ & H & _). congruence. }
  cbv beta iota. rewrite bind_run. unfold Api.convert_to_base64.
  rewrite run_tool_run. cbn [fs with_fs with_call]. rewrite lookup_insert_eq.
  destruct (Api.base64 A (Some mp3)) as [b64|x] eqn:Hb64.
  2:{ intros (? & ? & ? & ? & ? & ? & H0 & H1 & H2 & _ & H3 & H). congruence. }
  cbv beta iota. rewrite bind_run. unfold remove. cbn [fs with_fs with_call].
  rewrite lookup_insert_eq. cbv beta iota. rewrite bind_run. unfold lift.
  destruct loaded as [d|].
  - split; [reflexivity|]. exists audio, s, data, mp3, d, b64.
    repeat split; assumption.
  - intros (? & ? & ? & ? & ? & ? & H0 & H1 & H2 & _ & H3 & _). congruence.
Qed.

End AudioRun.

(** X8. The audio handler of api.py never raises: every request gets an
    answer, with status 200 or 422, and whatever happened the temporary
    file is gone and no other file has changed. *)
Theorem audio_conversion_always_answers (A : Api.audio_tools)
    (req : Api.audio_request) (w : world) :
  exists (resp : Api.response) (w' : world),
    Api.audio_conversion A req w = (Return resp, w')
    /\ (Api.status resp = 200 \/ Api.status resp = 422)
    /\ fs w' = delete (audio_tmp_path req) (fs w).
Proof.
  pose proof (audio_conversion_cleans_up A req w) as Hfs.
  fold (audio_tmp_path req) in Hfs. revert Hfs.
  unfold Api.audio_conversion, try_except. fold (audio_tmp_path req).
  pose proof (audio_body_run A req w) as Hbody. cbv zeta in Hbody. revert Hbody.
  match goal with |- context [match ?body w with _ => _ end] =>
    destruct (body w) as [[resp|x] w1] end.
  - intros [Hst _] Hfs. eexists _, _. split; [reflexivity|].
    split; [left; exact Hst | exact Hfs].
  - intros _. destruct (audio_handler_run req x w1) as (w2 & ->).
    intros Hfs. eexists _, _. split; [reflexivity|]. split; [right; reflexivity|].
    exact Hfs.
Qed.

(** X9. The audio handler of api.py answers 200 exactly when every step
    of its [try] block went through: the file and the metadata are in the
    request, the metadata parse, the transcoder and the tagger return,
    the tagged file could be loaded and the encoder returns. In every
    other case the answer is 422. *)
Theorem audio_conversion_succeeds_iff (A : Api.audio_tools)
    (req : Api.audio_request) (w w' : world) (resp : Api.response) :
  Api.audio_conversion A req w = (Return resp, w') ->
  (Api.status resp = 200 <-> audio_steps A req w)
  /\ (Api.status resp = 422 <-> ~ audio_steps A req w).
Proof.
  unfold Api.audio_conversion, try_except. fold (audio_tmp_path req).
  pose proof (audio_body_run A req w) as Hbody. cbv zeta in Hbody. revert Hbody.
  match goal with |- context [match ?body w with _ => _ end] =>
    destruct (body w) as [[resp'|x] w1] end.
  - intros [Hst Hyes] H. injection H as <- _. rewrite Hst.
    split; split; try discriminate; tauto.
  - intros Hno. destruct (audio_handler_run req x w1) as (w2 & ->).
    intros H. injection H as <- _. cbn [Api.status].
    split; split; try discriminate; tauto.
Qed.

Lemma audio_conversion_succeeds_iff_witness :
  Api.status (Api.jsonify (<["audio_b64" := JStr "SUQz"]>
                          (<["duration" := JFloat "51.6"]>
                          (<["msg" := JStr "Success"]> ∅)))) = 200
  <-> audio_steps Fixtures.working_audio
        (Api.AudioRequest (Some (b "wma")) (Some "{}") "0f") Fixtures.empty_world.
Proof.
  exact (proj1 (audio_conversion_succeeds_iff Fixtures.working_audio
                  (Api.AudioRequest (Some (b "wma")) (Some "{}") "0f")
                  Fixtures.empty_world _ _ eq_refl)).
Defined.


(** ** The MIME handler of api.py *)

Lemma parse_mime_falsy (arg : option string) :
  truthy (Api.parse_mime arg) = false
  <-> arg = None \/ arg = Some "" \/ arg = Some "False".
Proof.
  unfold Api.parse_mime. destruct arg as [s|]; cbn.
  - destruct (String.eqb_spec s "False") as [->|Hne]; cbn.
    + split; auto.
    + rewrite negb_false_iff. split.
      * intros H. apply String.eqb_eq in H. subst s. auto.
      * intros [H | [H | H]]; try discriminate.
        -- injection H as ->. reflexivity.
        -- injection H as ->. contradiction.
  - split; auto.
Qed.

(** The handler from its [try] on, for a request that has its file
    part: whatever libmagic does, there is an answer, and the upload that
    was saved is gone. *)
Lemma api_extract_mime_type_run (mk : mktemp_t)
    (magic : option bytes -> bool -> outcome string)
    (req : Api.mime_request) (w : world) :
  (forall (X : gset string) (suffix : string), mk X suffix ∉ X) ->
  Api.extract_mime_type mk magic req w
  = (Return (match magic (Some (Api.mime_upload req))
                     (truthy (Api.parse_mime (Api.mime_arg req))) with
             | Return mimetype =>
                 Api.Response (<["mimetype" := JStr mimetype]> ∅) 200
             | Raise x => Api.Response (<["error" := JStr (exn_msg x)]> ∅) 422
             end),
     World (fs w) (calls w ++ [Call "magic.from_file" (mk (dom (fs w)) "")])).
Proof.
  intros Hfresh.
  unfold Api.extract_mime_type, try_except.
  set (tmp := mk (dom (fs w)) "").
  assert (Htmp : fs w !! tmp = None) by (apply not_elem_of_dom, Hfresh).
  rewrite bind_run.
  erewrite with_NamedTemporaryFile_run; [| reflexivity |].
  2:{ fold tmp. rewrite bind_run. unfold save at 1. cbn [fs with_fs].
      unfold Api.from_file. cbn [fs with_fs with_call].
      rewrite lookup_insert_eq. reflexivity. }
  fold tmp.
  destruct (magic (Some (Api.mime_upload req)) _) as [mimetype|x]; cbn.
  - f_equal. world_eq.
    rewrite insert_insert_eq, delete_insert_eq. apply delete_id, Htmp.
  - f_equal. world_eq.
    rewrite insert_insert_eq, delete_insert_eq. apply delete_id, Htmp.
Qed.

(** X10. The endpoint /document/mime_type on whatever request comes in.
    A request with no part called "file" makes line 159 raise, before the
    [try] is entered. Every other request is answered: 200 with what
    libmagic said of the saved upload, or 422 with the message of what
    libmagic raised; either way the upload that was saved is gone.
    libmagic is asked for a description, not for a MIME type, exactly
    when the mime parameter is absent, empty or the text "False" (here
    the text "False" is turned into the boolean, which the OCR flag of
    the extraction handler is not). *)
Theorem flask_mime_type_answers (mk : mktemp_t)
    (magic : option bytes -> bool -> outcome string)
    (r : Api.flask_request) (w : world) :
  (forall (X : gset string) (suffix : string), mk X suffix ∉ X) ->
  let mime := Api.args r !! "mime" in
  let flag := truthy (Api.parse_mime mime) in
  (flag = false <-> mime = None \/ mime = Some "" \/ mime = Some "False")
  /\ (Api.files r !! "file" = None ->
      exists x, Api.document_mime_type mk magic r w = (Raise x, w)
                /\ exn_cls x = BadRequestKeyError)
  /\ (forall file : Api.file_storage,
        Api.files r !! "file" = Some file ->
        Api.document_mime_type mk magic r w
        = (Return (match magic (Some (Api.part_content file)) flag with
                   | Return mimetype =>
                       Api.Response (<["mimetype" := JStr mimetype]> ∅) 200
                   | Raise x =>
                       Api.Response (<["error" := JStr (exn_msg x)]> ∅) 422
                   end),
           World (fs w) (calls w ++ [Call "magic.from_file" (mk (dom (fs w)) "")]))).
Proof.
  intros Hfresh mime flag. split; [apply parse_mime_falsy|].
  unfold Api.document_mime_type, Api.files_getitem. split.
  - intros ->. eexists. split; reflexivity.
  - intros file ->. rewrite bind_run. unfold lift. cbv beta iota.
    rewrite api_extract_mime_type_run by exact Hfresh. reflexivity.
Qed.

Lemma flask_mime_type_answers_witness :
  Api.document_mime_type Fixtures.tmpname Fixtures.pdf_magic
    (Fixtures.upload_of "opinion.pdf" Fixtures.image_pdf [("mime", "False")])
    Fixtures.empty_world
  = (Return (Api.Response (<["mimetype" := JStr "PDF document, version 1.4"]> ∅) 200),
     World ∅ [Call "magic.from_file" "0"]).
Proof.
  exact (proj2 (proj2 (flask_mime_type_answers Fixtures.tmpname Fixtures.pdf_magic
                         (Fixtures.upload_of "opinion.pdf" Fixtures.image_pdf
                            [("mime", "False")])
                         Fixtures.empty_world (fun X _ => is_fresh X)))
           (Api.FileStorage "opinion.pdf" Fixtures.image_pdf) eq_refl).
Defined.

(** ** The handler of server.py *)

Lemma blank_false_strip (c : string) : Api.blank c = false -> strip c ≠ "".
Proof.
  unfold Api.blank. intros H Heq. rewrite Heq in H. discriminate.
Qed.

(** X11. The handler of server.py, on every path and whatever the tools
    do: it leaves the files on disk as it found them; when it answers
    with a text and the flag [True] the text is not empty; and when it
    answers with the flag [False] the text is empty or the sentence
    "Unable to extract document content.". *)
Theorem server_flag_and_files (T : tools) (req : Api.request) (w : world) :
  fresh_names T ->
  forall (r : outcome Server.result) (w' : world),
    Server.extract_content T req w = (r, w') ->
    fs w' = fs w
    /\ (forall c, r = Return (Server.Pair c true) -> c ≠ "")
    /\ (forall c, r = Return (Server.Pair c false) ->
          c = "" \/ c = "Unable to extract document content.").
Proof.
  intros Hfresh r w'. unfold Server.extract_content.
  set (extension := last_item (split "." (Api.filename req))).
  unfold with_NamedTemporaryFile at 1.
  destruct (suffix_ok ("." ++ extension)).
  2:{ intros H. injection H as <- <-.
      split; [reflexivity | split; intros c Hc; discriminate]. }
  set (tmp := mktemp T (dom (fs w)) ("." ++ extension)).
  assert (Htmp : fs w !! tmp = None) by (apply fresh_lookup, Hfresh).
  rewrite bind_run. unfold save at 1. cbn [fs with_fs calls].
  set (w1 := World (<[tmp := Api.upload req]> (fs w)) (calls w)).
  replace (with_fs <[tmp := Api.upload req]> (with_fs <[tmp := []]> w)) with w1
    by (unfold w1, with_fs; cbn [fs calls]; rewrite insert_insert_eq; reflexivity).
  assert (Hback : forall m, m = fs w1 -> delete tmp m = fs w).
  { intros m ->. unfold w1. cbn [fs]. rewrite delete_insert_eq.
    apply delete_id, Htmp. }
  assert (Htool : forall name f,
            let '(r0, w0) := (Server.Extracted <$> run_tool name f tmp) w1 in
            forall r1 w2, (r0, with_fs (delete tmp) w0) = (r1, w2) ->
            fs w2 = fs w
            /\ (forall c, r1 = Return (Server.Pair c true) -> c ≠ "")
            /\ (forall c, r1 = Return (Server.Pair c false) ->
                  c = "" \/ c = "Unable to extract document content.")).
  { intros name f. unfold fmap, M_fmap, bind. rewrite run_tool_run.
    destruct (f (fs w1 !! tmp)) as [x|x]; cbn; intros r1 w2 H;
      injection H as <- <-; cbn [fs with_fs with_call];
      (split; [apply Hback; reflexivity | split; intros c Hc; discriminate]). }
  destruct (extension =? "pdf")%string.
  - rewrite bind_run. unfold Server.communicate. rewrite bind_run.
    unfold make_pdftotext_process. rewrite run_tool_run.
    destruct (pdftotext T (fs w1 !! tmp)) as [[[c e] rc]|x]; cbn [mret M_ret ret].
    2:{ intros H. injection H as <- <-. cbn [fs with_fs with_call].
        split; [apply Hback; reflexivity | split; intros c Hc; discriminate]. }
    destruct (truthy (Api.parse_do_ocr (Api.do_ocr_arg req)) && Api.blank c) eqn:Hb.
    + enter_block ".tiff". cbn [fs with_call].
      set (tiff := mktemp T (dom (fs w1)) ".tiff").
      assert (Htiff : fs w1 !! tiff = None) by (apply fresh_lookup, Hfresh).
      assert (Hback' : forall x y, delete tmp (delete tiff (<[tiff := x]> (<[tiff := y]> (fs w1)))) = fs w).
      { intros x y. rewrite insert_insert_eq, delete_insert_eq.
        rewrite (delete_id _ tiff) by exact Htiff. apply Hback. reflexivity. }
      cbv [mbind M_bind bind rasterize_pdf Server.extract_from_pdf run_tool].
      cbn [fs with_fs with_call].
      destruct (rasterizer T _) as [[img r0]|x]; cbn [fs with_fs with_call].
      2:{ intros H. injection H as <- <-. cbn [fs with_fs with_call]. split.
          - rewrite delete_insert_eq, (delete_id _ tiff) by exact Htiff.
            apply Hback. reflexivity.
          - split; intros c0 Hc; discriminate. }
      destruct (tesseract T _) as [[[c2 e2] rc2]|x]; cbn [fs with_fs with_call mret M_ret ret].
      2:{ intros H. injection H as <- <-. cbn [fs with_fs with_call].
          split; [apply Hback' | split; intros c0 Hc; discriminate]. }
      destruct (String.eqb_spec c2 "") as [->|Hne]; cbn [fs with_fs with_call];
        intros H; injection H as <- <-; cbn [fs with_fs with_call].
      * split; [apply Hback'|]. split; intros c0 Hc; [discriminate|].
        injection Hc as <-. auto.
      * split; [apply Hback'|]. split; intros c0 Hc; [|discriminate].
        injection Hc as <-. exact Hne.
    + destruct (Api.blank c) eqn:Hblank; cbn [mret M_ret ret];
        intros H; injection H as <- <-; cbn [fs with_fs with_call].
      * split; [apply Hback; reflexivity|]. split; intros c0 Hc; [discriminate|].
        injection Hc as <-. auto.
      * split; [apply Hback; reflexivity|]. split; intros c0 Hc; [|discriminate].
        injection Hc as <-. apply blank_false_strip, Hblank.
  - unfold extract_from_doc, extract_from_docx, extract_from_html,
      extract_from_txt, extract_from_wpd.
    repeat match goal with
           | |- context [if ?x then _ else _] => destruct x
           end;
      lazymatch goal with
      | |- context [(Server.Extracted <$> run_tool ?n ?f tmp) w1] =>
          pose proof (Htool n f) as H;
          destruct ((Server.Extracted <$> run_tool n f tmp) w1) as [r0 w0];
          apply H
      | |- _ =>
          cbn [mret M_ret ret]; intros H; injection H as <- <-;
          cbn [fs with_fs];
          (split; [apply Hback; reflexivity | split; intros c Hc; discriminate])
      end.
Qed.

Lemma server_flag_and_files_witness :
  fs (Server.extract_content (Fixtures.scanned "page one")
        (Api.Request "opinion.pdf" Fixtures.image_pdf (Some "True"))
        Fixtures.empty_world).2 = ∅.
Proof.
  exact (proj1 (server_flag_and_files (Fixtures.scanned "page one")
                  (Api.Request "opinion.pdf" Fixtures.image_pdf (Some "True"))
                  Fixtures.empty_world
                  (fixture_names_fresh (Fixtures.scanned "page one") eq_refl)
                  _ _ (surjective_pairing _))).
Defined.


(** ** The Django handlers on every path *)

(** X12. The PDF-only handler of views.py never raises: its [try] block
    spans the whole body, so every request gets an answer, 200 with the
    text or 406 with a message, and a malformed request gets 406. *)
Theorem extract_pdf_always_answers (T : tools) (req : Views.request) (w : world) :
  exists (c : string) (st : Z) (w' : world),
    Views.extract_pdf T req w = (Return (Views.HttpResponse c st), w')
    /\ (st = 200 \/ st = 406)
    /\ (Views.well_formed req = false -> st = 406).
Proof.
  unfold Views.extract_pdf, try_except. rewrite bind_run.
  unfold Views.DocumentForm.
  destruct (Views.well_formed req) eqn:Hok; cbn [mret M_ret ret Views.is_valid negb].
  - cbv beta iota. rewrite bind_run. cbn [Views.fp].
    destruct (Views.extract_from_pdf T _ _ _) as [[[[[c e] rc] o]|x] w1].
    + rewrite bind_run. unfold Views.cleanup_form, remove. cbn [Views.fp].
      destruct (fs w1 !! _); cbn.
      * eexists _, _, _. split; [reflexivity|]. split; [auto | discriminate].
      * eexists _, _, _. split; [reflexivity|]. split; [auto | discriminate].
    + cbn. eexists _, _, _. split; [reflexivity|]. split; [auto | discriminate].
  - cbv beta iota. rewrite bind_run. unfold lift.
    destruct (Views.form_errors req); cbn;
      eexists _, _, _; (split; [reflexivity|]); split; auto.
Qed.

(** X13. The dispatch of the Django extraction handler binds
    [returncode] on every branch but the last: among the runs that
    return, the return code is unbound exactly for the extensions that
    have no extractor, and then no tool has been called; outside the PDF
    branch [extracted_by_ocr] keeps its initial [False]. *)
Theorem dispatch_binds_returncode (T : tools) (extension path : string)
    (ocr : bool) (w w' : world) (l : Views.locals) :
  Views.dispatch T extension path ocr w = (Return l, w') ->
  (Views.returncode l = None <-> registered extension = false)
  /\ (registered extension = false -> w' = w)
  /\ (extension ≠ "pdf" -> Views.extracted_by_ocr l = false).
Proof.
  unfold Views.dispatch.
  destruct (String.eqb_spec extension "pdf") as [->|Hpdf].
  { rewrite bind_run.
    destruct (Views.extract_from_pdf T path ocr w) as [[[[[c e] rc] o]|x] w1];
      [|discriminate].
    cbn. intros H. injection H as <- <-. cbn.
    split; [split; discriminate|]. split; [discriminate | congruence]. }
  assert (Htool : forall name f (known : registered extension = true),
            (Views.bound false <$> run_tool name f path) w = (Return l, w') ->
            (Views.returncode l = None <-> registered extension = false)
            /\ (registered extension = false -> w' = w)
            /\ (extension ≠ "pdf" -> Views.extracted_by_ocr l = false)).
  { intros name f known. unfold fmap, M_fmap, bind. rewrite run_tool_run.
    destruct (f (fs w !! path)) as [[[c e] rc]|x]; [|discriminate].
    cbn. intros H. injection H as <- <-. cbn. rewrite known.
    split; [split; discriminate|]. split; [discriminate | reflexivity]. }
  destruct (String.eqb_spec extension "doc") as [->|Hdoc]; [apply Htool; reflexivity|].
  destruct (String.eqb_spec extension "docx") as [->|Hdocx]; [apply Htool; reflexivity|].
  destruct (String.eqb_spec extension "html") as [->|Hhtml]; [apply Htool; reflexivity|].
  destruct (String.eqb_spec extension "txt") as [->|Htxt]; [apply Htool; reflexivity|].
  destruct (String.eqb_spec extension "wpd") as [->|Hwpd]; [apply Htool; reflexivity|].
  assert (Hreg : registered extension = false).
  { unfold registered. apply bool_decide_eq_false.
    repeat rewrite not_elem_of_cons. repeat split; try assumption.
    apply not_elem_of_nil. }
  cbn. intros H. injection H as <- <-. cbn.
  split; [split; auto|]. split; auto.
Qed.

Lemma dispatch_binds_returncode_witness :
  Views.returncode
    (Views.Locals "" "Unable to extract content due to unknown extension" None false)
  = None <-> registered "rtf" = false.
Proof.
  exact (proj1 (dispatch_binds_returncode (Fixtures.scanned "") "rtf" "/tmp/upload.rtf"
                  true Fixtures.empty_world Fixtures.empty_world _ eq_refl)).
Defined.

(** X14. The Django extraction handler removes the upload it saved
    exactly when it returns: after an answer the files on disk are as
    they were before the request; after an exception, of whatever
    extractor, they are those plus the saved upload. *)
Theorem upload_removed_iff_answered (T : tools) (req : Views.request)
    (w w' : world) (r : outcome Views.response) :
  fresh_names T ->
  Views.well_formed req = true ->
  Views.extract_doc_content T req w = (r, w') ->
  let path := mktemp T (dom (fs w)) ("." ++ Views.extension req) in
  fs w !! path = None
  /\ match r with
     | Return _ => fs w' = fs w
     | Raise _ => fs w' = <[path := Views.upload req]> (fs w)
     end.
Proof.
  intros Hfresh Hok Hrun path. split; [apply fresh_lookup, Hfresh|].
  destruct (Views.dispatch T (Views.extension req) path (Views.ocr_available req)
              (World (<[path := Views.upload req]> (fs w)) (calls w)))
    as [res w1] eqn:Hdis.
  rewrite (views_extract_doc_content_run T Hfresh req w w1 res Hok Hdis) in Hrun.
  destruct res as [l|x]; injection Hrun as <- <-; reflexivity.
Qed.

Lemma upload_removed_iff_answered_witness :
  fs (Views.extract_doc_content Fixtures.broken
        (Views.Request true None (b "not a word file") "doc" false)
        Fixtures.empty_world).2
  = {["0" := b "not a word file"]}.
Proof.
  exact (proj2 (upload_removed_iff_answered Fixtures.broken
                  (Views.Request true None (b "not a word file") "doc" false)
                  Fixtures.empty_world _ _
                  (fixture_names_fresh Fixtures.broken eq_refl) eq_refl
                  (surjective_pairing _))).
Defined.

(** X15. The text endpoint of views.py that is marked for retirement
    never answers a well-formed request: it raises what the text-layer
    pass raised, or, when that pass returns, it removes the upload and
    then raises a TypeError, because line 249 hands [JsonResponse] four
    positional arguments, a text as data and a text that holds as true as
    [safe]. *)
Theorem pdf_to_text_never_answers (T : tools) (req : Views.request) (w : world) :
  fresh_names T ->
  Views.well_formed req = true ->
  let path := mktemp T (dom (fs w)) ("." ++ Views.extension req) in
  (forall (r : outcome Views.response) (w' : world),
     Views.pdf_to_text T req w = (r, w') -> exists x, r = Raise x)
  /\ (forall c e rc,
        pdftotext T (Some (Views.upload req)) = Return (c, e, rc) ->
        Views.pdf_to_text T req w
        = (Raise (Exn TypeError
             "In order to allow non-dict objects to be serialized set the safe parameter to False."),
           World (fs w) (calls w ++ [Call "make_pdftotext_process" path]))).
Proof.
  intros Hfresh Hok path.
  assert (Hrun : Views.pdf_to_text T req w
                 = match pdftotext T (Some (Views.upload req)) with
                   | Return _ =>
                       (Raise (Exn TypeError
                          "In order to allow non-dict objects to be serialized set the safe parameter to False."),
                        World (fs w) (calls w ++ [Call "make_pdftotext_process" path]))
                   | Raise x =>
                       (Raise x,
                        World (<[path := Views.upload req]> (fs w))
                          (calls w ++ [Call "make_pdftotext_process" path]))
                   end).
  { unfold Views.pdf_to_text.
    erewrite bind_return by (apply views_DocumentForm_run, Hok).
    cbn [Views.is_valid Views.fp negb]. fold path.
    rewrite bind_run. unfold make_pdftotext_process. rewrite run_tool_run.
    cbn [fs]. rewrite lookup_insert_eq.
    destruct (pdftotext T (Some (Views.upload req))) as [[[c e] rc]|x];
      [|reflexivity].
    rewrite bind_run. unfold Views.cleanup_form, remove.
    cbn [fs with_call Views.fp]. rewrite lookup_insert_eq.
    cbn. f_equal. world_eq. rewrite delete_insert_eq.
    apply delete_id, fresh_lookup, Hfresh. }
  split.
  - intros r w' H. rewrite Hrun in H.
    destruct (pdftotext T (Some (Views.upload req))); injection H as <- _; eauto.
  - intros c e rc Hpdf. rewrite Hrun, Hpdf. reflexivity.
Qed.

Lemma pdf_to_text_never_answers_witness :
  Views.pdf_to_text (Fixtures.typed "(Slip Opinion)")
    (Views.Request true None (b "%PDF-1.4 text") "pdf" false) Fixtures.empty_world
  = (Raise (Exn TypeError
       "In order to allow non-dict objects to be serialized set the safe parameter to False."),
     World ∅ [Call "make_pdftotext_process" "0"]).
Proof.
  exact (proj2 (pdf_to_text_never_answers (Fixtures.typed "(Slip Opinion)")
                  (Views.Request true None (b "%PDF-1.4 text") "pdf" false)
                  Fixtures.empty_world
                  (fixture_names_fresh (Fixtures.typed "(Slip Opinion)") eq_refl)
                  eq_refl)
           "(Slip Opinion)" "" 0 eq_refl).
Defined.


(** ** The answers of the extension resolver *)

Lemma lower_char_idempotent (c : ascii) : lower_char (lower_char c) = lower_char c.
Proof. destruct c as [[] [] [] [] [] [] [] []]; reflexivity. Qed.

Lemma lower_idempotent (s : string) : lower (lower s) = lower s.
Proof.
  induction s as [|c s IH]; cbn; [reflexivity|].
  rewrite lower_char_idempotent, IH. reflexivity.
Qed.

Lemma fixes_values (e v : string) :
  Views.fixes !! e = Some v -> v ∈ [".html"; ".txt"; ".wma"; ".doc"].
Proof.
  unfold Views.fixes. intros H.
  repeat (apply lookup_insert_Some in H as [[_ <-] | [_ H]];
          [set_solver|]).
  rewrite lookup_empty in H. discriminate.
Qed.

(** X16. Every extension the resolver answers with is in lower case. *)
Theorem resolver_answers_in_lower_case (S : Views.sniffer)
    (req : Views.mime_request) (w w' : world) (c : string) (st : Z) :
  Views.mime_well_formed req = true ->
  Views.extract_extension S req w = (Return (Views.HttpResponse c st), w') ->
  lower c = c /\ st = 200.
Proof.
  intros Hok Hrun. rewrite extract_extension_run in Hrun by exact Hok.
  destruct (Views.resolve S (Views.file req) w) as [[[e|]|x] w1]; try discriminate.
  injection Hrun as <- <- _. split; [apply lower_idempotent | reflexivity].
Qed.

Lemma resolver_answers_in_lower_case_witness :
  lower ".html" = ".html" /\ 200 = 200.
Proof.
  exact (resolver_answers_in_lower_case Fixtures.html_sniffer
           (Views.MimeRequest true (b "<html></html>")) Fixtures.empty_world
           Fixtures.empty_world ".html" 200 eq_refl eq_refl).
Defined.

(** X17. The fix-up and the case folding of line 236, on an extension
    that is in lower case already: the answer is none of the six
    near-duplicates the table folds away (.htm, .xml, .wsdl, .ksh, .asf,
    .dot). The condition is needed, the table being consulted before the
    folding: .HTM is answered as .htm. *)
Theorem fix_up_answer_is_canonical (e : string) :
  lower e = e ->
  exists a, lower_op (Views.fix_up (Some e)) = Return (VStr a)
            /\ Views.fixes !! a = None
            /\ a ∉ [".htm"; ".xml"; ".wsdl"; ".ksh"; ".asf"; ".dot"].
Proof.
  intros Hlow. unfold Views.fix_up.
  assert (Hkeys : forall a, Views.fixes !! a = None ->
                    a ∉ [".htm"; ".xml"; ".wsdl"; ".ksh"; ".asf"; ".dot"]).
  { intros a Hnone Hin.
    repeat (apply elem_of_cons in Hin as [-> | Hin]; [discriminate|]).
    apply elem_of_nil in Hin. exact Hin. }
  destruct (Views.fixes !! e) as [v|] eqn:Hfix; cbn.
  - apply fixes_values in Hfix.
    assert (Hv : lower v = v /\ Views.fixes !! v = None).
    { repeat (apply elem_of_cons in Hfix as [-> | Hfix]; [split; reflexivity|]).
      apply elem_of_nil in Hfix. contradiction. }
    destruct Hv as [Hv1 Hv2]. exists v. rewrite Hv1. auto.
  - exists e. rewrite Hlow. auto.
Qed.

Lemma fix_up_answer_is_canonical_witness :
  (exists a, lower_op (Views.fix_up (Some ".wsdl")) = Return (VStr a)
             /\ Views.fixes !! a = None
             /\ a ∉ [".htm"; ".xml"; ".wsdl"; ".ksh"; ".asf"; ".dot"])
  /\ lower_op (Views.fix_up (Some ".HTM")) = Return (VStr ".htm").
Proof.
  split; [exact (fix_up_answer_is_canonical ".wsdl" eq_refl) | reflexivity].
Defined.

(** ** What is sniffed again after the unknown-binary placeholder *)

Section Strip.
Context (chars : bytes).

Lemma bytes_lstrip_spec (l : bytes) :
  exists pre, l = (pre ++ bytes_lstrip chars l)%list
              /\ forallb (fun x => in_bytes x chars) pre = true
              /\ (forall x r, bytes_lstrip chars l = x :: r -> in_bytes x chars = false).
Proof.
  induction l as [|y l IH]; cbn.
  - exists []. repeat split. discriminate.
  - destruct (in_bytes y chars) eqn:Hy.
    + destruct IH as (pre & Hl & Hpre & Hhd). exists (y :: pre). cbn.
      rewrite Hy, Hpre. split; [f_equal; exact Hl | auto].
    + exists []. split; [reflexivity|]. split; [reflexivity|].
      intros x r H. injection H as <- _. exact Hy.
Qed.

Lemma bytes_rstrip_spec (l : bytes) :
  exists post, l = (bytes_rstrip chars l ++ post)%list
               /\ forallb (fun x => in_bytes x chars) post = true
               /\ (forall x r, bytes_rstrip chars l = (r ++ [x])%list ->
                     in_bytes x chars = false)
               /\ (forall x r, l = x :: r -> in_bytes x chars = false ->
                     exists r', bytes_rstrip chars l = x :: r').
Proof.
  induction l as [|y l IH].
  - exists []. cbn. repeat split; try discriminate.
    intros x r H. destruct r; discriminate.
  - destruct IH as (post & Hl & Hpost & Hlast & _). cbn [bytes_rstrip].
    destruct (bytes_rstrip chars l) as [|z t] eqn:Hr.
    + destruct (in_bytes y chars) eqn:Hy.
      * exists (y :: post). cbn. rewrite Hy, Hpost.
        split; [f_equal; exact Hl|]. split; [reflexivity|]. split.
        -- intros x r H. destruct r; discriminate.
        -- intros x r H Hx. injection H as <- _. congruence.
      * exists post. split; [cbn; f_equal; exact Hl|]. split; [exact Hpost|]. split.
        -- intros x r H. destruct r as [|? r]; [injection H as <-; exact Hy|].
           destruct r; discriminate.
        -- intros x r H _. injection H as <- _. eauto.
    + exists post. split; [cbn; f_equal; exact Hl|]. split; [exact Hpost|]. split.
      * intros x r H. destruct r as [|y' r]; [discriminate|].
        injection H as _ H. apply (Hlast x r). exact H.
      * intros x r H _. injection H as <- _. eauto.
Qed.

End Strip.

(** X18. What line 225 hands to libmagic for the second look is the
    content without its longest prefix and its longest suffix made of the
    bytes [%], [E], [O], [F] and carriage return: what is cut off at
    either end is made of these bytes only, and what is left neither
    starts nor ends with one of them. So more than a trailing carriage
    return goes: the [%] that opens a PDF header is cut off too. *)
Theorem resniffed_content (content : bytes) :
  let noise := (b "%%EOF" ++ [Views.carriage_return])%list in
  let kept := bytes_strip noise content in
  exists pre post,
    content = (pre ++ kept ++ post)%list
    /\ forallb (fun x => in_bytes x noise) pre = true
    /\ forallb (fun x => in_bytes x noise) post = true
    /\ (forall x r, kept = x :: r -> in_bytes x noise = false)
    /\ (forall x r, kept = (r ++ [x])%list -> in_bytes x noise = false).
Proof.
  intros noise kept. unfold kept, bytes_strip.
  destruct (bytes_lstrip_spec noise content) as (pre & Hc & Hpre & Hhd).
  destruct (bytes_rstrip_spec noise (bytes_lstrip noise content))
    as (post & Hm & Hpost & Hlast & Hkeep).
  exists pre, post. split; [|split; [exact Hpre | split; [exact Hpost | split]]].
  - rewrite <- Hm. exact Hc.
  - intros x r H. destruct (bytes_lstrip noise content) as [|y m] eqn:Hl.
    + discriminate.
    + pose proof (Hhd y m eq_refl) as Hy.
      destruct (Hkeep y m eq_refl Hy) as (r' & Hr').
      rewrite Hr' in H. injection H as <- _. exact Hy.
  - exact Hlast.
Qed.

Example resniffed_pdf :
  bytes_strip (b "%%EOF" ++ [Views.carriage_return])%list
    (b "%PDF-1.4 body %%EOF" ++ [Views.carriage_return])%list
  = b "PDF-1.4 body ".
Proof. reflexivity. Qed.


(** ** The duration handler of views.py *)

Lemma write_chunks_run (path : string) (chunks : list bytes) (w : world)
    (old : bytes) :
  fs w !! path = Some old ->
  write_chunks path chunks w
  = (Return tt, World (<[path := (old ++ concat chunks)%list]> (fs w)) (calls w)).
Proof.
  revert w old. induction chunks as [|chunk rest IH]; intros w old Hold.
  - cbn. rewrite app_nil_r, insert_id by exact Hold.
    destruct w. reflexivity.
  - cbn [write_chunks concat]. rewrite bind_run. unfold write at 1.
    cbv beta iota. unfold bytes in *. rewrite Hold. cbn [default].
    rewrite (IH _ (old ++ chunk)%list)
      by (cbn [fs with_fs]; apply lookup_insert_eq).
    cbn [fs with_fs calls]. rewrite insert_insert_eq, <- app_assoc. reflexivity.
Qed.

(** X19. The duration handler of views.py never raises. A malformed
    request gets 406; every other request gets status 200, with the
    duration when the audio library loaded the file and found its audio
    frames, and with the message of the exception when the library
    raised, when it handed back [None] (no attribute [info]) or when the
    file it loaded has no [info] (no attribute [time_secs]). What the
    library is given to load is the chunks of the upload, one after the
    other, and the temporary file is gone afterwards. *)
Theorem audio_duration_always_answers (mk : mktemp_t)
    (eyed3_load : option bytes -> outcome (option Views.audio_file))
    (req : Views.audio_request) (w : world) :
  (forall (X : gset string) (suffix : string), mk X suffix ∉ X) ->
  Views.fetch_audio_duration mk eyed3_load req w
  = if Views.audio_well_formed req
    then (Return (Views.HttpResponse
                    match eyed3_load (Some (concat (Views.chunks req))) with
                    | Return (Some mp3_file) =>
                        match Views.info mp3_file with
                        | Some mp3_info => Views.time_secs mp3_info
                        | None => "'NoneType' object has no attribute 'time_secs'"
                        end
                    | Return None => "'NoneType' object has no attribute 'info'"
                    | Raise x => exn_msg x
                    end 200),
          World (fs w) (calls w ++ [Call "eyed3.load" (mk (dom (fs w)) ".mp3")]))
    else (Return (Views.HttpResponse "Failed validation" 406), w).
Proof.
  intros Hfresh. unfold Views.fetch_audio_duration, try_except.
  destruct (Views.audio_well_formed req); [|reflexivity].
  cbn [negb]. set (tmp := mk (dom (fs w)) ".mp3").
  assert (Htmp : fs w !! tmp = None) by (apply not_elem_of_dom, Hfresh).
  assert (Hback : delete tmp (<[tmp := concat (Views.chunks req)]> (fs w)) = fs w).
  { rewrite delete_insert_eq. apply delete_id, Htmp. }
  enter_block ".mp3". fold tmp.
  rewrite bind_run. unfold save, with_fs. cbn [fs calls].
  rewrite insert_insert_eq. rewrite bind_run.
  rewrite (write_chunks_run tmp (Views.chunks req) _ [])
    by (cbn [fs]; apply lookup_insert_eq).
  cbn [fs calls app]. rewrite insert_insert_eq.
  rewrite bind_run, run_tool_run. cbn [fs]. rewrite lookup_insert_eq.
  unfold bytes in *.
  destruct (eyed3_load (Some (concat (Views.chunks req)))) as [[[[mp3_info|]]|]|x];
    cbv [mbind M_bind bind lift mret M_ret ret with_call Views.getattr Views.info];
    cbn [fs calls]; rewrite Hback; reflexivity.
Qed.

Lemma audio_duration_always_answers_witness :
  Views.fetch_audio_duration Fixtures.tmpname Fixtures.silent_eyed3
    (Views.AudioRequest true [b "not "; b "audio"]) Fixtures.empty_world
  = (Return (Views.HttpResponse "'NoneType' object has no attribute 'time_secs'" 200),
     World ∅ [Call "eyed3.load" "0"])
  /\ Views.fetch_audio_duration Fixtures.tmpname Fixtures.deaf_eyed3
       (Views.AudioRequest true [b "not "; b "audio"]) Fixtures.empty_world
     = (Return (Views.HttpResponse "'NoneType' object has no attribute 'info'" 200),
        World ∅ [Call "eyed3.load" "0"]).
Proof.
  split.
  - exact (audio_duration_always_answers Fixtures.tmpname Fixtures.silent_eyed3
             (Views.AudioRequest true [b "not "; b "audio"]) Fixtures.empty_world
             (fun X _ => is_fresh X)).
  - exact (audio_duration_always_answers Fixtures.tmpname Fixtures.deaf_eyed3
             (Views.AudioRequest true [b "not "; b "audio"]) Fixtures.empty_world
             (fun X _ => is_fresh X)).
Defined.

(** ** The URL table *)

Lemma find_unique {A : Type} (f : A -> string) (l : list A) (a : A) :
  NoDup (map f l) -> In a l ->
  List.find (fun x => String.eqb (f x) (f a)) l = Some a.
Proof.
  induction l as [|x l IH]; intros Hnd Hin; [contradiction|].
  cbn in Hnd. apply NoDup_cons in Hnd as [Hx Hnd]. cbn.
  destruct Hin as [-> | Hin].
  - rewrite String.eqb_refl. reflexivity.
  - destruct (String.eqb_spec (f x) (f a)) as [Heq|_]; [|apply IH; assumption].
    exfalso. apply Hx. rewrite Heq. apply list_elem_of_In, in_map, Hin.
Qed.

Lemma view_eqb_eq (v v' : Urls.view) : Urls.view_eqb v v' = true -> v = v'.
Proof. destruct v, v'; (reflexivity || discriminate). Qed.

(** X20. The URL table of urls.py lists no route twice, so every route
    it lists is served by the pattern that lists it, wherever the pattern
    stands in the table; and although six names are given to two or three
    patterns each, patterns that share a name share their handler. *)
Theorem routes_are_unambiguous :
  NoDup (map Urls.route Urls.urlpatterns)
  /\ (forall p, In p Urls.urlpatterns -> Urls.resolve (Urls.route p) = Some p)
  /\ (forall p q, In p Urls.urlpatterns -> In q Urls.urlpatterns ->
        Urls.name p = Urls.name q -> Urls.target p = Urls.target q).
Proof.
  assert (Hnd : NoDup (map Urls.route Urls.urlpatterns)).
  { apply (@bool_decide_unpack _ (NoDup_dec _)). vm_compute. exact I. }
  split; [exact Hnd|]. split.
  - intros p Hp. unfold Urls.resolve. apply find_unique; assumption.
  - assert (H : forallb (fun p =>
                  forallb (fun q =>
                    implb (String.eqb (Urls.name p) (Urls.name q))
                          (Urls.view_eqb (Urls.target p) (Urls.target q)))
                    Urls.urlpatterns) Urls.urlpatterns = true)
      by (vm_compute; reflexivity).
    intros p q Hp Hq Hname. rewrite forallb_forall in H.
    specialize (H p Hp). rewrite forallb_forall in H. specialize (H q Hq).
    apply String.eqb_eq in Hname. rewrite Hname in H. apply view_eqb_eq, H.
Qed.

Example legacy_page_count_route :
  Urls.target <$> Urls.resolve "document/page_count" = Some Urls.page_count.
Proof. reflexivity. Qed.

Example thumbnails_route_is_missing :
  Urls.resolve "convert/pdf/thumbnails/" = None.
Proof. reflexivity. Qed.
